(** * OmiAI: the request-orchestration pipeline of [index.ts]

    A shallow embedding of [fallback], [messageMap], [decidePreConfig], the
    tool executors and [generate] of [createOmiAI], followed by the properties
    the design document states about them.

    Conventions of the embedding.
    - A JavaScript string is the [string] of its code units; the embedding
      covers code units below 256.
    - [undefined] is [None]; a value of type [T | undefined] is an [option T].
    - A turn of the conversation has the two properties [role] and [content]
      of its interface, in that order, and no other.
    - An [async] function is a state-passing function: it takes the state of
      the outside world (providers, JigsawStack services) together with the
      request-local mutable variables and returns either a value or a thrown
      exception, and the state after the call.  A thrown exception keeps the
      state reached when it was thrown. *)

From Stdlib Require Import String Ascii List ZArith QArith Bool Lia.
From Stdlib Require Import Numbers.DecimalString Numbers.DecimalNat.
Import ListNotations.
Close Scope Q_scope.
Open Scope list_scope.
Open Scope string_scope.

Set Implicit Arguments.

(** ** JavaScript string primitives *)

Module JS.

(** [s.startsWith(p)]. *)
Fixpoint startsWith (p s : string) : bool :=
  match p with
  | EmptyString => true
  | String a p' =>
      match s with
      | EmptyString => false
      | String b s' => Ascii.eqb a b && startsWith p' s'
      end
  end.

(** [s.includes(p)]. *)
Fixpoint includes (p s : string) : bool :=
  startsWith p s ||
  match s with
  | EmptyString => false
  | String _ s' => includes p s'
  end.

Fixpoint rev_onto (acc s : string) : string :=
  match s with
  | EmptyString => acc
  | String c s' => rev_onto (String c acc) s'
  end.

(** The characters collected so far are kept in reverse. *)
Definition unrev (cur : string) : string := rev_onto EmptyString cur.

(** [s.split(sep)] for a non-empty separator.  [skip] counts the characters
    of a separator occurrence that are still to be passed over; [cur] is the
    piece under construction, in reverse. *)
Fixpoint split_from (sep s : string) (skip : nat) (cur : string) : list string :=
  match s with
  | EmptyString => [unrev cur]
  | String c s' =>
      match skip with
      | S k => split_from sep s' k cur
      | O =>
          if startsWith sep s
          then unrev cur :: split_from sep s' (String.length sep - 1) EmptyString
          else split_from sep s' 0 (String c cur)
      end
  end.

Definition split (sep s : string) : list string := split_from sep s 0 EmptyString.

(** White space and line terminators of [String.prototype.trim] among the
    code units below 256: TAB, LF, VT, FF, CR, SP, NBSP. *)
Definition isWhiteSpace (c : ascii) : bool :=
  let n := nat_of_ascii c in
  (Nat.leb 9 n && Nat.leb n 13) || Nat.eqb n 32 || Nat.eqb n 160.

Fixpoint trimStart (s : string) : string :=
  match s with
  | EmptyString => EmptyString
  | String c s' => if isWhiteSpace c then trimStart s' else s
  end.

Fixpoint trimEnd (s : string) : string :=
  match s with
  | EmptyString => EmptyString
  | String c s' =>
      match trimEnd s' with
      | EmptyString => if isWhiteSpace c then EmptyString else String c EmptyString
      | t => String c t
      end
  end.

Definition trim (s : string) : string := trimEnd (trimStart s).

(** Truthiness of a string: the empty string is falsy. *)
Definition truthy (s : string) : bool :=
  match s with EmptyString => false | _ => true end.

(** [a || b] on [string | undefined] operands. *)
Definition or_else (a b : option string) : option string :=
  match a with
  | Some s => if truthy s then a else b
  | None => b
  end.

(** [`${i}`] for a non-negative integer. *)
Definition of_nat (n : nat) : string := NilEmpty.string_of_uint (Nat.to_uint n).

Definition of_Z (z : Z) : string := NilEmpty.string_of_int (Z.to_int z).

(** [`${x}`] for [x : string | undefined]. *)
Definition interpolate (x : option string) : string :=
  match x with Some s => s | None => "undefined" end.

Fixpoint join (sep : string) (l : list string) : string :=
  match l with
  | [] => EmptyString
  | [x] => x
  | x :: rest => x ++ sep ++ join sep rest
  end.

End JS.

(** ** JSON values and [JSON.stringify] *)

#[local] Set Warnings "-register-all".

Inductive json : Type :=
| JNull
| JBool (b : bool)
| JNum (z : Z)
| JStr (s : string)
| JArr (l : list json)
| JObj (fields : list (string * json)).

Module JSON.

Definition dquote : string := String (ascii_of_nat 34) EmptyString.

Definition hexDigit (n : nat) : ascii :=
  ascii_of_nat (if Nat.ltb n 10 then 48 + n else 87 + n).

(** [QuoteJSONString]: the escapes of one code unit. *)
Definition escapeChar (c : ascii) : string :=
  let n := nat_of_ascii c in
  if Nat.eqb n 34 then "\" ++ dquote
  else if Nat.eqb n 92 then "\\"
  else if Nat.eqb n 8 then "\b"
  else if Nat.eqb n 12 then "\f"
  else if Nat.eqb n 10 then "\n"
  else if Nat.eqb n 13 then "\r"
  else if Nat.eqb n 9 then "\t"
  else if Nat.ltb n 32
       then "\u00" ++ String (hexDigit (n / 16)) (String (hexDigit (n mod 16)) EmptyString)
       else String c EmptyString.

Fixpoint escape (s : string) : string :=
  match s with
  | EmptyString => EmptyString
  | String c s' => escapeChar c ++ escape s'
  end.

Definition quote (s : string) : string := dquote ++ escape s ++ dquote.

Fixpoint stringify (j : json) : string :=
  match j with
  | JNull => "null"
  | JBool true => "true"
  | JBool false => "false"
  | JNum z => JS.of_Z z
  | JStr s => quote s
  | JArr l => "[" ++ JS.join "," (map stringify l) ++ "]"
  | JObj fields =>
      "{" ++ JS.join "," (map (fun kv => quote (fst kv) ++ ":" ++ stringify (snd kv)) fields) ++ "}"
  end.

End JSON.

(** ** Exceptions and asynchronous computations *)

(** A thrown value: a [TypeError] of the runtime, or an [Error] created by
    the program or by a collaborator. *)
Inductive exn : Type :=
| TypeError (message : string)
| Error (message : string).

Inductive Result (A : Type) : Type :=
| Ok (value : A)
| Throw (error : exn).

Arguments Ok {A} value.
Arguments Throw {A} error.

(** An asynchronous computation over a state [St]. *)
Definition M (St A : Type) : Type := St -> Result A * St.

Definition ret {St A} (a : A) : M St A := fun s => (Ok a, s).

Definition throw {St A} (e : exn) : M St A := fun s => (Throw e, s).

Definition bind {St A B} (m : M St A) (k : A -> M St B) : M St B :=
  fun s =>
    match m s with
    | (Ok a, s1) => k a s1
    | (Throw e, s1) => (Throw e, s1)
    end.

Declare Scope async_scope.
Delimit Scope async_scope with async.
Notation "x <- m ;; k" := (bind m (fun x => k))
  (at level 61, m at next level, right associativity) : async_scope.
Notation "' pat <- m ;; k" := (bind m (fun x => match x with pat => k end))
  (at level 61, pat pattern, m at next level, right associativity) : async_scope.
Open Scope async_scope.

(** The outcome of one promise under [Promise.allSettled]. *)
Inductive Settled (A : Type) : Type :=
| fulfilled (value : A)
| rejected (reason : exn).

Arguments fulfilled {A} value.
Arguments rejected {A} reason.

Definition settle {A} (r : Result A) : Settled A :=
  match r with
  | Ok a => fulfilled a
  | Throw e => rejected e
  end.

(** [Promise.allSettled(ps)]: every computation is started, in the order of
    the array, and the outcomes are collected in that order; nothing is
    thrown.  The calls are taken one after the other. *)
Fixpoint allSettled {St A} (ps : list (M St A)) : M St (list (Settled A)) :=
  match ps with
  | [] => ret []
  | p :: ps' =>
      fun s =>
        let (r, s1) := p s in
        match allSettled ps' s1 with
        | (Ok rs, s2) => (Ok (settle r :: rs), s2)
        | (Throw e, s2) => (Throw e, s2)
        end
  end.

(** ** The fallback executor ([fallback], index.ts:111-124) *)

Section Fallback.

Variables St T G : Type.

(** The argument of the unit of work: [undefined], or the object
    [{ [key]: item[index] }]. *)
Definition Subst : Type := option (string * option T).

Variable key : string.
Variable item : list T.
Variable genFunc : Subst -> M St G.

(** One iteration of the [do ... while] loop per unit of fuel; [None] is the
    [undefined] a function returns when its body ends without [return]. *)
Fixpoint fallback_loop (fuel : nat) (index : Z) : M St (option G) :=
  match fuel with
  | O => ret None
  | S fuel' =>
      fun s =>
        match genFunc (if (0 <=? index)%Z
                       then Some (key, nth_error item (Z.to_nat index))
                       else None) s with
        | (Ok resp, s1) => (Ok (Some resp), s1)
        | (Throw error, s1) =>
            let index := (index + 1)%Z in
            if (index >=? Z.of_nat (length item))%Z then (Throw error, s1)
            else if (index <? Z.of_nat (length item))%Z
                 then fallback_loop fuel' index s1
                 else (Ok None, s1)
        end
  end.

(** [let index = -1; do { ... } while (index < item.length)]: the loop body
    runs at most [item.length + 1] times. *)
Definition fallback : M St (option G) :=
  fallback_loop (S (length item)) (-1).

End Fallback.

Arguments Subst T : clear implicits.

(** ** Data model *)

(** [CoreMessage["role"]]. *)
Inductive Role : Type := User | Assistant | System | ToolRole.

(** The [type] of a content part: ["text" | "image" | "file"]. *)
Inductive PartType : Type := TextPart | ImagePart | FilePart.

Definition PartType_eqb (a b : PartType) : bool :=
  match a, b with
  | TextPart, TextPart | ImagePart, ImagePart | FilePart, FilePart => true
  | _, _ => false
  end.

Record ContentPart : Type := {
  part_type : PartType;
  part_data : string;
  part_mimeType : option string
}.

(** [content: string | { type, data, mimeType? }[]]. *)
Inductive Content : Type :=
| Text (s : string)
| Parts (l : list ContentPart).

Record GeneratePromptObj : Type := {
  role : Role;
  content : Content
}.

(** [prompt: string | GeneratePromptObj[]]. *)
Inductive Prompt : Type :=
| PromptString (s : string)
| PromptArray (l : list GeneratePromptObj).

(** A JavaScript number that the program only passes on. *)
Definition number : Type := Q.

(** A [z.ZodSchema] supplied by the caller; the program only passes it on. *)
Inductive ZodSchema : Type := Schema (name : string).

(** The provider instances: those created in [createOmiAI] and the default
    [google] instance imported from the provider package, which
    [decidePreConfig] uses. *)
Inductive Provider : Type :=
| Groq | Google | GoogleDefault | OpenAI | Anthropic | DeepInfra | DeepSeek.

(** A model handle [provider(modelId)] or [provider(modelId, settings)]. *)
Record LanguageModelV1 : Type := {
  provider : Provider;
  modelId : string;
  settings : bool
}.

(** [LanguageModelV1 | undefined]. *)
Definition ModelRef : Type := option LanguageModelV1.

Definition groq (id : string) : LanguageModelV1 :=
  {| provider := Groq; modelId := id; settings := false |}.
Definition openai (id : string) : LanguageModelV1 :=
  {| provider := OpenAI; modelId := id; settings := false |}.
Definition anthropic (id : string) : LanguageModelV1 :=
  {| provider := Anthropic; modelId := id; settings := false |}.
Definition deepinfra (id : string) : LanguageModelV1 :=
  {| provider := DeepInfra; modelId := id; settings := false |}.
Definition deepseek (id : string) : LanguageModelV1 :=
  {| provider := DeepSeek; modelId := id; settings := false |}.
Definition google (id : string) : LanguageModelV1 :=
  {| provider := Google; modelId := id; settings := false |}.
(** [google(id, { structuredOutputs: false, safetySettings: [...] })]. *)
Definition google_with_settings (id : string) : LanguageModelV1 :=
  {| provider := Google; modelId := id; settings := true |}.
Definition google_default (id : string) : LanguageModelV1 :=
  {| provider := GoogleDefault; modelId := id; settings := false |}.

(** A part of a [CoreMessage] as [messageMap] builds it. *)
Record MessagePart : Type := {
  mp_type : PartType;
  mp_image : option string;
  mp_text : option string;
  mp_data : option string;
  mp_mimeType : option string
}.

Inductive MessageContent : Type :=
| MText (s : string)
| MParts (l : list MessagePart).

Record CoreMessage : Type := {
  msg_content : MessageContent;
  msg_role : Role
}.

(** [Blob | string]. *)
Inductive FileData : Type :=
| BlobData (bytes : string)
| StringData (s : string).

(** [Files]: a generated image or audio file; [type] is ["image" | "file"]. *)
Record Files : Type := {
  file_type : PartType;
  file_data : FileData;
  file_mimeType : option string
}.

(** An element of [latestPromptFiles]: [{ ref, ...f }]. *)
Record PromptFile : Type := {
  ref : string;
  pf_type : PartType;
  pf_data : string;
  pf_mimeType : option string
}.

(** The object the Planner returns ([z.infer<typeof preConfigSchema>]). *)
Record PreConfig : Type := {
  pc_model : string;
  pc_reasoning : bool;
  pc_web_search : bool;
  pc_use_tool : bool
}.

(** An entry of [modelList]. *)
Record ModelEntry : Type := {
  id : string;
  speed : Z;
  smarts : Z;
  context_window : Z;
  file_type_support : list string;
  description : string;
  specialty : list string;
  fallback_id : option string;
  modelProvider : LanguageModelV1
}.

(** Results of the JigsawStack services. *)
Record SearchItem : Type := {
  si_title : string;
  si_content : option string;
  si_description : option string;
  si_snippets : list string;
  si_url : string
}.

Record SearchResponse : Type := { results : list SearchItem }.

Record SearchParams : Type := { query : string; ai_overview : bool }.

Record ContextResponse : Type := { context : json }.

Record ScrapeParams : Type := { scrape_url : string; element_prompts : list string }.

Record VocrParams : Type := { vocr_url : string; vocr_prompt : list string }.

(** Results of the completion calls of the [ai] package. *)
Record ToolCall : Type := { toolName : string; call_args : json }.

Record ToolResult : Type := { result : json }.

Record Step : Type := { toolCalls : list ToolCall; toolResults : list ToolResult }.

Record GenerateTextResult : Type := {
  text : string;
  reasoning : option string;
  steps : list Step;
  experimental_output : option json
}.

Record StreamTextResult : Type := {
  textStream : list string;
  experimental_partialOutputStream : list json
}.

Record GenerateObjectResult : Type := { object : option PreConfig }.

(** What [generateFunction] returns: the result of [generateText] or of
    [streamText]. *)
Inductive Resp : Type :=
| TextResp (r : GenerateTextResult)
| StreamResp (r : StreamTextResult).

(** [any] in [ToolUsed]. *)
Inductive any : Type :=
| AnyJson (j : json)
| AnySearch (r : SearchResponse)
| AnySearchParams (a : SearchParams).

(** ["tool-call" | "tool-context-use"]. *)
Inductive ToolUsedType : Type := tool_call | tool_context_use.

Record ToolUsed : Type := {
  tu_name : string;
  tu_result : any;
  tu_args : any;
  tu_type : ToolUsedType
}.

(** [GenerateResponse]: the provider's result with the fields [generate]
    attaches to it.  A field that is not attached is [None]. *)
Record GenerateResponse : Type := {
  resp : Resp;
  toolUsed : list ToolUsed;
  files : list Files;
  reasoningText : option string;
  r_object : option (option json);
  partialObjectStream : option (list json)
}.

(** Options of [generateObject] as [decidePreConfig] builds them; the schema
    is [preConfigSchema]. *)
Record ObjectOpts : Type := {
  oo_model : ModelRef;
  oo_prompt : string;
  oo_temperature : number
}.

(** Options of [generateText] and [streamText] as [generate] builds them.
    [o_tools] holds the names of the tool table. *)
Record TextOpts : Type := {
  o_model : ModelRef;
  o_prompt : option string;
  o_system : option string;
  o_messages : option (list CoreMessage);
  o_tools : option (list string);
  o_toolChoice : option string;
  o_maxSteps : option Z;
  o_experimental_output : option ZodSchema;
  o_temperature : number;
  o_topK : option number;
  o_topP : option number
}.

(** [{ ...opts, ...args }] for the argument [fallback] passes: the key
    ["model"] replaces the model. *)
Definition spread_text (opts : TextOpts) (args : Subst ModelRef) : TextOpts :=
  match args with
  | Some (k, v) =>
      if String.eqb k "model"
      then {| o_model := match v with Some m => m | None => None end;
              o_prompt := o_prompt opts; o_system := o_system opts;
              o_messages := o_messages opts; o_tools := o_tools opts;
              o_toolChoice := o_toolChoice opts; o_maxSteps := o_maxSteps opts;
              o_experimental_output := o_experimental_output opts;
              o_temperature := o_temperature opts;
              o_topK := o_topK opts; o_topP := o_topP opts |}
      else opts
  | None => opts
  end.

Definition spread_object (opts : ObjectOpts) (args : Subst ModelRef) : ObjectOpts :=
  match args with
  | Some (k, v) =>
      if String.eqb k "model"
      then {| oo_model := match v with Some m => m | None => None end;
              oo_prompt := oo_prompt opts;
              oo_temperature := oo_temperature opts |}
      else opts
  | None => opts
  end.

(** ** Arrays and objects *)

(** [l.splice(start, 0, x)]: a negative [start] counts from the end, and the
    position is clamped to the array. *)
Definition splice_insert {A} (l : list A) (start : Z) (x : A) : list A :=
  let len := Z.of_nat (length l) in
  let actual := if (start <? 0)%Z then Z.max (len + start) 0 else Z.min start len in
  (firstn (Z.to_nat actual) l ++ x :: skipn (Z.to_nat actual) l)%list.

(** [l.map((x, i) => f(i, x))], counting from [i]. *)
Fixpoint mapi_from {A B} (f : nat -> A -> B) (i : nat) (l : list A) : list B :=
  match l with
  | [] => []
  | x :: l' => f i x :: mapi_from f (S i) l'
  end.

(** An object used as a map, as the list of its own properties in the order
    [Object.keys] enumerates them. *)
Definition Obj (V : Type) : Type := list (string * V).

Fixpoint own {V} (o : Obj V) (k : string) : option V :=
  match o with
  | [] => None
  | (k', v) :: o' => if String.eqb k' k then Some v else own o' k
  end.

(** [{ ...o, [k]: v }]: an existing key keeps its place. *)
Fixpoint set_property {V} (o : Obj V) (k : string) (v : V) : Obj V :=
  match o with
  | [] => [(k, v)]
  | (k', v') :: o' =>
      if String.eqb k' k then (k', v) :: o' else (k', v') :: set_property o' k v
  end.

Definition keys {V} (o : Obj V) : list string := map fst o.

(** The members every object literal inherits from [Object.prototype]. *)
Definition objectPrototypeMembers : list string :=
  [ "constructor"; "__defineGetter__"; "__defineSetter__"; "hasOwnProperty";
    "__lookupGetter__"; "__lookupSetter__"; "isPrototypeOf";
    "propertyIsEnumerable"; "toString"; "valueOf"; "__proto__";
    "toLocaleString" ].

(** The value of [modelList[k]] when it is not [undefined]: an entry of the
    registry, or an inherited member, which has none of the properties
    [id], [fallback] and [modelProvider]. *)
Inductive Property : Type :=
| Own (e : ModelEntry)
| Inherited (name : string).

(** [modelList[k]]. *)
Definition get (modelList : Obj ModelEntry) (k : string) : option Property :=
  match own modelList k with
  | Some e => Some (Own e)
  | None =>
      if existsb (String.eqb k) objectPrototypeMembers
      then Some (Inherited k) else None
  end.

Definition prop_id (p : Property) : option string :=
  match p with Own e => Some (id e) | Inherited _ => None end.

Definition prop_fallback (p : Property) : option string :=
  match p with Own e => fallback_id e | Inherited _ => None end.

Definition prop_modelProvider (p : Property) : ModelRef :=
  match p with Own e => Some (modelProvider e) | Inherited _ => None end.

(** ** [messageMap] (index.ts:91-109) *)

Definition isMedia (t : PartType) : bool :=
  match t with ImagePart | FilePart => true | TextPart => false end.

Definition mapPart (c : ContentPart) : MessagePart :=
  {| mp_type := part_type c;
     mp_image := match part_type c with ImagePart => Some (part_data c) | _ => None end;
     mp_text := match part_type c with TextPart => Some (part_data c) | _ => None end;
     mp_data := match part_type c with FilePart => Some (part_data c) | _ => None end;
     mp_mimeType := match part_type c with TextPart => None | _ => part_mimeType c end |}.

Definition messageMap (prompts : list GeneratePromptObj) (removeMedia : bool)
  : list CoreMessage :=
  map (fun m =>
         {| msg_content :=
              match content m with
              | Text s => MText s
              | Parts l =>
                  MParts (filter (fun c => if removeMedia
                                           then negb (isMedia (mp_type c))
                                           else true)
                                 (map mapPart l))
              end;
            msg_role := role m |})
      prompts.

(** ** Serialisation of the values the prompts embed *)

Definition nl : string := String (ascii_of_nat 10) EmptyString.

Definition json_strings (l : list string) : json := JArr (map JStr l).

Definition json_null_or_string (x : option string) : json :=
  match x with Some s => JStr s | None => JNull end.

(** [{ ...modelList[key], modelProvider: undefined }]; [JSON.stringify]
    leaves the undefined property out. *)
Definition entry_json (e : ModelEntry) : json :=
  JObj [ ("id", JStr (id e)); ("speed", JNum (speed e)); ("smarts", JNum (smarts e));
         ("context_window", JNum (context_window e));
         ("file_type_support", json_strings (file_type_support e));
         ("description", JStr (description e));
         ("specialty", json_strings (specialty e));
         ("fallback", json_null_or_string (fallback_id e)) ].

Definition role_string (r : Role) : string :=
  match r with
  | User => "user" | Assistant => "assistant" | System => "system" | ToolRole => "tool"
  end.

Definition type_string (t : PartType) : string :=
  match t with TextPart => "text" | ImagePart => "image" | FilePart => "file" end.

Definition part_json (c : ContentPart) : json :=
  JObj ([ ("type", JStr (type_string (part_type c))); ("data", JStr (part_data c)) ]
        ++ match part_mimeType c with
           | Some m => [ ("mimeType", JStr m) ]
           | None => []
           end)%list.

(** [JSON.stringify] of a prompt object.  A turn is an object literal of the
    interface [GeneratePromptObj]: its own properties are [role] and
    [content], created in that order, which is the order [JSON.stringify]
    writes them in.  A turn created with [content] first, or with further
    properties, lies outside the embedding; only the text of the Planner's
    prompt depends on it. *)
Definition prompt_json (m : GeneratePromptObj) : json :=
  JObj [ ("role", JStr (role_string (role m)));
         ("content", match content m with
                     | Text s => JStr s
                     | Parts l => JArr (map part_json l)
                     end) ].

(** [{ title, content: c?.content || c?.description, snippets, url }]. *)
Definition searchItem_json (c : SearchItem) : json :=
  JObj ([ ("title", JStr (si_title c)) ]
        ++ match JS.or_else (si_content c) (si_description c) with
           | Some s => [ ("content", JStr s) ]
           | None => []
           end
        ++ [ ("snippets", json_strings (si_snippets c)); ("url", JStr (si_url c)) ])%list.

(** ** File references of the latest turn (index.ts:319-322) *)

Definition latestPromptFilesOf (lastPromptContent : Content) : list PromptFile :=
  mapi_from
    (fun i f => {| ref := "https://onellmref.com/" ++ JS.of_nat i;
                   pf_type := part_type f;
                   pf_data := part_data f;
                   pf_mimeType := part_mimeType f |})
    0
    match lastPromptContent with
    | Parts l => filter (fun c => negb (PartType_eqb (part_type c) TextPart)) l
    | Text _ => []
    end.

(** The [url] a media tool hands to its service (index.ts:362, 376, 401):
    [url.includes("https://onellmref.com")
       ? latestPromptFiles.find((f) => f.ref == url)?.data || url : url]. *)
Definition resolveRef (latestPromptFiles : list PromptFile) (url : string) : string :=
  if JS.includes "https://onellmref.com" url
  then match find (fun f => String.eqb (ref f) url) latestPromptFiles with
       | Some f => if JS.truthy (pf_data f) then pf_data f else url
       | None => url
       end
  else url.

(** [lastPromptContent?.find((c) => c.type == "text")?.data], or the content
    itself when it is a string. *)
Definition latestTextPromptOf (lastPromptContent : Content) : option string :=
  match lastPromptContent with
  | Parts l =>
      match find (fun c => PartType_eqb (part_type c) TextPart) l with
      | Some c => Some (part_data c)
      | None => None
      end
  | Text s => Some s
  end.

(** ** Reasoning extraction (index.ts:530-534) *)

(** [reasoningText.split("<think>")[1].split("</think>")[0]?.trim()]. *)
Definition extractThink (reasoningText : string) : string :=
  JS.trim (nth 0 (JS.split "</think>" (nth 1 (JS.split "<think>" reasoningText) "")) "").

(** [reasoningResult?.reasoning || reasoningResult?.text], then the
    extraction when the text includes ["<think>"]. *)
Definition reasoningTextOf (reasoningResult : option GenerateTextResult) : option string :=
  let reasoningText :=
    match reasoningResult with
    | Some r => JS.or_else (reasoning r) (Some (text r))
    | None => None
    end in
  match reasoningText with
  | Some t => if JS.includes "<think>" t then Some (extractThink t) else Some t
  | None => None
  end.

(** ** Tools and collaborators *)

(** A tool executor runs over the outside world and the [genFiles] array of
    the request, which the executors of the generating tools push to. *)
Definition Exec (W : Type) : Type -> Type := M (W * list Files).

(** [tool({ description, parameters, execute })]: the executor receives the
    arguments the [parameters] schema accepts. *)
Record CoreTool (W : Type) : Type := {
  Args : Type;
  tool_description : string;
  parameters : json -> option Args;
  execute : Args -> Exec W json
}.

(** The collaborators: the completion operations of the [ai] package and the
    JigsawStack services.  The completion operations receive the tool table
    and may run its executors. *)
Class Collaborators (W : Type) : Type := {
  generateObject : ObjectOpts -> M W GenerateObjectResult;
  generateText : TextOpts -> option (Obj (CoreTool W)) -> Exec W GenerateTextResult;
  streamText : TextOpts -> option (Obj (CoreTool W)) -> Exec W StreamTextResult;
  jigsaw_web_search : SearchParams -> M W SearchResponse;
  jigsaw_web_ai_scrape : ScrapeParams -> M W ContextResponse;
  jigsaw_vision_vocr : VocrParams -> M W ContextResponse;
  jigsaw_image_generation : string -> M W string;
  jigsaw_audio_speech_to_text : string -> M W json;
  jigsaw_audio_text_to_speech : string -> M W string;
  Date_toISOString : M W string
}.

(** [GenerateParams]. *)
Record GenerateParams (W : Type) : Type := {
  p_stream : option bool;
  p_reasoning : option bool;
  p_multiLLM : option bool;
  p_system : option string;
  p_prompt : Prompt;
  p_schema : option ZodSchema;
  p_contextTool : option (option bool);
  p_autoTool : option bool;
  p_temperature : option number;
  p_topK : option number;
  p_topP : option number;
  p_tools : option (Obj (CoreTool W))
}.

(** The pipeline stage that issues a call; kept in the record of calls only
    to tell the calls of different stages apart. *)
Inductive Stage : Type :=
| Planning | WebSearch | ToolCalling | Reasoning | MultiLLM | FinalGeneration.

Definition Stage_eqb (a b : Stage) : bool :=
  match a, b with
  | Planning, Planning | WebSearch, WebSearch | ToolCalling, ToolCalling
  | Reasoning, Reasoning | MultiLLM, MultiLLM | FinalGeneration, FinalGeneration => true
  | _, _ => false
  end.

(** A call [generate] or [decidePreConfig] makes to a collaborator. *)
Inductive Call : Type :=
| CallGenerateObject (o : ObjectOpts)
| CallGenerateText (stage : Stage) (o : TextOpts)
| CallStreamText (stage : Stage) (o : TextOpts)
| CallWebSearch (a : SearchParams).

Definition stage_of (c : Call) : Stage :=
  match c with
  | CallGenerateObject _ => Planning
  | CallGenerateText st _ | CallStreamText st _ => st
  | CallWebSearch _ => WebSearch
  end.

(** Truthiness of an optional boolean flag, and [flag !== false]. *)
Definition flag_truthy (f : option bool) : bool :=
  match f with Some true => true | _ => false end.

Definition flag_not_false (f : option bool) : bool :=
  match f with Some false => false | _ => true end.

(** Schemas of the built-in tools. *)
Module Zod.

Definition field (j : json) (k : string) : option json :=
  match j with JObj fs => own fs k | _ => None end.

Definition string_ (j : json) : option string :=
  match j with JStr s => Some s | _ => None end.

Fixpoint array_string_items (l : list json) : option (list string) :=
  match l with
  | [] => Some []
  | j :: l' =>
      match string_ j, array_string_items l' with
      | Some s, Some r => Some (s :: r)
      | _, _ => None
      end
  end.

Definition array_string (j : json) : option (list string) :=
  match j with JArr l => array_string_items l | _ => None end.

(** [z.object({})]. *)
Definition empty_object (j : json) : option unit :=
  match j with JObj _ => Some tt | _ => None end.

(** [z.object({ url: z.string(), fields: z.array(z.string()) })]. *)
Definition url_fields (j : json) : option (string * list string) :=
  match field j "url", field j "fields" with
  | Some u, Some f =>
      match string_ u, array_string f with
      | Some url, Some fields => Some (url, fields)
      | _, _ => None
      end
  | _, _ => None
  end.

(** [z.object({ k: z.string() })]. *)
Definition one_string (k : string) (j : json) : option string :=
  match field j k with Some v => string_ v | None => None end.

End Zod.

Section Pipeline.

Variable W : Type.
Context {collab : Collaborators W}.

(** State of a request in flight: the outside world, the [genFiles] array,
    and the calls made so far. *)
Record State : Type := {
  world : W;
  genFiles : list Files;
  calls : list Call
}.

Definition Async : Type -> Type := M State.

(** [genFiles = []] and reading the array. *)
Definition genFiles_reset : Async unit :=
  fun s => (Ok tt, {| world := world s; genFiles := []; calls := calls s |}).

Definition genFiles_read : Async (list Files) :=
  fun s => (Ok (genFiles s), s).

(** A call to a service, recorded. *)
Definition external {A} (c : Call) (f : M W A) : Async A :=
  fun s =>
    let (r, w) := f (world s) in
    (r, {| world := w; genFiles := genFiles s; calls := (calls s ++ [c])%list |}).

(** A completion call, which may run tool executors, recorded. *)
Definition external_exec {A} (c : Call) (f : Exec W A) : Async A :=
  fun s =>
    let '(r, (w, g)) := f (world s, genFiles s) in
    (r, {| world := w; genFiles := g; calls := (calls s ++ [c])%list |}).

(** A service call made by a tool executor. *)
Definition service {A} (f : M W A) : Exec W A :=
  fun s =>
    let (r, w) := f (fst s) in
    (r, (w, snd s)).

(** [genFiles.push(f)]. *)
Definition genFiles_push (f : Files) : Exec W unit :=
  fun s => (Ok tt, (fst s, (snd s ++ [f])%list)).

(** *** The built-in tools (index.ts:346-417) *)

Definition current_datetime : CoreTool W :=
  {| tool_description :=
       "Get the current date and time in ISO format. Use this tool for queries that references a time such as 'last weekend' or 'last month'";
     parameters := Zod.empty_object;
     execute := fun _ => t <- service Date_toISOString ;; ret (JStr t) |}.

Definition ai_scraper (latestPromptFiles : list PromptFile) : CoreTool W :=
  {| tool_description := "Scrape a website given the url and fields to scrape";
     parameters := Zod.url_fields;
     execute := fun '(url, fields) =>
       scrapedData <- service (jigsaw_web_ai_scrape
                                 {| scrape_url := resolveRef latestPromptFiles url;
                                    element_prompts := fields |}) ;;
       ret (context scrapedData) |}.

Definition ocr (latestPromptFiles : list PromptFile) : CoreTool W :=
  {| tool_description := "Performs OCR on an image or PDF URL";
     parameters := Zod.url_fields;
     execute := fun '(url, fields) =>
       scrapedData <- service (jigsaw_vision_vocr
                                 {| vocr_url := resolveRef latestPromptFiles url;
                                    vocr_prompt := fields |}) ;;
       ret (context scrapedData) |}.

Definition ai_image_generation : CoreTool W :=
  {| tool_description := "Generate an image given the prompt";
     parameters := Zod.one_string "prompt";
     execute := fun prompt =>
       blob <- service (jigsaw_image_generation prompt) ;;
       _ <- genFiles_push {| file_type := ImagePart; file_data := BlobData blob;
                             file_mimeType := Some "image/png" |} ;;
       ret (JStr "image generated and added to files") |}.

Definition speech_to_text (latestPromptFiles : list PromptFile) : CoreTool W :=
  {| tool_description := "Convert speech to text";
     parameters := Zod.one_string "url";
     execute := fun url =>
       text <- service (jigsaw_audio_speech_to_text (resolveRef latestPromptFiles url)) ;;
       ret text |}.

Definition text_to_speech : CoreTool W :=
  {| tool_description := "Convert text to speech";
     parameters := Zod.one_string "text";
     execute := fun text =>
       blob <- service (jigsaw_audio_text_to_speech text) ;;
       _ <- genFiles_push {| file_type := FilePart; file_data := BlobData blob;
                             file_mimeType := Some "audio/mpeg" |} ;;
       ret (JStr "audio generated") |}.

(** [{ ...tools, current_datetime, ai_scraper, ocr, ai_image_generation,
      speech_to_text, text_to_speech }]. *)
Definition allToolsOf (tools : option (Obj (CoreTool W)))
           (latestPromptFiles : list PromptFile) : Obj (CoreTool W) :=
  let o := match tools with Some t => t | None => [] end in
  let o := set_property o "current_datetime" current_datetime in
  let o := set_property o "ai_scraper" (ai_scraper latestPromptFiles) in
  let o := set_property o "ocr" (ocr latestPromptFiles) in
  let o := set_property o "ai_image_generation" ai_image_generation in
  let o := set_property o "speech_to_text" (speech_to_text latestPromptFiles) in
  set_property o "text_to_speech" text_to_speech.

End Pipeline.

Arguments Async W A : clear implicits.
Arguments current_datetime {W collab}.
Arguments ai_scraper {W collab} latestPromptFiles.
Arguments ocr {W collab} latestPromptFiles.
Arguments ai_image_generation {W collab}.
Arguments speech_to_text {W collab} latestPromptFiles.
Arguments text_to_speech {W collab}.
Arguments allToolsOf {W collab} tools latestPromptFiles.
Arguments genFiles_push {W} f.
Arguments service {W A} f.
Arguments external {W A} c f.
Arguments external_exec {W A} c f.
Arguments genFiles_reset {W}.
Arguments genFiles_read {W}.

(** The tool calls of one step with their results:
    [s.toolCalls.map((t, i) => ({ ...t, result: s.toolResults[i].result }))];
    reading [result] of a missing element throws. *)
Fixpoint callsWithResults_from (toolCalls : list ToolCall) (toolResults : list ToolResult)
         (i : nat) : Result (list (ToolCall * json)) :=
  match toolCalls with
  | [] => Ok []
  | t :: rest =>
      match nth_error toolResults i with
      | None => Throw (TypeError "Cannot read properties of undefined (reading 'result')")
      | Some r =>
          match callsWithResults_from rest toolResults (S i) with
          | Ok l => Ok ((t, result r) :: l)
          | Throw e => Throw e
          end
      end
  end.

(** [steps.map(...).flat()]. *)
Fixpoint allToolCallsOf (steps : list Step) : Result (list (ToolCall * json)) :=
  match steps with
  | [] => Ok []
  | s :: rest =>
      match callsWithResults_from (toolCalls s) (toolResults s) 0 with
      | Throw e => Throw e
      | Ok l =>
          match allToolCallsOf rest with
          | Ok l' => Ok (l ++ l')%list
          | Throw e => Throw e
          end
      end
  end.

Definition toolUsedOfCall (t : ToolCall * json) : ToolUsed :=
  {| tu_name := toolName (fst t);
     tu_result := AnyJson (snd t);
     tu_type := tool_call;
     tu_args := AnyJson (call_args (fst t)) |}.

Definition of_result {St A} (r : Result A) : M St A :=
  match r with Ok a => ret a | Throw e => throw e end.

(** The prompt of the tool-calling sub-run:
    [latestTextPrompt && latestPromptFiles
       ? `${latestTextPrompt}\nfiles: ${JSON.stringify(refs)}` : latestTextPrompt];
    an array is always truthy. *)
Definition toolPromptOf (latestTextPrompt : option string)
           (latestPromptFiles : list PromptFile) : option string :=
  match latestTextPrompt with
  | Some t =>
      if JS.truthy t
      then Some (t ++ nl ++ "files: "
                   ++ JSON.stringify (json_strings (map ref latestPromptFiles)))
      else latestTextPrompt
  | None => None
  end.

(** [prompt] as an array of turns (index.ts:311). *)
Definition promptsOf (prompt : Prompt) : list GeneratePromptObj :=
  match prompt with
  | PromptArray l => l
  | PromptString s => [ {| role := User; content := Text s |} ]
  end.

(** The record of web-search use pushed to [toolUsed]. *)
Definition webSearchUsed (latestTextPrompt : string) (searchResult : SearchResponse)
  : ToolUsed :=
  {| tu_name := "web_search";
     tu_result := AnySearch searchResult;
     tu_type := tool_context_use;
     tu_args := AnySearchParams {| query := latestTextPrompt; ai_overview := false |} |}.

(** [searchResult.results.map(...).slice(0, 3)], serialised. *)
Definition webSearchResultMap (searchResult : SearchResponse) : json :=
  JArr (firstn 3 (map searchItem_json (results searchResult))).

(** * [createOmiAI] of index.ts, lines 1-633 *)

Module Omi.

(** [modelList] (index.ts:214-292). *)
Definition modelList : Obj ModelEntry :=
  [ ("gemini-1.5-flash",
     {| id := "gemini-1.5-flash"; speed := 3; smarts := 4; context_window := 1000000;
        file_type_support := ["audio"; "image"; "video"; "pdf"; "text"];
        description :=
          "Great for most tasks and, general questions and general web search. Great for large context tasks. Also great for all file types.";
        specialty := ["large-files"];
        fallback_id := None;
        modelProvider := google_with_settings "gemini-1.5-flash" |});
    ("gpt-4o",
     {| id := "gpt-4o"; speed := 2; smarts := 4; context_window := 128000;
        file_type_support := ["image"; "text"];
        description := "Great for highly complex tasks.";
        specialty := ["general"];
        fallback_id := None;
        modelProvider := openai "gpt-4o" |});
    ("claude-3-5-sonnet-latest",
     {| id := "claude-3-5-sonnet-latest"; speed := 2; smarts := 4;
        context_window := 200000;
        file_type_support := ["text"];
        description := "Great for highly complex coding tasks.";
        specialty := ["code"];
        fallback_id := None;
        modelProvider := anthropic "claude-3-5-sonnet-latest" |});
    ("llama-3.3-70b-specdec",
     {| id := "llama-3.3-70b-specdec"; speed := 5; smarts := 2; context_window := 8192;
        file_type_support := ["text"];
        description := "Great for simple tasks that require speed and tool use.";
        specialty := ["small-tasks"];
        fallback_id := None;
        modelProvider := groq "llama-3.3-70b-specdec" |}) ].

Section Generate.

Variable W : Type.
Context {collab : Collaborators W}.

(** [decidePreConfig] (index.ts:137-173). *)
Definition decidePreConfig (modelList : Obj ModelEntry) (tools : Obj (CoreTool W))
           (prompts : list GeneratePromptObj) : Async W PreConfig :=
  let modelListForLLM := JObj (map (fun kv => (fst kv, entry_json (snd kv))) modelList) in
  let preConfigPrompt :=
    "List of models:" ++ JSON.stringify modelListForLLM ++ nl
    ++ "List of tools:" ++ JS.join "," (rev (keys tools)) ++ nl
    ++ "Prompt: " ++ JS.interpolate (option_map (fun m => JSON.stringify (prompt_json m))
                                                (last (map Some prompts) None)) in
  r <- fallback "model" [Some (google_default "gemini-1.5-flash-8b")]
         (fun args =>
            model <- match get modelList "llama-3.3-70b-specdec" with
                     | Some p => ret (prop_modelProvider p)
                     | None => throw (TypeError
                         "Cannot read properties of undefined (reading 'modelProvider')")
                     end ;;
            let opts := spread_object {| oo_model := model;
                                         oo_prompt := preConfigPrompt;
                                         oo_temperature := 0%Q |} args in
            external (CallGenerateObject opts) (generateObject opts)) ;;
  match r with
  | Some {| object := Some preConfig |} => ret preConfig
  | _ => throw (Error "Failed to decide preConfigModel")
  end.

(** The guards of the stages (index.ts:431, 465, 513, 544). *)
Definition webSearchGuard (web : option bool) (preConfigModel : PreConfig) : bool :=
  (flag_truthy web || pc_web_search preConfigModel) && flag_not_false web.

Definition toolGuard (autoTool : bool) (preConfigModel : PreConfig) : bool :=
  pc_use_tool preConfigModel && autoTool.

Definition reasoningGuard (reasoning : option bool) (preConfigModel : PreConfig) : bool :=
  (flag_truthy reasoning || pc_reasoning preConfigModel) && flag_not_false reasoning.

Definition multiLLMGuard (multiLLM : option bool) : bool :=
  flag_truthy multiLLM.

Definition length_Z {A} (l : list A) : Z := Z.of_nat (length l).

(** Web search (index.ts:430-461). *)
Definition webSearchStage (web : option bool) (preConfigModel : PreConfig)
           (latestTextPrompt : option string)
           (prompts : list GeneratePromptObj) (toolUsed : list ToolUsed)
  : Async W (list GeneratePromptObj * list ToolUsed) :=
  match latestTextPrompt with
  | Some q =>
      if JS.truthy q && webSearchGuard web preConfigModel
      then
        let a := {| query := q; ai_overview := false |} in
        searchResult <- external (CallWebSearch a) (jigsaw_web_search a) ;;
        let toolUsed := (toolUsed ++ [webSearchUsed q searchResult])%list in
        let prompts :=
          splice_insert prompts (length_Z prompts - 1)
            {| role := User;
               content := Text ("Web search result: "
                                  ++ JSON.stringify (webSearchResultMap searchResult)) |} in
        ret (prompts, toolUsed)
      else ret (prompts, toolUsed)
  | None => ret (prompts, toolUsed)
  end.

(** Options of the completion calls, before [...args]. *)
Definition toolOpts (system : option string) (temperature : number)
           (topK topP : option number) (allTools : Obj (CoreTool W))
           (latestTextPrompt : option string) (latestPromptFiles : list PromptFile)
  : TextOpts :=
  {| o_model := Some (openai "gpt-4o-mini");
     o_prompt := toolPromptOf latestTextPrompt latestPromptFiles;
     o_system := system;
     o_messages := None;
     o_tools := Some (keys allTools);
     o_toolChoice := Some "auto";
     o_maxSteps := Some 5%Z;
     o_experimental_output := None;
     o_temperature := temperature;
     o_topK := topK;
     o_topP := topP |}.

Definition messagesOpts (model : ModelRef) (system : option string)
           (messages : list CoreMessage) (schema : option ZodSchema)
           (temperature : number) (topK topP : option number) : TextOpts :=
  {| o_model := model;
     o_prompt := None;
     o_system := system;
     o_messages := Some messages;
     o_tools := None;
     o_toolChoice := None;
     o_maxSteps := None;
     o_experimental_output := schema;
     o_temperature := temperature;
     o_topK := topK;
     o_topP := topP |}.

(** Tool-calling sub-run (index.ts:463-509). *)
Definition toolStage (autoTool : bool) (preConfigModel : PreConfig)
           (system : option string) (temperature : number) (topK topP : option number)
           (allTools : Obj (CoreTool W))
           (latestTextPrompt : option string) (latestPromptFiles : list PromptFile)
           (prompts : list GeneratePromptObj) (toolUsed : list ToolUsed)
  : Async W (list GeneratePromptObj * list ToolUsed * option string) :=
  if toolGuard autoTool preConfigModel
  then
    toolResult <- fallback "model" [Some (groq "llama-3.3-70b-versatile")]
      (fun args =>
         let opts := spread_text (toolOpts system temperature topK topP allTools
                                           latestTextPrompt latestPromptFiles) args in
         external_exec (CallGenerateText ToolCalling opts)
                       (generateText opts (Some allTools))) ;;
    let toolText := option_map text toolResult in
    allToolCalls <- of_result match toolResult with
                              | Some r => allToolCallsOf (steps r)
                              | None => Ok []
                              end ;;
    let toolUsed := (toolUsed ++ map toolUsedOfCall allToolCalls)%list in
    let prompts :=
      splice_insert prompts (length_Z prompts)
        {| role := User;
           content := Text ("Tool result: " ++ JS.interpolate toolText) |} in
    ret (prompts, toolUsed, toolText)
  else ret (prompts, toolUsed, None).

(** Reasoning sub-run (index.ts:511-540). *)
Definition reasoningStage (reasoning : option bool) (preConfigModel : PreConfig)
           (system : option string) (temperature : number) (topK topP : option number)
           (prompts : list GeneratePromptObj)
  : Async W (list GeneratePromptObj * option string) :=
  if reasoningGuard reasoning preConfigModel
  then
    reasoningResult <- fallback "model" [Some (deepinfra "deepseek-ai/DeepSeek-R1")]
      (fun args =>
         let opts := spread_text (messagesOpts (Some (openai "o3-mini")) system
                                               (messageMap prompts true) None
                                               temperature topK topP) args in
         external_exec (CallGenerateText Reasoning opts) (generateText opts None)) ;;
    let reasoningText := reasoningTextOf reasoningResult in
    let prompts :=
      splice_insert prompts (length_Z prompts - 1)
        {| role := User;
           content := Text ("Context: " ++ JS.interpolate reasoningText) |} in
    ret (prompts, reasoningText)
  else ret (prompts, None).

(** The values of the fulfilled outcomes, in order. *)
Fixpoint fulfilledValues {A} (l : list (Settled A)) : list A :=
  match l with
  | [] => []
  | fulfilled v :: l' => v :: fulfilledValues l'
  | rejected _ :: l' => fulfilledValues l'
  end.

Definition multiLLMTurn (multiLLMResults : list GenerateTextResult) : GeneratePromptObj :=
  {| role := User;
     content := Parts [ {| part_type := TextPart;
                           part_data := "Context from multiple LLMs: "
                             ++ JSON.stringify (json_strings (map text multiLLMResults));
                           part_mimeType := None |} ] |}.

(** Multi-model cross-check (index.ts:544-564).  The keys of [modelList]
    are distinct, so [modelList[m]] is the entry listed under [m]. *)
Definition multiLLMStage (multiLLM : option bool)
           (system : option string) (temperature : number) (topK topP : option number)
           (prompts : list GeneratePromptObj)
  : Async W (list GeneratePromptObj) :=
  if multiLLMGuard multiLLM
  then
    multiLLMPromiseResult <- allSettled
      (map (fun m =>
              let opts := messagesOpts (Some (modelProvider (snd m))) system
                                       (messageMap prompts true) None
                                       temperature topK topP in
              external_exec (CallGenerateText MultiLLM opts) (generateText opts None))
           modelList) ;;
    let multiLLMResults := fulfilledValues multiLLMPromiseResult in
    ret (splice_insert prompts (length_Z prompts - 1) (multiLLMTurn multiLLMResults))
  else ret prompts.

Definition opt_truthy (x : option string) : bool :=
  match x with Some s => JS.truthy s | None => false end.

(** The only candidate of the final fallback (index.ts:569-573). *)
Definition finalCandidate (modelConfig : option Property) : Result ModelRef :=
  let fallbackTarget :=
    match modelConfig with
    | Some mc =>
        match prop_fallback mc with
        | Some f => if JS.truthy f then get modelList f else None
        | None => None
        end
    | None => None
    end in
  match fallbackTarget with
  | Some target => Ok (prop_modelProvider target)
  | None =>
      match modelConfig with
      | None => Throw (TypeError "Cannot read properties of undefined (reading 'id')")
      | Some mc =>
          match prop_id mc with
          | Some i => if String.eqb i "gpt-4o"
                      then Ok (Some (google "gemini-1.5-flash"))
                      else Ok (Some (openai "gpt-4o"))
          | None => Ok (Some (openai "gpt-4o"))
          end
      end
  end.

(** The model of the final completion before [...args] (index.ts:577). *)
Definition finalModel (reasoningText : option string) (modelConfig : option Property)
  : Result ModelRef :=
  match modelConfig with
  | None =>
      if opt_truthy reasoningText
      then Throw (TypeError "Cannot read properties of undefined (reading 'id')")
      else Throw (TypeError "Cannot read properties of undefined (reading 'modelProvider')")
  | Some mc =>
      if opt_truthy reasoningText
      then match prop_id mc with
           | Some i => if JS.includes "llama-3.3" i
                       then Ok (Some (google "gemini-1.5-flash"))
                       else Ok (prop_modelProvider mc)
           | None =>
               Throw (TypeError "Cannot read properties of undefined (reading 'includes')")
           end
      else Ok (prop_modelProvider mc)
  end.

(** Final generation (index.ts:566-590). *)
Definition finalStage (modelConfig : option Property) (reasoningText : option string)
           (stream : option bool) (schema : option ZodSchema)
           (system : option string) (temperature : number) (topK topP : option number)
           (prompts : list GeneratePromptObj)
  : Async W (option Resp) :=
  candidate <- of_result (finalCandidate modelConfig) ;;
  fallback "model" [candidate]
    (fun args =>
       model <- of_result (finalModel reasoningText modelConfig) ;;
       let opts := spread_text (messagesOpts model system (messageMap prompts false)
                                             schema temperature topK topP) args in
       if flag_truthy stream
       then r <- external_exec (CallStreamText FinalGeneration opts)
                               (streamText opts None) ;;
            ret (StreamResp r)
       else r <- external_exec (CallGenerateText FinalGeneration opts)
                               (generateText opts None) ;;
            ret (TextResp r)).

(** The fields attached to the provider's result (index.ts:592-608). *)
Definition assemble (llmResp : Resp) (toolUsed : list ToolUsed) (genFiles : list Files)
           (reasoningText : option string) (schema : option ZodSchema)
           (stream : option bool) : GenerateResponse :=
  {| resp := llmResp;
     toolUsed := toolUsed;
     files := genFiles;
     reasoningText := if opt_truthy reasoningText then reasoningText else None;
     r_object :=
       match schema with
       | Some _ =>
           if flag_truthy stream then None
           else Some match llmResp with
                     | TextResp r => experimental_output r
                     | StreamResp _ => None
                     end
       | None => None
       end;
     partialObjectStream :=
       match schema with
       | Some _ =>
           if flag_truthy stream
           then match llmResp with
                | StreamResp r => Some (experimental_partialOutputStream r)
                | TextResp _ => None
                end
           else None
       | None => None
       end |}.

(** The four augmentation stages in sequence (index.ts:427-564), on the
    conversation [prompts] and the record [toolUsed]. *)
Definition augment (p : GenerateParams W) (preConfigModel : PreConfig)
           (lastPromptContent : Content) (allTools : Obj (CoreTool W))
           (prompts : list GeneratePromptObj) (toolUsed : list ToolUsed)
  : Async W (list GeneratePromptObj * list ToolUsed * option string) :=
  let autoTool := match p_autoTool p with Some b => b | None => true end in
  let temperature := match p_temperature p with Some t => t | None => 0%Q end in
  let system := p_system p in
  let topK := p_topK p in
  let topP := p_topP p in
  let web := match p_contextTool p with Some w => w | None => None end in
  let latestPromptFiles := latestPromptFilesOf lastPromptContent in
  let latestTextPrompt := latestTextPromptOf lastPromptContent in
  '(prompts, toolUsed) <-
    webSearchStage web preConfigModel latestTextPrompt prompts toolUsed ;;
  '(prompts, toolUsed, toolText) <-
    toolStage autoTool preConfigModel system temperature topK topP allTools
              latestTextPrompt latestPromptFiles prompts toolUsed ;;
  '(prompts, reasoningText) <-
    reasoningStage (p_reasoning p) preConfigModel system temperature topK topP prompts ;;
  prompts <- multiLLMStage (p_multiLLM p) system temperature topK topP prompts ;;
  ret (prompts, toolUsed, reasoningText).

(** [generate] (index.ts:294-612). *)
Definition generate (p : GenerateParams W) : Async W GenerateResponse :=
  let temperature := match p_temperature p with Some t => t | None => 0%Q end in
  let system := p_system p in
  let topK := p_topK p in
  let topP := p_topP p in
  let toolUsed : list ToolUsed := [] in
  let prompts := promptsOf (p_prompt p) in
  lastPromptContent <-
    match last (map Some prompts) None with
    | Some m => ret (content m)
    | None => throw (TypeError "Cannot read properties of undefined (reading 'content')")
    end ;;
  let latestPromptFiles := latestPromptFilesOf lastPromptContent in
  _ <- genFiles_reset ;;
  let allTools := allToolsOf (p_tools p) latestPromptFiles in
  preConfigModel <- decidePreConfig modelList allTools prompts ;;
  let selectedModelID := pc_model preConfigModel in
  let modelConfig := get modelList selectedModelID in
  '(prompts, toolUsed, reasoningText) <-
    augment p preConfigModel lastPromptContent allTools prompts toolUsed ;;
  llmResp <- finalStage modelConfig reasoningText (p_stream p) (p_schema p)
                        system temperature topK topP prompts ;;
  match llmResp with
  | None => throw (TypeError "Cannot set properties of undefined (setting 'toolUsed')")
  | Some llmResp =>
      genFiles <- genFiles_read ;;
      ret (assemble llmResp toolUsed genFiles reasoningText (p_schema p) (p_stream p))
  end.

End Generate.

End Omi.

(** * [createOmiAI] of index.ts, lines 634-1273

    The second text of the file.  It has no [tools] parameter and no
    [decidePreConfig]; its registry, tool table, candidate lists and the shape
    of the synthetic turns differ, and so do the position of the tool-result
    turn (line 1145) and the guard of the multi-model stage (line 1184).
    [messageMap], [fallback], the guards of the other stages and the assembly
    of the result are the same text as above. *)

Module OmiB.

(** [modelList] (index.ts:800-908). *)
Definition modelList : Obj ModelEntry :=
  [ ("gemini-1.5-flash-8b",
     {| id := "gemini-1.5-flash-8b"; speed := 4; smarts := 3; context_window := 1000000;
        file_type_support := ["audio"; "image"; "video"; "pdf"; "text"];
        description :=
          "Great for simple tasks that may require a large context. Also great for all file types.";
        specialty := ["large-files"];
        fallback_id := None;
        modelProvider := google_with_settings "gemini-1.5-flash-8b" |});
    ("gemini-1.5-flash",
     {| id := "gemini-1.5-flash"; speed := 3; smarts := 4; context_window := 1000000;
        file_type_support := ["audio"; "image"; "video"; "pdf"; "text"];
        description :=
          "Great for most common tasks and questions that may require a large context. Also great for all file types.";
        specialty := ["large-files"];
        fallback_id := None;
        modelProvider := google_with_settings "gemini-1.5-flash" |});
    ("gpt-4o",
     {| id := "gpt-4o"; speed := 2; smarts := 4; context_window := 128000;
        file_type_support := ["image"; "text"];
        description := "Great for highly complex tasks.";
        specialty := ["general"];
        fallback_id := None;
        modelProvider := openai "gpt-4o" |});
    ("claude-3-5-sonnet-latest",
     {| id := "claude-3-5-sonnet-latest"; speed := 2; smarts := 4;
        context_window := 200000;
        file_type_support := ["text"];
        description := "Great for highly complex coding tasks.";
        specialty := ["code"];
        fallback_id := None;
        modelProvider := anthropic "claude-3-5-sonnet-latest" |});
    ("llama-3.3-70b-specdec",
     {| id := "llama-3.3-70b-specdec"; speed := 5; smarts := 2; context_window := 8192;
        file_type_support := ["text"];
        description := "Great for simple tasks that require speed and tool use.";
        specialty := ["small-tasks"];
        fallback_id := Some "gemini-1.5-flash-8b";
        modelProvider := groq "llama-3.3-70b-specdec" |}) ].

Section Generate.

Variable W : Type.
Context {collab : Collaborators W}.

(** The tools (index.ts:955-1038). *)
Definition web_search : CoreTool W :=
  {| tool_description := "Search the web for the given query";
     parameters := Zod.one_string "query";
     execute := fun query =>
       searchResult <- service (jigsaw_web_search
                                  {| query := query; ai_overview := false |}) ;;
       ret (JArr (map searchItem_json (results searchResult))) |}.

Definition ai_image_generation : CoreTool W :=
  {| tool_description := "Generate an image given the prompt";
     parameters := Zod.one_string "prompt";
     execute := fun prompt =>
       blob <- service (jigsaw_image_generation prompt) ;;
       _ <- genFiles_push {| file_type := ImagePart; file_data := BlobData blob;
                             file_mimeType := Some "image/png" |} ;;
       ret (JStr "image generated") |}.

Definition toolsOf (latestPromptFiles : list PromptFile) : Obj (CoreTool W) :=
  [ ("web_search", web_search);
    ("ai_scraper", ai_scraper latestPromptFiles);
    ("ocr", ocr latestPromptFiles);
    ("ai_image_generation", ai_image_generation);
    ("speech_to_text", speech_to_text latestPromptFiles);
    ("text_to_speech", text_to_speech) ].

(** [modelList[k].modelProvider] for a constant key. *)
Definition providerOf (k : string) : Result ModelRef :=
  match get modelList k with
  | Some p => Ok (prop_modelProvider p)
  | None => Throw (TypeError "Cannot read properties of undefined (reading 'modelProvider')")
  end.

(** The Planner call (index.ts:1040-1059); [None] is an absent object. *)
Definition planner (tools : Obj (CoreTool W)) (prompts : list GeneratePromptObj)
  : Async W (option PreConfig) :=
  let modelListForLLM := JObj (map (fun kv => (fst kv, entry_json (snd kv))) modelList) in
  candidate <- of_result (providerOf "gemini-1.5-flash-8b") ;;
  r <- fallback "model" [candidate]
         (fun args =>
            model <- of_result (providerOf "llama-3.3-70b-specdec") ;;
            let opts :=
              spread_object
                {| oo_model := model;
                   oo_prompt :=
                     "List of models:" ++ JSON.stringify modelListForLLM ++ nl
                     ++ "List of tools:" ++ JS.join "," (keys tools) ++ nl
                     ++ "Prompt: "
                     ++ JS.interpolate
                          (option_map (fun m => JSON.stringify (prompt_json m))
                                      (last (map Some prompts) None));
                   oo_temperature := 0%Q |} args in
            external (CallGenerateObject opts) (generateObject opts)) ;;
  ret match r with
      | Some g => object g
      | None => None
      end.

(** The guard of the multi-model stage (index.ts:1184). *)
Definition multiLLMGuard (multiLLM stream : option bool) : bool :=
  flag_truthy multiLLM && negb (flag_truthy stream).

Definition textTurn (s : string) : GeneratePromptObj :=
  {| role := User;
     content := Parts [ {| part_type := TextPart; part_data := s;
                           part_mimeType := None |} ] |}.

(** Web search (index.ts:1069-1100). *)
Definition webSearchStage (web : option bool) (preConfigModel : PreConfig)
           (latestTextPrompt : option string)
           (prompts : list GeneratePromptObj) (toolUsed : list ToolUsed)
  : Async W (list GeneratePromptObj * list ToolUsed) :=
  match latestTextPrompt with
  | Some q =>
      if JS.truthy q && Omi.webSearchGuard web preConfigModel
      then
        let a := {| query := q; ai_overview := false |} in
        searchResult <- external (CallWebSearch a) (jigsaw_web_search a) ;;
        let toolUsed := (toolUsed ++ [webSearchUsed q searchResult])%list in
        let prompts :=
          splice_insert prompts (Omi.length_Z prompts - 1)
            (textTurn ("Web search result: "
                         ++ JSON.stringify (webSearchResultMap searchResult))) in
        ret (prompts, toolUsed)
      else ret (prompts, toolUsed)
  | None => ret (prompts, toolUsed)
  end.

(** Tool-calling sub-run (index.ts:1102-1149). *)
Definition toolStage (autoTool : bool) (preConfigModel : PreConfig)
           (system : option string) (temperature : number) (topK topP : option number)
           (tools : Obj (CoreTool W))
           (latestTextPrompt : option string) (latestPromptFiles : list PromptFile)
           (prompts : list GeneratePromptObj) (toolUsed : list ToolUsed)
  : Async W (list GeneratePromptObj * list ToolUsed) :=
  if Omi.toolGuard autoTool preConfigModel
  then
    toolResult <- fallback "model"
      [Some (groq "llama-3.3-70b-versatile"); Some (openai "gpt-4o-mini")]
      (fun args =>
         model <- of_result (providerOf "gpt-4o") ;;
         let opts :=
           spread_text
             {| o_model := model;
                o_prompt := toolPromptOf latestTextPrompt latestPromptFiles;
                o_system := system;
                o_messages := None;
                o_tools := Some (keys tools);
                o_toolChoice := Some "auto";
                o_maxSteps := Some 5%Z;
                o_experimental_output := None;
                o_temperature := temperature;
                o_topK := topK;
                o_topP := topP |} args in
         external_exec (CallGenerateText ToolCalling opts)
                       (generateText opts (Some tools))) ;;
    let toolText := option_map text toolResult in
    allToolCalls <- of_result match toolResult with
                              | Some r => allToolCallsOf (steps r)
                              | None => Ok []
                              end ;;
    let toolUsed := (toolUsed ++ map toolUsedOfCall allToolCalls)%list in
    let prompts :=
      splice_insert prompts (Omi.length_Z prompts - 1)
        (textTurn ("Tool result: " ++ JS.interpolate toolText)) in
    ret (prompts, toolUsed)
  else ret (prompts, toolUsed).

(** Reasoning sub-run (index.ts:1151-1180). *)
Definition reasoningStage (reasoning : option bool) (preConfigModel : PreConfig)
           (system : option string) (temperature : number) (topK topP : option number)
           (prompts : list GeneratePromptObj)
  : Async W (list GeneratePromptObj * option string) :=
  if Omi.reasoningGuard reasoning preConfigModel
  then
    reasoningResult <- fallback "model"
      [Some (deepinfra "deepseek-ai/DeepSeek-R1"); Some (deepseek "deepseek-reasoner")]
      (fun args =>
         let opts := spread_text
                       (Omi.messagesOpts (Some (groq "deepseek-r1-distill-llama-70b"))
                                         system (messageMap prompts true) None
                                         temperature topK topP) args in
         external_exec (CallGenerateText Reasoning opts) (generateText opts None)) ;;
    let reasoningText := reasoningTextOf reasoningResult in
    let prompts :=
      splice_insert prompts (Omi.length_Z prompts - 1)
        (textTurn ("Reasoning context: " ++ JS.interpolate reasoningText)) in
    ret (prompts, reasoningText)
  else ret (prompts, None).

(** Multi-model cross-check (index.ts:1184-1204). *)
Definition multiLLMStage (multiLLM stream : option bool)
           (system : option string) (temperature : number) (topK topP : option number)
           (prompts : list GeneratePromptObj)
  : Async W (list GeneratePromptObj) :=
  if multiLLMGuard multiLLM stream
  then
    multiLLMPromiseResult <- allSettled
      (map (fun m =>
              let opts := Omi.messagesOpts (Some (modelProvider (snd m))) system
                                           (messageMap prompts true) None
                                           temperature topK topP in
              external_exec (CallGenerateText MultiLLM opts) (generateText opts None))
           modelList) ;;
    let multiLLMResults := Omi.fulfilledValues multiLLMPromiseResult in
    ret (splice_insert prompts (Omi.length_Z prompts - 1)
                       (Omi.multiLLMTurn multiLLMResults))
  else ret prompts.

(** The only candidate of the final fallback (index.ts:1209-1213). *)
Definition finalCandidate (modelConfig : option Property) : Result ModelRef :=
  let fallbackTarget :=
    match modelConfig with
    | Some mc =>
        match prop_fallback mc with
        | Some f => if JS.truthy f then get modelList f else None
        | None => None
        end
    | None => None
    end in
  match fallbackTarget with
  | Some target => Ok (prop_modelProvider target)
  | None =>
      match modelConfig with
      | None => Throw (TypeError "Cannot read properties of undefined (reading 'id')")
      | Some mc =>
          match prop_id mc with
          | Some i => if String.eqb i "gpt-4o"
                      then Ok (Some (google "gemini-1.5-flash"))
                      else Ok (Some (openai "gpt-4o"))
          | None => Ok (Some (openai "gpt-4o"))
          end
      end
  end.

(** Final generation (index.ts:1206-1230). *)
Definition finalStage (modelConfig : option Property)
           (stream : option bool) (schema : option ZodSchema)
           (system : option string) (temperature : number) (topK topP : option number)
           (prompts : list GeneratePromptObj)
  : Async W (option Resp) :=
  candidate <- of_result (finalCandidate modelConfig) ;;
  fallback "model" [candidate]
    (fun args =>
       model <- match modelConfig with
                | Some mc => ret (prop_modelProvider mc)
                | None => throw (TypeError
                    "Cannot read properties of undefined (reading 'modelProvider')")
                end ;;
       let opts := spread_text (Omi.messagesOpts model system (messageMap prompts false)
                                                 schema temperature topK topP) args in
       if flag_truthy stream
       then r <- external_exec (CallStreamText FinalGeneration opts)
                               (streamText opts None) ;;
            ret (StreamResp r)
       else r <- external_exec (CallGenerateText FinalGeneration opts)
                               (generateText opts None) ;;
            ret (TextResp r)).

(** The four augmentation stages in sequence (index.ts:1066-1204). *)
Definition augment (p : GenerateParams W) (preConfigModel : PreConfig)
           (lastPromptContent : Content) (tools : Obj (CoreTool W))
           (prompts : list GeneratePromptObj) (toolUsed : list ToolUsed)
  : Async W (list GeneratePromptObj * list ToolUsed * option string) :=
  let autoTool := match p_autoTool p with Some b => b | None => true end in
  let temperature := match p_temperature p with Some t => t | None => 0%Q end in
  let system := p_system p in
  let topK := p_topK p in
  let topP := p_topP p in
  let web := match p_contextTool p with Some w => w | None => None end in
  let latestPromptFiles := latestPromptFilesOf lastPromptContent in
  let latestTextPrompt := latestTextPromptOf lastPromptContent in
  '(prompts, toolUsed) <-
    webSearchStage web preConfigModel latestTextPrompt prompts toolUsed ;;
  '(prompts, toolUsed) <-
    toolStage autoTool preConfigModel system temperature topK topP tools
              latestTextPrompt latestPromptFiles prompts toolUsed ;;
  '(prompts, reasoningText) <-
    reasoningStage (p_reasoning p) preConfigModel system temperature topK topP prompts ;;
  prompts <- multiLLMStage (p_multiLLM p) (p_stream p) system temperature topK topP prompts ;;
  ret (prompts, toolUsed, reasoningText).

(** [generate] (index.ts:924-1252). *)
Definition generate (p : GenerateParams W) : Async W GenerateResponse :=
  let temperature := match p_temperature p with Some t => t | None => 0%Q end in
  let system := p_system p in
  let topK := p_topK p in
  let topP := p_topP p in
  let toolUsed : list ToolUsed := [] in
  let prompts := promptsOf (p_prompt p) in
  lastPromptContent <-
    match last (map Some prompts) None with
    | Some m => ret (content m)
    | None => throw (TypeError "Cannot read properties of undefined (reading 'content')")
    end ;;
  let latestPromptFiles := latestPromptFilesOf lastPromptContent in
  _ <- genFiles_reset ;;
  let tools := toolsOf latestPromptFiles in
  preConfigModel <- planner tools prompts ;;
  preConfigModel <-
    match preConfigModel with
    | Some pc => ret pc
    | None => throw (TypeError "Cannot read properties of undefined (reading 'model')")
    end ;;
  let selectedModelID := pc_model preConfigModel in
  let modelConfig := get modelList selectedModelID in
  '(prompts, toolUsed, reasoningText) <-
    augment p preConfigModel lastPromptContent tools prompts toolUsed ;;
  llmResp <- finalStage modelConfig (p_stream p) (p_schema p)
                        system temperature topK topP prompts ;;
  match llmResp with
  | None => throw (TypeError "Cannot set properties of undefined (setting 'toolUsed')")
  | Some llmResp =>
      genFiles <- genFiles_read ;;
      ret (Omi.assemble llmResp toolUsed genFiles reasoningText (p_schema p) (p_stream p))
  end.

End Generate.

End OmiB.

(** * Vocabulary of the statements *)

(** ** Runs of the fallback executor *)

Section FallbackRuns.

Variables St T G : Type.
Variable key : string.
Variable genFunc : Subst T -> M St G.

(** The argument [fallback] builds for candidate [c]. *)
Definition substitute (c : T) : Subst T := Some (key, Some c).

(** The attempts [fallback] makes, as a recursion on the candidates that are
    left: the work is attempted on [a]; when it throws, the next candidate is
    substituted; the error of the last attempt is thrown. *)
Fixpoint attempts (a : Subst T) (rest : list T) : M St (option G) :=
  fun s =>
    match genFunc a s with
    | (Ok resp, s1) => (Ok (Some resp), s1)
    | (Throw error, s1) =>
        match rest with
        | [] => (Throw error, s1)
        | c :: rest' => attempts (substitute c) rest' s1
        end
    end.

(** The work, run on [a] and then on each of [rest] in turn, throws every
    time: the state reached and the error thrown last. *)
Fixpoint throws (a : Subst T) (rest : list (Subst T)) (s : St) : option (St * exn) :=
  match genFunc a s with
  | (Throw e, s1) =>
      match rest with
      | [] => Some (s1, e)
      | b :: rest' => throws b rest' s1
      end
  | (Ok _, _) => None
  end.

(** The un-substituted attempt and every candidate of [cands] throw. *)
Definition all_throw (cands : list T) (s : St) : option (St * exn) :=
  throws None (map substitute cands) s.

(** The work instrumented to record the arguments it is invoked with. *)
Definition logged (a : Subst T) : M (St * list (Subst T)) G :=
  fun sl =>
    let (r, s1) := genFunc a (fst sl) in
    (r, (s1, (snd sl ++ [a])%list)).

End FallbackRuns.

(** ** Occurrences in strings *)

(** The character [c] occurs in [s]. *)
Fixpoint occurs (c : ascii) (s : string) : bool :=
  match s with
  | EmptyString => false
  | String b s' => Ascii.eqb c b || occurs c s'
  end.

(** No occurrence of [sep] in [a ++ rest] begins inside [a]. *)
Fixpoint no_early (sep a rest : string) : Prop :=
  match a with
  | EmptyString => True
  | String _ a' => JS.startsWith sep (a ++ rest) = false /\ no_early sep a' rest
  end.

(** ** Scripted collaborators

    A world in which every collaborator answers from a fixed script; the
    state of the world counts the calls served.  The media services answer
    with the [url] or text they were given. *)

Record Script : Type := {
  sc_object : ObjectOpts -> Result GenerateObjectResult;
  sc_text : TextOpts -> Result GenerateTextResult;
  sc_stream : TextOpts -> Result StreamTextResult;
  sc_search : SearchParams -> Result SearchResponse
}.

Definition scripted (sc : Script) : Collaborators nat :=
  {| generateObject := fun o w => (sc_object sc o, S w);
     generateText := fun o _ s => (sc_text sc o, (S (fst s), snd s));
     streamText := fun o _ s => (sc_stream sc o, (S (fst s), snd s));
     jigsaw_web_search := fun a w => (sc_search sc a, S w);
     jigsaw_web_ai_scrape := fun a w => (Ok {| context := JStr (scrape_url a) |}, S w);
     jigsaw_vision_vocr := fun a w => (Ok {| context := JStr (vocr_url a) |}, S w);
     jigsaw_image_generation := fun prompt w => (Ok ("PNG:" ++ prompt), S w);
     jigsaw_audio_speech_to_text := fun url w => (Ok (JStr url), S w);
     jigsaw_audio_text_to_speech := fun t w => (Ok ("MP3:" ++ t), S w);
     Date_toISOString := fun w => (Ok "2025-01-01T00:00:00.000Z", S w) |}.

Definition answer (t : string) : GenerateTextResult :=
  {| text := t; reasoning := None; steps := []; experimental_output := None |}.

Definition decision (m : string) (reason web tool : bool) : GenerateObjectResult :=
  {| object := Some {| pc_model := m; pc_reasoning := reason;
                       pc_web_search := web; pc_use_tool := tool |} |}.

Definition is_model (name : string) (o : TextOpts) : bool :=
  match o_model o with
  | Some m => String.eqb (modelId m) name
  | None => false
  end.

(** A script in which the Planner returns [d], every completion succeeds
    with the text [t], the stream is empty and the search finds nothing. *)
Definition all_answer (d : GenerateObjectResult) (t : string) : Script :=
  {| sc_object := fun _ => Ok d;
     sc_text := fun _ => Ok (answer t);
     sc_stream := fun _ => Ok {| textStream := [t]; experimental_partialOutputStream := [] |};
     sc_search := fun _ => Ok {| results := [] |} |}.

Definition initial : @State nat := {| world := 0; genFiles := []; calls := [] |}.

(** A request with nothing but the prompt set. *)
Definition request (W : Type) (prompt : Prompt) : GenerateParams W :=
  {| p_stream := None; p_reasoning := None; p_multiLLM := None; p_system := None;
     p_prompt := prompt; p_schema := None; p_contextTool := None; p_autoTool := None;
     p_temperature := None; p_topK := None; p_topP := None; p_tools := None |}.

(** ** Reading the record of calls *)

Definition text_opts (c : Call) : option TextOpts :=
  match c with
  | CallGenerateText _ o | CallStreamText _ o => Some o
  | _ => None
  end.

(** The conversations sent by the calls of stage [st]. *)
Fixpoint messages_sent (st : Stage) (cs : list Call) : list (list CoreMessage) :=
  match cs with
  | [] => []
  | c :: cs' =>
      match text_opts c with
      | Some o =>
          if Stage_eqb (stage_of c) st
          then match o_messages o with
               | Some m => m :: messages_sent st cs'
               | None => messages_sent st cs'
               end
          else messages_sent st cs'
      | None => messages_sent st cs'
      end
  end.

(** The models the calls of stage [st] were addressed to. *)
Fixpoint models_called (st : Stage) (cs : list Call) : list ModelRef :=
  match cs with
  | [] => []
  | c :: cs' =>
      match text_opts c with
      | Some o =>
          if Stage_eqb (stage_of c) st
          then o_model o :: models_called st cs'
          else models_called st cs'
      | None => models_called st cs'
      end
  end.

(** The text of a turn sent to a model. *)
Definition user_text (s : string) : CoreMessage :=
  {| msg_content := MText s; msg_role := User |}.

(** ** Attached media *)

(** The non-text parts of the latest turn, in order. *)
Definition attachments (parts : list ContentPart) : list ContentPart :=
  filter (fun c => negb (PartType_eqb (part_type c) TextPart)) parts.

(** The reference assigned to the attachment of index [i]. *)
Definition reference (i : nat) : string := "https://onellmref.com/" ++ JS.of_nat i.

(** The element of [latestPromptFiles] made of the attachment of index [i]. *)
Definition promptFile (i : nat) (f : ContentPart) : PromptFile :=
  {| ref := reference i; pf_type := part_type f; pf_data := part_data f;
     pf_mimeType := part_mimeType f |}.

(** What each media tool does when the service is handed [u]. *)
Definition scrape_with {W} {collab : Collaborators W} (u : string) (fields : list string)
  : Exec W json :=
  scrapedData <- service (jigsaw_web_ai_scrape {| scrape_url := u; element_prompts := fields |}) ;;
  ret (context scrapedData).

Definition vocr_with {W} {collab : Collaborators W} (u : string) (fields : list string)
  : Exec W json :=
  scrapedData <- service (jigsaw_vision_vocr {| vocr_url := u; vocr_prompt := fields |}) ;;
  ret (context scrapedData).

Definition transcribe_with {W} {collab : Collaborators W} (u : string) : Exec W json :=
  text <- service (jigsaw_audio_speech_to_text u) ;;
  ret text.

(** A latest turn whose only attachment has an empty payload. *)
Definition empty_image : Content :=
  Parts [ {| part_type := TextPart; part_data := "read this"; part_mimeType := None |};
          {| part_type := ImagePart; part_data := ""; part_mimeType := Some "image/png" |} ].

(** ** What a computation adds to the record of calls *)

(** Whatever its outcome, [m] only appends calls, and every call it appends
    satisfies [P]. *)
Definition emits {W A} (P : Call -> Prop) (m : Async W A) : Prop :=
  forall s r s', m s = (r, s') ->
    exists cs, calls s' = (calls s ++ cs)%list /\ Forall P cs.

(** A call of stage [st]; a completion call carries the temperature [t]. *)
Definition from_stage (st : Stage) (t : number) (c : Call) : Prop :=
  stage_of c = st /\ forall o, text_opts c = Some o -> o_temperature o = t.

(** A call of one of the four augmentation stages. *)
Definition from_augmentation (t : number) (c : Call) : Prop :=
  from_stage WebSearch t c \/ from_stage ToolCalling t c
  \/ from_stage Reasoning t c \/ from_stage MultiLLM t c.

(** The temperature [generate] works with. *)
Definition temperatureOf {W} (p : GenerateParams W) : number :=
  match p_temperature p with Some t => t | None => 0%Q end.

(** ** Concrete requests and scripts *)

(** A unit of work that succeeds only on the candidate 2. *)
Definition only_two (a : Subst nat) : M unit string :=
  match a with
  | Some (_, Some 2) => ret "two"
  | _ => throw (Error "unavailable")
  end.

(** A unit of work that always throws, naming the candidate. *)
Definition never (a : Subst nat) : M unit string :=
  match a with
  | Some (_, Some n) => throw (Error (JS.of_nat n))
  | _ => throw (Error "primary")
  end.

(** Completions throw when no model is given and answer [t] otherwise. *)
Definition needs_model (d : GenerateObjectResult) (t : string) : Script :=
  {| sc_object := fun _ => Ok d;
     sc_text := fun o => match o_model o with
                         | Some _ => Ok (answer t)
                         | None => Throw (TypeError "model is undefined")
                         end;
     sc_stream := fun _ => Ok {| textStream := [t]; experimental_partialOutputStream := [] |};
     sc_search := fun _ => Ok {| results := [] |} |}.

Definition two_plus_two : GenerateParams nat := request nat (PromptString "What is 2+2?").

Definition two_plus_two_turn : GeneratePromptObj :=
  {| role := User; content := Text "What is 2+2?" |}.

(** A latest turn with a text part and an attached image. *)
Definition receipt : list ContentPart :=
  [ {| part_type := TextPart; part_data := "What is the total?"; part_mimeType := None |};
    {| part_type := ImagePart; part_data := "iVBORw0KGgo="; part_mimeType := Some "image/png" |} ].

(** A request that enables every augmentation stage the caller can force. *)
Definition everything : GenerateParams nat :=
  {| p_stream := None; p_reasoning := Some true; p_multiLLM := Some true;
     p_system := None; p_prompt := PromptString "How many r's are in strawberry?";
     p_schema := None; p_contextTool := Some (Some true); p_autoTool := None;
     p_temperature := None; p_topK := None; p_topP := None; p_tools := None |}.

(** The world in which the Planner picks [gpt-4o] with tool use and every
    completion answers "ok". *)
Definition world_ok : Collaborators nat :=
  scripted (all_answer (decision "gpt-4o" false false true) "ok").

(** ** The multi-model cross-check *)

(** The outcomes of the calls [generateText(o)], for [o] in the given order,
    made one after the other from the state [sub]. *)
Inductive Settles {W : Type} {collab : Collaborators W}
  : list TextOpts -> W * list Files -> list (Settled GenerateTextResult)
    -> W * list Files -> Prop :=
| Settles_nil sub : Settles [] sub [] sub
| Settles_cons o os sub r sub1 outs sub2 :
    generateText o None sub = (r, sub1) ->
    Settles os sub1 outs sub2 ->
    Settles (o :: os) sub (settle r :: outs) sub2.

(** The texts of the fulfilled outcomes, in order. *)
Definition fulfilled_texts (outs : list (Settled GenerateTextResult)) : list string :=
  flat_map (fun o => match o with fulfilled v => [text v] | rejected _ => [] end) outs.

(** The options of the cross-check calls over a registry, in key order. *)
Definition crossCheckOpts (modelList : Obj ModelEntry) (system : option string)
           (temperature : number) (topK topP : option number)
           (messages : list CoreMessage) : list TextOpts :=
  map (fun m => Omi.messagesOpts (Some (modelProvider (snd m))) system messages None
                                 temperature topK topP)
      modelList.

(** The synthetic turn that carries the given texts. *)
Definition crossCheckTurn (texts : list string) : GeneratePromptObj :=
  {| role := User;
     content := Parts [ {| part_type := TextPart;
                           part_data := "Context from multiple LLMs: "
                                          ++ JSON.stringify (JArr (map JStr texts));
                           part_mimeType := None |} ] |}.

(** The cross-check ran from [s] on the conversation [init ++ [lastTurn]]
    over the registry [modelList]: one call per model, in key order and
    nothing else, and the turn with the fulfilled texts is inserted before
    the last turn. *)
Definition crossCheckRuns {W : Type} {collab : Collaborators W}
           (modelList : Obj ModelEntry) (system : option string)
           (temperature : number) (topK topP : option number)
           (init : list GeneratePromptObj) (lastTurn : GeneratePromptObj)
           (stage : Async W (list GeneratePromptObj)) (s : State W) : Prop :=
  let optss := crossCheckOpts modelList system temperature topK topP
                              (messageMap (init ++ [lastTurn]) true) in
  exists outs s',
    Settles optss (world s, genFiles s) outs (world s', genFiles s')
    /\ stage s = (Ok (init ++ [crossCheckTurn (fulfilled_texts outs); lastTurn])%list, s')
    /\ calls s' = (calls s ++ map (CallGenerateText MultiLLM) optss)%list
    /\ map o_model optss = map (fun kv => Some (modelProvider (snd kv))) modelList.

(** A streaming request with the multi-model flag. *)
Definition streaming_cross_check : GenerateParams nat :=
  {| p_stream := Some true; p_reasoning := None; p_multiLLM := Some true;
     p_system := None; p_prompt := PromptString "What is 2+2?";
     p_schema := None; p_contextTool := None; p_autoTool := None;
     p_temperature := None; p_topK := None; p_topP := None; p_tools := None |}.

(** The same request without streaming. *)
Definition eager_cross_check : GenerateParams nat :=
  {| p_stream := None; p_reasoning := None; p_multiLLM := Some true;
     p_system := None; p_prompt := PromptString "What is 2+2?";
     p_schema := None; p_contextTool := None; p_autoTool := None;
     p_temperature := None; p_topK := None; p_topP := None; p_tools := None |}.

(** The world in which the Planner picks [gpt-4o] with no augmentation and
    every completion answers "4". *)
Definition world_four : Collaborators nat :=
  scripted (all_answer (decision "gpt-4o" false false false) "4").

(** The world in which, moreover, the completions of [gpt-4o] and of
    [llama-3.3-70b-specdec] throw unless they are the Planner's. *)
Definition world_two_down : Collaborators nat :=
  scripted
    {| sc_object := fun _ => Ok (decision "gemini-1.5-flash" false false false);
       sc_text := fun o => if is_model "gpt-4o" o || is_model "llama-3.3-70b-specdec" o
                           then Throw (Error "rate limited")
                           else Ok (answer (match o_model o with
                                            | Some m => modelId m
                                            | None => "none"
                                            end));
       sc_stream := fun _ => Ok {| textStream := []; experimental_partialOutputStream := [] |};
       sc_search := fun _ => Ok {| results := [] |} |}.

(** ** Whether a stage runs *)

(** [callerFlag ?? plannerFlag]. *)
Definition effective (callerFlag : option bool) (plannerFlag : bool) : bool :=
  match callerFlag with Some b => b | None => plannerFlag end.

(** The stage is skipped: it returns [a] and leaves the state, and with it
    the record of calls, as it is. *)
Definition skips {W A} (m : Async W A) (a : A) : Prop :=
  forall s, m s = (Ok a, s).

(** The stage runs: whatever its outcome, the first thing it adds to the
    record of calls is [c]. *)
Definition begins_with {W A} (c : Call) (m : Async W A) : Prop :=
  forall s r s', m s = (r, s') -> exists cs, calls s' = (calls s ++ c :: cs)%list.

(** [autoTool = true] as the default of the parameter. *)
Definition autoToolOf (autoTool : option bool) : bool :=
  match autoTool with Some b => b | None => true end.

Definition is_stream_call (c : Call) : bool :=
  match c with CallStreamText _ _ => true | _ => false end.

(** A request with tool use forced by the caller. *)
Definition with_autoTool : GenerateParams nat :=
  {| p_stream := None; p_reasoning := None; p_multiLLM := None; p_system := None;
     p_prompt := PromptString "What is 2+2?";
     p_schema := None; p_contextTool := None; p_autoTool := Some true;
     p_temperature := None; p_topK := None; p_topP := None; p_tools := None |}.

(** A Planner decision that enables every stage, and one that enables none. *)
Definition all_on : PreConfig :=
  {| pc_model := "gpt-4o"; pc_reasoning := true; pc_web_search := true; pc_use_tool := true |}.

Definition all_off : PreConfig :=
  {| pc_model := "gpt-4o"; pc_reasoning := false; pc_web_search := false;
     pc_use_tool := false |}.

(** A request with reasoning forced by the caller. *)
Definition with_reasoning : GenerateParams nat :=
  {| p_stream := None; p_reasoning := Some true; p_multiLLM := None; p_system := None;
     p_prompt := PromptString "What is 2+2?";
     p_schema := None; p_contextTool := None; p_autoTool := None;
     p_temperature := None; p_topK := None; p_topP := None; p_tools := None |}.

(** The world in which the reasoning model answers with an empty
    [<think>] span and every other completion answers "4". *)
Definition world_empty_think : Collaborators nat :=
  scripted
    {| sc_object := fun _ => Ok (decision "gpt-4o" false false false);
       sc_text := fun o => if is_model "o3-mini" o
                           then Ok (answer "<think></think>4")
                           else Ok (answer "4");
       sc_stream := fun _ => Ok {| textStream := []; experimental_partialOutputStream := [] |};
       sc_search := fun _ => Ok {| results := [] |} |}.

(** The reasoning turn of index.ts:536-539. *)
Definition contextTurn (reasoningText : option string) : GeneratePromptObj :=
  {| role := User; content := Text ("Context: " ++ JS.interpolate reasoningText) |}.

(** [if (reasoningText) llmResult["reasoningText"] = reasoningText]. *)
Definition attached (reasoningText : option string) : option string :=
  match reasoningText with
  | Some EmptyString => None
  | Some t => Some t
  | None => None
  end.

(** The world in which the Planner asks for reasoning and for tools and
    every completion answers "ok". *)
Definition world_tool_and_reasoning : Collaborators nat :=
  scripted (all_answer (decision "gpt-4o" true false true) "ok").

(** The tool-result turn of index.ts:505-508. *)
Definition toolResultTurn (toolText : option string) : GeneratePromptObj :=
  {| role := User; content := Text ("Tool result: " ++ JS.interpolate toolText) |}.

(** A turn sent to a model as a single text part. *)
Definition user_part (s : string) : CoreMessage :=
  {| msg_content := MParts [ {| mp_type := TextPart; mp_image := None; mp_text := Some s;
                                mp_data := None; mp_mimeType := None |} ];
     msg_role := User |}.

(** ** Vocabulary of the further properties *)

(** The conversation with the image and file parts taken out of every turn. *)
Definition stripMedia (prompts : list GeneratePromptObj) : list GeneratePromptObj :=
  map (fun m =>
         {| role := role m;
            content := match content m with
                       | Text s => Text s
                       | Parts l => Parts (filter (fun c => negb (isMedia (part_type c))) l)
                       end |})
      prompts.

(** A part sent to a model that carries text and nothing else. *)
Definition text_only (q : MessagePart) : Prop :=
  mp_type q = TextPart /\ mp_image q = None /\ mp_data q = None /\ mp_mimeType q = None.

(** The non-text parts of a content. *)
Definition attachmentsOf (c : Content) : list ContentPart :=
  match c with
  | Parts l => attachments l
  | Text _ => []
  end.

(** The tool calls of the steps, in order. *)
Definition callsOf (steps : list Step) : list ToolCall := flat_map toolCalls steps.

(** The results paired with the calls of the steps, in order. *)
Definition resultsOf (steps : list Step) : list json :=
  flat_map (fun s => map result (firstn (length (toolCalls s)) (toolResults s))) steps.

(** Every call of the step has a result. *)
Definition answered (s : Step) : Prop := length (toolCalls s) <= length (toolResults s).

(** The prompt [decidePreConfig] sends to the Planner (index.ts:152). *)
Definition preConfigPromptOf {W} (modelList : Obj ModelEntry) (tools : Obj (CoreTool W))
           (prompts : list GeneratePromptObj) : string :=
  "List of models:"
  ++ JSON.stringify (JObj (map (fun kv => (fst kv, entry_json (snd kv))) modelList)) ++ nl
  ++ "List of tools:" ++ JS.join "," (rev (keys tools)) ++ nl
  ++ "Prompt: " ++ JS.interpolate (option_map (fun m => JSON.stringify (prompt_json m))
                                              (last (map Some prompts) None)).

(** The options of the Planner call addressed to [model]. *)
Definition plannerOpts {W} (model : LanguageModelV1) (tools : Obj (CoreTool W))
           (prompts : list GeneratePromptObj) : ObjectOpts :=
  {| oo_model := Some model;
     oo_prompt := preConfigPromptOf Omi.modelList tools prompts;
     oo_temperature := 0%Q |}.

(** The state after a recorded call that left the world in [w]. *)
Definition after {W} (s : State W) (w : W) (cs : list Call) : State W :=
  {| world := w; genFiles := genFiles s; calls := (calls s ++ cs)%list |}.

(** What [decidePreConfig] makes of the Planner's answer. *)
Definition decided (g : GenerateObjectResult) : Result PreConfig :=
  match object g with
  | Some preConfig => Ok preConfig
  | None => Throw (Error "Failed to decide preConfigModel")
  end.

(** The file a generating tool pushes. *)
Definition imageFile (blob : string) : Files :=
  {| file_type := ImagePart; file_data := BlobData blob; file_mimeType := Some "image/png" |}.

Definition audioFile (blob : string) : Files :=
  {| file_type := FilePart; file_data := BlobData blob; file_mimeType := Some "audio/mpeg" |}.

(** The image attached to the turn [receipt]. *)
Definition receipt_image : ContentPart :=
  {| part_type := ImagePart; part_data := "iVBORw0KGgo="; part_mimeType := Some "image/png" |}.

(** The world in which the Planner's first model returns no object. *)
Definition world_no_object : Collaborators nat :=
  scripted {| sc_object := fun _ => Ok {| object := None |};
              sc_text := fun _ => Ok (answer "4");
              sc_stream := fun _ => Ok {| textStream := [];
                                          experimental_partialOutputStream := [] |};
              sc_search := fun _ => Ok {| results := [] |} |}.

(** ** The shape of the record of calls *)

(** Whatever its outcome, [m] only appends calls, and the list of the calls
    it appends satisfies [R]. *)
Definition adds {W A} (R : list Call -> Prop) (m : Async W A) : Prop :=
  forall s r s', m s = (r, s') ->
    exists cs, calls s' = (calls s ++ cs)%list /\ R cs.

(** No call at all. *)
Definition silent (cs : list Call) : Prop := cs = [].

(** At most [n] calls, all of stage [st]. *)
Definition stage_calls (st : Stage) (n : nat) (cs : list Call) : Prop :=
  Forall (fun c => stage_of c = st) cs /\ length cs <= n.

(** The calls come in blocks, one block per entry of [bounds] and in that
    order, the block of [(st, n)] being at most [n] calls of stage [st]. *)
Fixpoint pipeline (bounds : list (Stage * nat)) (cs : list Call) : Prop :=
  match bounds with
  | [] => cs = []
  | (st, n) :: rest =>
      exists c1 c2, cs = (c1 ++ c2)%list /\ stage_calls st n c1 /\ pipeline rest c2
  end.

(** The blocks of a request in the two texts of [generate]. *)
Definition Omi_bounds : list (Stage * nat) :=
  [ (Planning, 2); (WebSearch, 1); (ToolCalling, 2); (Reasoning, 2); (MultiLLM, 4);
    (FinalGeneration, 2) ].

Definition OmiB_bounds : list (Stage * nat) :=
  [ (Planning, 2); (WebSearch, 1); (ToolCalling, 3); (Reasoning, 3); (MultiLLM, 5);
    (FinalGeneration, 2) ].

(** ** What a call carries *)

(** The caller's settings, as every completion call carries them. *)
Definition carries_settings (system : option string) (temperature : number)
           (topK topP : option number) (o : TextOpts) : Prop :=
  o_system o = system /\ o_temperature o = temperature
  /\ o_topK o = topK /\ o_topP o = topP.

(** What the call of a stage is given besides the settings: the tool table,
    a step limit and a prompt in the tool-calling sub-run only, a
    conversation in every other stage, and the caller's schema in the final
    generation only. *)
Definition stage_shape (schema : option ZodSchema) (st : Stage) (o : TextOpts) : Prop :=
  match st with
  | ToolCalling =>
      o_tools o <> None /\ o_maxSteps o = Some 5%Z /\ o_toolChoice o = Some "auto"
      /\ o_messages o = None /\ o_experimental_output o = None
  | FinalGeneration =>
      o_tools o = None /\ o_maxSteps o = None /\ o_prompt o = None
      /\ o_messages o <> None /\ o_experimental_output o = schema
  | _ =>
      o_tools o = None /\ o_maxSteps o = None /\ o_prompt o = None
      /\ o_messages o <> None /\ o_experimental_output o = None
  end.

(** A call as [generate] makes it for the given settings and schema: the
    Planner is asked at temperature 0, the search is made without the AI
    overview, and only the final generation may stream. *)
Definition well_formed_call (system : option string) (temperature : number)
           (topK topP : option number) (schema : option ZodSchema) (c : Call) : Prop :=
  match c with
  | CallGenerateObject o => oo_temperature o = 0%Q
  | CallWebSearch a => ai_overview a = false
  | CallGenerateText st o =>
      st <> Planning /\ st <> WebSearch
      /\ carries_settings system temperature topK topP o /\ stage_shape schema st o
  | CallStreamText st o =>
      st = FinalGeneration
      /\ carries_settings system temperature topK topP o /\ stage_shape schema st o
  end.

(** At most [n] turns, all of role ["user"]. *)
Definition synthetic (n : nat) (added : list GeneratePromptObj) : Prop :=
  Forall (fun m => role m = User) added /\ length added <= n.

(** ** The shape of a result *)

(** The result of a request made with the given [stream] flag and schema:
    a stream result with the partial object stream attached exactly when a
    schema was given, or a text result with the object attached exactly when
    a schema was given. *)
Definition shaped (stream : option bool) (schema : option ZodSchema)
           (res : GenerateResponse) : Prop :=
  if flag_truthy stream
  then exists r, resp res = StreamResp r
                 /\ r_object res = None
                 /\ partialObjectStream res
                    = option_map (fun _ => experimental_partialOutputStream r) schema
  else exists r, resp res = TextResp r
                 /\ partialObjectStream res = None
                 /\ r_object res = option_map (fun _ => experimental_output r) schema.

(** The state [s] with [g] in place of the generated files. *)
Definition with_genFiles {W} (g : list Files) (s : State W) : State W :=
  {| world := world s; genFiles := g; calls := calls s |}.

(** The final call as [generate] makes it for the given [stream] flag, and
    the response it is answered with. *)
Definition final_call (stream : option bool) (c : Call) (llmResp : Resp) : Prop :=
  stage_of c = FinalGeneration
  /\ is_stream_call c = flag_truthy stream
  /\ if flag_truthy stream then exists r, llmResp = StreamResp r
     else exists r, llmResp = TextResp r.

(** ** The models of the final generation *)

(** The final completion call on the options [opts]. *)
Definition finalCall {W} {collab : Collaborators W} (stream : option bool)
           (opts : TextOpts) : Async W Resp :=
  if flag_truthy stream
  then r <- external_exec (CallStreamText FinalGeneration opts) (streamText opts None) ;;
       ret (StreamResp r)
  else r <- external_exec (CallGenerateText FinalGeneration opts) (generateText opts None) ;;
       ret (TextResp r).

(** The model the final generation asks first, for the registry entry [e]
    listed under [k], in the text of index.ts:294-612. *)
Definition primaryModel (reasoningText : option string) (k : string) (e : ModelEntry)
  : LanguageModelV1 :=
  if Omi.opt_truthy reasoningText && JS.includes "llama-3.3" k
  then google "gemini-1.5-flash" else modelProvider e.

(** The model it asks when the first call throws, in the two texts. *)
Definition secondaryModel (k : string) : LanguageModelV1 :=
  if String.eqb k "gpt-4o" then google "gemini-1.5-flash" else openai "gpt-4o".

Definition secondaryModelB (k : string) : LanguageModelV1 :=
  if String.eqb k "llama-3.3-70b-specdec"
  then google_with_settings "gemini-1.5-flash-8b" else secondaryModel k.

(** The model a completion call is addressed to. *)
Definition text_model (c : Call) : ModelRef :=
  match text_opts c with
  | Some o => o_model o
  | None => None
  end.

(** The work [f1] and, only when it throws, the work [f2] in the state
    [f1] left; the error of [f2] is the one thrown. *)
Definition first_then {St A} (f1 f2 : M St A) : M St (option A) :=
  fun s =>
    match f1 s with
    | (Ok r, s1) => (Ok (Some r), s1)
    | (Throw _, s1) =>
        match f2 s1 with
        | (Ok r, s2) => (Ok (Some r), s2)
        | (Throw e, s2) => (Throw e, s2)
        end
    end.

(** The call [finalCall] records. *)
Definition finalCallOf (stream : option bool) (opts : TextOpts) : Call :=
  if flag_truthy stream
  then CallStreamText FinalGeneration opts
  else CallGenerateText FinalGeneration opts.

(** ** The record of tool use *)

(** The web search is made: the latest turn has a non-empty text and the
    guard of the stage holds. *)
Definition webSearchRuns (web : option bool) (preConfigModel : PreConfig)
           (latestTextPrompt : option string) : bool :=
  match latestTextPrompt with
  | Some q => JS.truthy q && Omi.webSearchGuard web preConfigModel
  | None => false
  end.

Definition webOf {W} (p : GenerateParams W) : option bool :=
  match p_contextTool p with Some w => w | None => None end.

Definition is_search_entry (t : ToolUsed) : Prop :=
  tu_name t = "web_search" /\ tu_type t = tool_context_use.

Definition is_call_entry (t : ToolUsed) : Prop := tu_type t = tool_call.

(** The web search on the query [q] (index.ts:432-435). *)
Definition searchOn {W} {collab : Collaborators W} (q : string) : Async W SearchResponse :=
  external (CallWebSearch {| query := q; ai_overview := false |})
           (jigsaw_web_search {| query := q; ai_overview := false |}).

(** The completion call of the tool-calling sub-run on the options [opts],
    with the tool table [tools]. *)
Definition toolCallOn {W} {collab : Collaborators W} (tools : Obj (CoreTool W))
           (opts : TextOpts) : Async W GenerateTextResult :=
  external_exec (CallGenerateText ToolCalling opts) (generateText opts (Some tools)).

(** The state [sa] is reached from [s] by calls of stage [st] only. *)
Definition retried {W} (st : Stage) (s sa : State W) : Prop :=
  exists failed, calls sa = (calls s ++ failed)%list
                 /\ Forall (fun c => stage_of c = st) failed.

(** What the web-search stage, entered in [s] with the text [text] of the
    latest turn, adds to the record of tool use, and the state [s1] it
    leaves. *)
Definition search_recorded {W} {collab : Collaborators W} (web : option bool)
           (pc : PreConfig) (text : option string) (s : State W)
           (searches : list ToolUsed) (s1 : State W) : Prop :=
  if webSearchRuns web pc text
  then exists q sr, text = Some q /\ searchOn q s = (Ok sr, s1)
                    /\ searches = [webSearchUsed q sr]
  else searches = [] /\ s1 = s.

(** What the tool-calling sub-run, entered in [s1], adds to the record of
    tool use, and the state [s2] it leaves: the answer [r] of its last
    completion call is paired off by [allToolCallsOf], and every pair gives
    one entry, under the name of its call. *)
Definition calls_recorded {W} {collab : Collaborators W} (guard : bool)
           (tools : Obj (CoreTool W)) (s1 : State W)
           (entries : list ToolUsed) (s2 : State W) : Prop :=
  if guard
  then exists opts sa r l,
         retried ToolCalling s1 sa
         /\ toolCallOn tools opts sa = (Ok r, s2)
         /\ allToolCallsOf (steps r) = Ok l
         /\ entries = map toolUsedOfCall l
         /\ map tu_name entries = map toolName (callsOf (steps r))
  else entries = [] /\ s2 = s1.

(** ** The Planner call of the second text *)

(** The prompt sent to the Planner in the text of index.ts:924-1252
    (line 1046). *)
Definition preConfigPromptB {W} (tools : Obj (CoreTool W))
           (prompts : list GeneratePromptObj) : string :=
  "List of models:"
  ++ JSON.stringify (JObj (map (fun kv => (fst kv, entry_json (snd kv))) OmiB.modelList))
  ++ nl
  ++ "List of tools:" ++ JS.join "," (keys tools) ++ nl
  ++ "Prompt: " ++ JS.interpolate (option_map (fun m => JSON.stringify (prompt_json m))
                                              (last (map Some prompts) None)).

Definition plannerOptsB {W} (model : LanguageModelV1) (tools : Obj (CoreTool W))
           (prompts : list GeneratePromptObj) : ObjectOpts :=
  {| oo_model := Some model;
     oo_prompt := preConfigPromptB tools prompts;
     oo_temperature := 0%Q |}.

(** The state in which a request made in [s] ends when the one call [c] was
    made and left the world in [w]. *)
Definition after_reset {W} (s : State W) (w : W) (c : Call) : State W :=
  {| world := w; genFiles := []; calls := (calls s ++ [c])%list |}.

(** ** The models a sub-run asks *)

(** One call, of stage [st], addressed to [m]. *)
Definition one_call (st : Stage) (m : ModelRef) (cs : list Call) : Prop :=
  exists c, cs = [c] /\ stage_of c = st /\ text_model c = m.

(** Calls of stage [st], addressed to the first models of [models] in
    order, one call per model and at least one call. *)
Definition asked (st : Stage) (models : list ModelRef) (cs : list Call) : Prop :=
  Forall (fun c => stage_of c = st) cs
  /\ exists n, 1 <= n <= length models /\ map text_model cs = firstn n models.

(** The calls of a sub-run guarded by [guard]. *)
Definition asks (guard : bool) (st : Stage) (models : list LanguageModelV1)
           (cs : list Call) : Prop :=
  if guard then asked st (map Some models) cs else silent cs.

(** ** Forcing tool use *)

(** No call of the tool-calling sub-run. *)
Definition no_tool_call (cs : list Call) : Prop :=
  Forall (fun c => stage_of c <> ToolCalling) cs.

(** ** The run of a request up to and through the reasoning sub-run *)

(** The completion call of the reasoning sub-run on the options [opts]. *)
Definition reasonCall {W} {collab : Collaborators W} (opts : TextOpts)
  : Async W GenerateTextResult :=
  external_exec (CallGenerateText Reasoning opts) (generateText opts None).

(** The request [p], made in the state [s], has passed the Planner, the web
    search and the tool-calling sub-run of index.ts:294-612: the Planner
    decided [pc], and the reasoning stage is entered with the conversation
    [prompts] in the state [s3]. *)
Definition reaches_reasoning {W} {collab : Collaborators W} (p : GenerateParams W)
           (s : State W) (pc : PreConfig) (prompts : list GeneratePromptObj)
           (s3 : State W) : Prop :=
  exists init lastTurn s1 prompts1 toolUsed1 s2 toolUsed2 toolText,
    let files := latestPromptFilesOf (content lastTurn) in
    let text := latestTextPromptOf (content lastTurn) in
    let allTools := allToolsOf (p_tools p) files in
    promptsOf (p_prompt p) = (init ++ [lastTurn])%list
    /\ Omi.decidePreConfig Omi.modelList allTools (init ++ [lastTurn]) (with_genFiles [] s)
       = (Ok pc, s1)
    /\ Omi.webSearchStage (webOf p) pc text (init ++ [lastTurn]) [] s1
       = (Ok (prompts1, toolUsed1), s2)
    /\ Omi.toolStage (autoToolOf (p_autoTool p)) pc (p_system p) (temperatureOf p)
                     (p_topK p) (p_topP p) allTools text files prompts1 toolUsed1 s2
       = (Ok (prompts, toolUsed2, toolText), s3).

(** The reasoning sub-run, entered in [s3] with the conversation [prompts],
    is answered [r] and leaves the state [s4]: by [o3-mini], or, when that
    call throws, by [DeepSeek-R1]. *)
Definition reasoning_answered {W} {collab : Collaborators W} (p : GenerateParams W)
           (prompts : list GeneratePromptObj) (s3 : State W) (r : GenerateTextResult)
           (s4 : State W) : Prop :=
  let first := Omi.messagesOpts (Some (openai "o3-mini")) (p_system p)
                                (messageMap prompts true) None
                                (temperatureOf p) (p_topK p) (p_topP p) in
  let second := spread_text first
                  (substitute "model" (Some (deepinfra "deepseek-ai/DeepSeek-R1"))) in
  reasonCall first s3 = (Ok r, s4)
  \/ exists e sa, reasonCall first s3 = (Throw e, sa) /\ reasonCall second sa = (Ok r, s4).
(** * Properties *)

Unset Implicit Arguments.

(** ** The fallback executor *)

Section FallbackFacts.

Variables St T G : Type.
Variable key : string.
Variable genFunc : Subst T -> M St G.

Lemma fallback_loop_attempts (rest : list T) :
  forall (pre : list T) (c : T) (fuel : nat) (s : St),
    length rest < fuel ->
    fallback_loop key (pre ++ c :: rest) genFunc fuel (Z.of_nat (length pre)) s
    = attempts key genFunc (substitute key c) rest s.
Proof.
  induction rest as [| c' rest IH]; intros pre c fuel s Hfuel;
    (destruct fuel as [| fuel]; [inversion Hfuel |]); cbn [fallback_loop attempts].
  all: replace (0 <=? Z.of_nat (length pre))%Z with true by (symmetry; apply Z.leb_le; lia).
  all: rewrite Nat2Z.id, nth_error_app2, Nat.sub_diag by lia; cbn [nth_error].
  all: unfold substitute at 1; destruct (genFunc (Some (key, Some c)) s) as [[resp | error] s1];
    [reflexivity |].
  - rewrite length_app; cbn [length].
    replace (Z.of_nat (length pre) + 1 >=? Z.of_nat (length pre + 1))%Z with true
      by (symmetry; apply Z.geb_le; lia).
    reflexivity.
  - rewrite length_app; cbn [length].
    replace (Z.of_nat (length pre) + 1 >=? Z.of_nat (length pre + S (S (length rest))))%Z
      with false by (symmetry; rewrite Z.geb_leb; apply Z.leb_gt; lia).
    replace (Z.of_nat (length pre) + 1 <? Z.of_nat (length pre + S (S (length rest))))%Z
      with true by (symmetry; apply Z.ltb_lt; lia).
    specialize (IH (pre ++ [c])%list c' fuel s1).
    rewrite <- app_assoc in IH; cbn [app] in IH.
    rewrite length_app in IH; cbn [length] in IH.
    replace (Z.of_nat (length pre + 1)) with (Z.of_nat (length pre) + 1)%Z in IH by lia.
    apply IH. cbn [length] in Hfuel. lia.
Qed.

(** The loop of [fallback] makes exactly the attempts of [attempts]; in
    particular its fuel is never used up. *)
Lemma fallback_attempts (item : list T) (s : St) :
  fallback key item genFunc s = attempts key genFunc None item s.
Proof.
  unfold fallback. cbn [fallback_loop].
  replace (0 <=? -1)%Z with false by reflexivity.
  destruct item as [| c rest]; cbn [attempts].
  - destruct (genFunc None s) as [[resp | error] s1]; reflexivity.
  - destruct (genFunc None s) as [[resp | error] s1]; [reflexivity |].
    change (-1 + 1)%Z with 0%Z.
    replace (0 >=? Z.of_nat (length (c :: rest)))%Z with false
      by (symmetry; rewrite Z.geb_leb; apply Z.leb_gt; cbn [length]; lia).
    replace (0 <? Z.of_nat (length (c :: rest)))%Z with true
      by (symmetry; apply Z.ltb_lt; cbn [length]; lia).
    apply (fallback_loop_attempts rest [] c). cbn [length]. lia.
Qed.

(** [fallback] never returns [undefined]. *)
Lemma fallback_defined (item : list T) (s s1 : St) :
  fallback key item genFunc s <> (Ok None, s1).
Proof.
  rewrite fallback_attempts. generalize (@None (string * option T)) as a.
  revert s. induction item as [| c rest IH]; intros s a; cbn [attempts];
    destruct (genFunc a s) as [[resp | error] s2]; try discriminate.
  apply IH.
Qed.

End FallbackFacts.

Section FallbackOrder.

Variables St T G : Type.
Variable key : string.
Variable genFunc : Subst T -> M St G.

Lemma attempts_logged_throws (pre : list T) :
  forall (a : Subst T) (s : St) (l : list (Subst T)) (s1 : St) (e : exn),
    throws genFunc a (map (substitute key) pre) s = Some (s1, e) ->
    (forall (c : T) (post : list T) (r : G) (s2 : St),
        genFunc (substitute key c) s1 = (Ok r, s2) ->
        attempts key (logged genFunc) a (pre ++ c :: post) (s, l)
        = (Ok (Some r),
           (s2, (l ++ a :: map (substitute key) pre ++ [substitute key c])%list)))
    /\ attempts key (logged genFunc) a pre (s, l)
       = (Throw e, (s1, (l ++ a :: map (substitute key) pre)%list)).
Proof.
  induction pre as [| c0 pre IH]; intros a s l s1 e Hthrows; cbn [map throws] in Hthrows.
  - destruct (genFunc a s) as [[resp | e0] s0] eqn:Ha; [discriminate |].
    injection Hthrows as -> ->. split.
    + intros c post r s2 Hc. cbn [app attempts map]. unfold logged at 1.
      cbn [fst snd]. rewrite Ha.
      destruct post; cbn [attempts]; unfold logged; cbn [fst snd]; rewrite Hc;
        rewrite <- app_assoc; reflexivity.
    + cbn [attempts map]. unfold logged. cbn [fst snd]. rewrite Ha. reflexivity.
  - destruct (genFunc a s) as [[resp | e0] s0] eqn:Ha; [discriminate |].
    destruct (IH (substitute key c0) s0 (l ++ [a])%list s1 e Hthrows) as [IHok IHthrow].
    split.
    + intros c post r s2 Hc. cbn [app attempts map]. unfold logged at 1.
      cbn [fst snd]. rewrite Ha. rewrite (IHok c post r s2 Hc).
      rewrite <- app_assoc. reflexivity.
    + cbn [attempts map]. unfold logged at 1. cbn [fst snd]. rewrite Ha.
      rewrite IHthrow. rewrite <- app_assoc. reflexivity.
Qed.

(** C3.  The fallback executor, given the candidates [item] and a unit of
    work.  The arguments the work is invoked with are recorded in order.
    (1) When the un-substituted attempt succeeds, its result is returned and
    no candidate is invoked.  (2) When the un-substituted attempt and the
    candidates [pre] that come before candidate [c] all throw and the work
    succeeds on [c], the executor returns the result and the state of that
    attempt, and the work has been invoked with no substitution first, then
    with each candidate of [pre], then with [c], and with none of the
    candidates [post] after [c].  (3) When the un-substituted attempt and all
    candidates throw, the error thrown last is thrown, as it is. *)
Theorem fallback_first_success_else_last_error :
  forall (item pre post : list T) (c : T) (s0 s1 s2 : St) (e : exn) (r : G),
    (genFunc None s0 = (Ok r, s1) ->
     fallback key item (logged genFunc) (s0, [])
     = (Ok (Some r), (s1, [None])))
    /\ (all_throw key genFunc pre s0 = Some (s1, e) ->
        genFunc (substitute key c) s1 = (Ok r, s2) ->
        fallback key (pre ++ c :: post) (logged genFunc) (s0, [])
        = (Ok (Some r),
           (s2, (None :: map (substitute key) pre ++ [substitute key c])%list)))
    /\ (all_throw key genFunc item s0 = Some (s1, e) ->
        fallback key item (logged genFunc) (s0, [])
        = (Throw e, (s1, None :: map (substitute key) item))).
Proof.
  intros item pre post c s0 s1 s2 e r. repeat split.
  - intros H0. rewrite fallback_attempts.
    destruct item; cbn [attempts]; unfold logged; cbn [fst snd]; rewrite H0; reflexivity.
  - intros Hpre Hc. rewrite fallback_attempts.
    destruct (attempts_logged_throws pre None s0 [] s1 e Hpre) as [Hok _].
    exact (Hok c post r s2 Hc).
  - intros Hall. rewrite fallback_attempts.
    destruct (attempts_logged_throws item None s0 [] s1 e Hall) as [_ Hthrow].
    exact Hthrow.
Qed.

End FallbackOrder.

(** ** Strings: [split] at the first occurrence of the separator *)

Lemma append_assoc (a b c : string) : (a ++ b) ++ c = a ++ b ++ c.
Proof. induction a as [| x a IH]; cbn; [reflexivity | now rewrite IH]. Qed.

Lemma append_empty_r (a : string) : a ++ "" = a.
Proof. induction a as [| x a IH]; cbn; [reflexivity | now rewrite IH]. Qed.

Lemma startsWith_app (p s : string) : JS.startsWith p (p ++ s) = true.
Proof.
  induction p as [| a p IH]; cbn; [reflexivity |].
  now rewrite Ascii.eqb_refl, IH.
Qed.

Lemma includes_app (p s : string) : JS.includes p (p ++ s) = true.
Proof. destruct p; cbn; [destruct s; reflexivity |]. now rewrite Ascii.eqb_refl, startsWith_app. Qed.

Lemma rev_onto_acc (cur acc : string) :
  JS.rev_onto acc cur = JS.rev_onto "" cur ++ acc.
Proof.
  revert acc. induction cur as [| c cur IH]; intros acc; cbn; [reflexivity |].
  rewrite (IH (String c acc)), (IH (String c "")), append_assoc. reflexivity.
Qed.

Lemma unrev_rev_onto (a cur : string) :
  JS.unrev (JS.rev_onto cur a) = JS.unrev cur ++ a.
Proof.
  revert cur. induction a as [| c a IH]; intros cur; cbn.
  - now rewrite append_empty_r.
  - rewrite IH. unfold JS.unrev. cbn. rewrite (rev_onto_acc cur (String c "")).
    rewrite append_assoc. reflexivity.
Qed.

Lemma split_from_skip (sep x b cur : string) :
  JS.split_from sep (x ++ b) (String.length x) cur = JS.split_from sep b 0 cur.
Proof. induction x as [| c x IH]; cbn; [reflexivity | exact IH]. Qed.

Lemma split_from_at_sep (c0 : ascii) (sep' b cur : string) :
  JS.split_from (String c0 sep') (String c0 sep' ++ b) 0 cur
  = JS.unrev cur :: JS.split_from (String c0 sep') b 0 "".
Proof.
  cbn [append JS.split_from].
  change (String c0 (sep' ++ b)) with (String c0 sep' ++ b).
  rewrite startsWith_app.
  replace (String.length (String c0 sep') - 1) with (String.length sep')
    by (cbn [String.length]; lia).
  now rewrite split_from_skip.
Qed.

Lemma split_from_no_early (sep a rest : string) :
  forall cur, no_early sep a rest ->
    JS.split_from sep (a ++ rest) 0 cur = JS.split_from sep rest 0 (JS.rev_onto cur a).
Proof.
  induction a as [| c a IH]; intros cur H; cbn [append JS.rev_onto]; [reflexivity |].
  destruct H as [Hc Ha]. cbn [JS.split_from].
  change (String c (a ++ rest)) with (String c a ++ rest). rewrite Hc.
  now apply IH.
Qed.

Lemma split_from_none (sep s : string) :
  forall cur, JS.includes sep s = false ->
    JS.split_from sep s 0 cur = [JS.unrev (JS.rev_onto cur s)].
Proof.
  induction s as [| c s IH]; intros cur H; [reflexivity |].
  cbn [JS.includes] in H. apply orb_false_iff in H. destruct H as [Hc Hs].
  cbn [JS.split_from JS.rev_onto]. rewrite Hc. now apply IH.
Qed.

Lemma split_from_head (sep s : string) :
  forall cur, exists rest, nth 0 (JS.split_from sep s 0 cur) "" = JS.unrev cur ++ rest.
Proof.
  induction s as [| c s IH]; intros cur.
  - exists "". cbn. now rewrite append_empty_r.
  - cbn [JS.split_from]. destruct (JS.startsWith sep (String c s)).
    + exists "". cbn. now rewrite append_empty_r.
    + destruct (IH (String c cur)) as [rest Hrest]. exists (String c rest).
      rewrite Hrest. unfold JS.unrev. cbn. rewrite (rev_onto_acc cur (String c "")).
      rewrite append_assoc. reflexivity.
Qed.

Lemma no_early_app (sep a b rest : string) :
  no_early sep a (b ++ rest) -> no_early sep b rest -> no_early sep (a ++ b) rest.
Proof.
  induction a as [| c a IH]; intros Ha Hb; cbn [append]; [exact Hb |].
  destruct Ha as [Hc Ha]. cbn [no_early]. split.
  - change (String c (a ++ b)) with (String c a ++ b). rewrite append_assoc. exact Hc.
  - now apply IH.
Qed.

Lemma startsWith_before_fresh (c0 : ascii) (p : string) :
  occurs c0 p = false ->
  forall t r, JS.startsWith p (t ++ String c0 r) = true -> JS.startsWith p t = true.
Proof.
  induction p as [| a p IH]; intros Hocc t r H; [reflexivity |].
  cbn [occurs] in Hocc. apply orb_false_iff in Hocc. destruct Hocc as [Ha Hp].
  destruct t as [| b t]; cbn [append JS.startsWith] in *.
  - rewrite Ascii.eqb_sym, Ha in H. discriminate.
  - apply andb_true_iff in H. destruct H as [Hab Ht].
    rewrite Hab. cbn. exact (IH Hp t r Ht).
Qed.

(** The first character of the separator occurs nowhere else in it, [a]
    does not include the separator, and what follows [a] begins with that
    character: then no occurrence begins inside [a]. *)
Lemma no_early_fresh (c0 : ascii) (sep' a r : string) :
  occurs c0 sep' = false ->
  JS.includes (String c0 sep') a = false ->
  no_early (String c0 sep') a (String c0 r).
Proof.
  intros Hocc. induction a as [| c a IH]; intros Hinc; cbn [no_early]; [exact I |].
  cbn [JS.includes] in Hinc. apply orb_false_iff in Hinc. destruct Hinc as [Hc Ha].
  split; [| now apply IH].
  cbn [append JS.startsWith] in *.
  destruct (Ascii.eqb c0 c); [| reflexivity]. cbn in *.
  destruct (JS.startsWith sep' (a ++ String c0 r)) eqn:E; [| reflexivity].
  rewrite (startsWith_before_fresh c0 sep' Hocc a r E) in Hc. discriminate.
Qed.

(** The extraction on an answer that opens with a [<think>] span whose
    interior includes neither delimiter. *)
Lemma extractThink_span (inner trailing : string) :
  JS.includes "<think>" inner = false ->
  JS.includes "</think>" inner = false ->
  extractThink ("<think>" ++ inner ++ "</think>" ++ trailing) = JS.trim inner.
Proof.
  intros Hopen Hclose. unfold extractThink, JS.split.
  rewrite (split_from_at_sep "<" "think>" (inner ++ "</think>" ++ trailing) "").
  cbn [nth].
  rewrite <- (append_assoc inner "</think>" trailing).
  rewrite (split_from_no_early "<think>" (inner ++ "</think>") trailing "").
  2:{ apply no_early_app.
      - apply (no_early_fresh "<" "think>" inner ("/think>" ++ trailing)); [reflexivity | exact Hopen].
      - cbn. repeat split; reflexivity. }
  destruct (split_from_head "<think>" trailing (JS.rev_onto "" (inner ++ "</think>")))
    as [rest Hrest].
  rewrite Hrest. rewrite unrev_rev_onto. unfold JS.unrev at 1. cbn [JS.rev_onto append].
  rewrite (append_assoc inner "</think>" rest).
  rewrite (split_from_no_early "</think>" inner ("</think>" ++ rest) "").
  2:{ apply (no_early_fresh "<" "/think>" inner ("/think>" ++ rest)); [reflexivity | exact Hclose]. }
  rewrite (split_from_at_sep "<" "/think>" rest). cbn [nth].
  rewrite unrev_rev_onto. reflexivity.
Qed.

(** ** Reasoning extraction *)

Lemma split_from_nonempty (sep s : string) :
  forall skip cur, 1 <= length (JS.split_from sep s skip cur).
Proof.
  induction s as [| c s IH]; intros skip cur; cbn [JS.split_from]; [cbn; lia |].
  destruct skip; [| apply IH].
  destruct (JS.startsWith sep (String c s)); [cbn [length]; lia | apply IH].
Qed.

(** Under the guard [includes("<think>")] the element [1] of the split
    exists. *)
Lemma split_includes_second (s : string) :
  JS.includes "<think>" s = true ->
  forall cur, 2 <= length (JS.split_from "<think>" s 0 cur).
Proof.
  induction s as [| c s IH]; intros H cur; [discriminate |].
  cbn [JS.includes] in H. cbn [JS.split_from].
  destruct (JS.startsWith "<think>" (String c s)).
  - cbn [length]. apply le_n_S, split_from_nonempty.
  - cbn [orb] in H. now apply IH.
Qed.

(** C7, as amended.  When the raw reasoning answer (the reasoning trace, or
    the text when there is no trace) is [<think>INNER</think>TRAILING] with
    an [INNER] that includes neither [<think>] nor [</think>], the extracted
    reasoning text is [INNER] trimmed; when the raw answer does not include
    [<think>], it is the raw answer. *)
Theorem reasoning_text_of_think_span :
  forall (r : GenerateTextResult) (raw inner trailing : string),
    JS.or_else (reasoning r) (Some (text r)) = Some raw ->
    (raw = "<think>" ++ inner ++ "</think>" ++ trailing ->
     JS.includes "<think>" inner = false ->
     JS.includes "</think>" inner = false ->
     reasoningTextOf (Some r) = Some (JS.trim inner))
    /\ (JS.includes "<think>" raw = false ->
        reasoningTextOf (Some r) = Some raw).
Proof.
  intros r raw inner trailing Hraw. unfold reasoningTextOf. rewrite Hraw. split.
  - intros -> Hopen Hclose.
    rewrite (includes_app "<think>" (inner ++ "</think>" ++ trailing)).
    now rewrite extractThink_span.
  - intros Hnone. now rewrite Hnone.
Qed.

Lemma reasoning_text_of_think_span_witness :
  reasoningTextOf (Some (answer "<think> 2 + 2 = 4 </think>The answer is 4."))
  = Some "2 + 2 = 4"
  /\ reasoningTextOf (Some (answer "The answer is 4.")) = Some "The answer is 4.".
Proof.
  split.
  - apply (proj1 (reasoning_text_of_think_span
                    (answer "<think> 2 + 2 = 4 </think>The answer is 4.")
                    "<think> 2 + 2 = 4 </think>The answer is 4."
                    " 2 + 2 = 4 " "The answer is 4." eq_refl));
      reflexivity.
  - apply (proj2 (reasoning_text_of_think_span
                    (answer "The answer is 4.") "The answer is 4." "" "" eq_refl));
      reflexivity.
Defined.

(** C7 as stated fails when [INNER] itself contains [<think>]: the answer
    [<think>a<think>b</think>c] has the interior [a<think>b], and the
    extraction yields [a]. *)
Lemma nested_think_is_cut_short :
  reasoningTextOf (Some (answer ("<think>" ++ "a<think>b" ++ "</think>" ++ "c")))
  = Some "a"
  /\ Some "a" <> Some (JS.trim "a<think>b").
Proof. split; [reflexivity | discriminate]. Qed.

(** ** File references *)

Lemma of_nat_injective (n m : nat) : JS.of_nat n = JS.of_nat m -> n = m.
Proof.
  unfold JS.of_nat. intros H.
  apply (f_equal NilEmpty.uint_of_string) in H. rewrite !NilEmpty.usu in H.
  injection H as H. apply (f_equal Nat.of_uint) in H.
  now rewrite !Unsigned.of_to in H.
Qed.

Lemma append_cancel_l (p a b : string) : p ++ a = p ++ b -> a = b.
Proof. induction p as [| c p IH]; cbn; intros H; [exact H | injection H as H; auto]. Qed.

Lemma reference_injective (i j : nat) : reference i = reference j -> i = j.
Proof. unfold reference. intros H. now apply append_cancel_l, of_nat_injective in H. Qed.

Lemma reference_includes_host (i : nat) :
  JS.includes "https://onellmref.com" (reference i) = true.
Proof.
  unfold reference.
  change "https://onellmref.com/" with ("https://onellmref.com" ++ "/").
  rewrite append_assoc. apply includes_app.
Qed.

Lemma find_reference (l : list ContentPart) :
  forall (i0 i : nat) (part : ContentPart),
    nth_error l i = Some part ->
    find (fun f => String.eqb (ref f) (reference (i0 + i))) (mapi_from promptFile i0 l)
    = Some (promptFile (i0 + i) part).
Proof.
  induction l as [| c l IH]; intros i0 i part H; [destruct i; discriminate |].
  destruct i as [| i]; cbn [nth_error] in H; cbn [mapi_from find promptFile ref].
  - injection H as ->. rewrite Nat.add_0_r, String.eqb_refl. reflexivity.
  - destruct (String.eqb_spec (reference i0) (reference (i0 + S i))) as [E | _].
    + apply reference_injective in E. lia.
    + replace (i0 + S i) with (S i0 + i) by lia. now apply IH.
Qed.

Lemma resolveRef_attachment (parts : list ContentPart) (i : nat) (part : ContentPart) :
  nth_error (attachments parts) i = Some part ->
  part_data part <> "" ->
  resolveRef (latestPromptFilesOf (Parts parts)) (reference i) = part_data part.
Proof.
  intros Hnth Hdata. unfold resolveRef. rewrite reference_includes_host.
  change (latestPromptFilesOf (Parts parts))
    with (mapi_from promptFile 0 (attachments parts)).
  pose proof (find_reference (attachments parts) 0 i part Hnth) as Hfind.
  cbn [Nat.add] in Hfind. rewrite Hfind. cbn [promptFile pf_data].
  destruct (part_data part); [contradiction | reflexivity].
Qed.

Lemma resolveRef_unknown (files : list PromptFile) (url : string) :
  (forall f, In f files -> ref f <> url) -> resolveRef files url = url.
Proof.
  intros H. unfold resolveRef. destruct (JS.includes _ url); [| reflexivity].
  destruct (find _ files) as [f |] eqn:E; [| reflexivity].
  apply find_some in E. destruct E as [Hin Heq].
  apply String.eqb_eq in Heq. now apply H in Hin.
Qed.

(** C8, as amended.  A media tool ([ai_scraper], [ocr], [speech_to_text])
    invoked with the reference [https://onellmref.com/<i>] of the [i]-th
    non-text part of the latest turn calls its service with that part's
    [data], provided the data is not the empty string; invoked with a [url]
    that is the reference of no part, it calls the service with [url]. *)
Theorem media_tools_resolve_references :
  forall (W : Type) (collab : Collaborators W)
         (parts : list ContentPart) (i : nat) (part : ContentPart)
         (lastPromptContent : Content) (url : string) (fields : list string),
    (nth_error (attachments parts) i = Some part ->
     part_data part <> "" ->
     let files := latestPromptFilesOf (Parts parts) in
     execute (ai_scraper files) (reference i, fields) = scrape_with (part_data part) fields
     /\ execute (ocr files) (reference i, fields) = vocr_with (part_data part) fields
     /\ execute (speech_to_text files) (reference i) = transcribe_with (part_data part))
    /\ ((forall f, In f (latestPromptFilesOf lastPromptContent) -> ref f <> url) ->
        let files := latestPromptFilesOf lastPromptContent in
        execute (ai_scraper files) (url, fields) = scrape_with url fields
        /\ execute (ocr files) (url, fields) = vocr_with url fields
        /\ execute (speech_to_text files) url = transcribe_with url).
Proof.
  intros W collab parts i part lastPromptContent url fields. split.
  - intros Hnth Hdata files.
    unfold scrape_with, vocr_with, transcribe_with. cbn [execute ai_scraper ocr speech_to_text].
    unfold files. rewrite (resolveRef_attachment parts i part Hnth Hdata). auto.
  - intros Hnone files.
    unfold scrape_with, vocr_with, transcribe_with. cbn [execute ai_scraper ocr speech_to_text].
    unfold files. rewrite (resolveRef_unknown _ url Hnone). auto.
Qed.

(** ** The record of calls *)

Section Emits.

Variable W : Type.
Context {collab : Collaborators W}.

Lemma emits_weaken {A} (P Q : Call -> Prop) (m : Async W A) :
  (forall c, P c -> Q c) -> emits P m -> emits Q m.
Proof.
  intros HPQ Hm s r s' E. destruct (Hm s r s' E) as [cs [Hcs HP]].
  exists cs. split; [exact Hcs |]. eapply Forall_impl; eauto.
Qed.

Lemma emits_ret {A} (P : Call -> Prop) (a : A) : emits P (ret a : Async W A).
Proof.
  intros s r s' E. injection E as <- <-. exists []. now rewrite app_nil_r.
Qed.

Lemma emits_throw {A} (P : Call -> Prop) (e : exn) : emits P (throw e : Async W A).
Proof.
  intros s r s' E. injection E as <- <-. exists []. now rewrite app_nil_r.
Qed.

Lemma emits_of_result {A} (P : Call -> Prop) (x : Result A) :
  emits P (of_result x : Async W A).
Proof. destruct x; [apply emits_ret | apply emits_throw]. Qed.

Lemma emits_bind {A B} (P : Call -> Prop) (m : Async W A) (k : A -> Async W B) :
  emits P m -> (forall a, emits P (k a)) -> emits P (bind m k).
Proof.
  intros Hm Hk s r s' E. unfold bind in E.
  destruct (m s) as [[a | e] s1] eqn:Em.
  - destruct (Hm s _ _ Em) as [cs1 [H1 P1]].
    destruct (Hk a s1 _ _ E) as [cs2 [H2 P2]].
    exists (cs1 ++ cs2)%list. split.
    + now rewrite H2, H1, app_assoc.
    + apply Forall_app. now split.
  - injection E as <- <-. exact (Hm s _ _ Em).
Qed.

Lemma emits_external {A} (P : Call -> Prop) (c : Call) (f : M W A) :
  P c -> emits P (external c f).
Proof.
  intros Hc s r s' E. unfold external in E.
  destruct (f (world s)) as [r0 w]. injection E as <- <-.
  exists [c]. split; [reflexivity | now constructor].
Qed.

Lemma emits_external_exec {A} (P : Call -> Prop) (c : Call) (f : Exec W A) :
  P c -> emits P (external_exec c f).
Proof.
  intros Hc s r s' E. unfold external_exec in E.
  destruct (f (world s, genFiles s)) as [r0 [w g]]. injection E as <- <-.
  exists [c]. split; [reflexivity | now constructor].
Qed.

Lemma emits_genFiles_reset (P : Call -> Prop) : emits P (@genFiles_reset W).
Proof.
  intros s r s' E. injection E as <- <-. exists []. cbn. now rewrite app_nil_r.
Qed.

Lemma emits_genFiles_read (P : Call -> Prop) : emits P (@genFiles_read W).
Proof.
  intros s r s' E. injection E as <- <-. exists []. now rewrite app_nil_r.
Qed.

Lemma emits_attempts {T G} (P : Call -> Prop) (key : string)
      (genFunc : Subst T -> Async W G) (rest : list T) :
  (forall a, emits P (genFunc a)) ->
  forall a, emits P (attempts key genFunc a rest).
Proof.
  intros Hg. induction rest as [| c rest IH]; intros a s r s' E; cbn [attempts] in E;
    destruct (genFunc a s) as [[resp | error] s1] eqn:Ea.
  - injection E as <- <-. exact (Hg a s _ _ Ea).
  - injection E as <- <-. exact (Hg a s _ _ Ea).
  - injection E as <- <-. exact (Hg a s _ _ Ea).
  - destruct (Hg a s _ _ Ea) as [cs1 [H1 P1]].
    destruct (IH _ s1 _ _ E) as [cs2 [H2 P2]].
    exists (cs1 ++ cs2)%list. split.
    + now rewrite H2, H1, app_assoc.
    + apply Forall_app. now split.
Qed.

Lemma emits_fallback {T G} (P : Call -> Prop) (key : string) (item : list T)
      (genFunc : Subst T -> Async W G) :
  (forall a, emits P (genFunc a)) -> emits P (fallback key item genFunc).
Proof.
  intros Hg s r s' E. rewrite fallback_attempts in E.
  exact (emits_attempts P key genFunc item Hg None s r s' E).
Qed.

Lemma emits_allSettled {A} (P : Call -> Prop) (ps : list (Async W A)) :
  Forall (emits P) ps -> emits P (allSettled ps).
Proof.
  induction ps as [| p ps IH]; intros Hps; [apply emits_ret |].
  inversion Hps as [| ? ? Hp Hps']; subst.
  intros s r s' E. cbn [allSettled] in E.
  destruct (p s) as [r0 s1] eqn:Ep.
  destruct (allSettled ps s1) as [[rs | e] s2] eqn:Eps; injection E as <- <-.
  all: destruct (Hp s _ _ Ep) as [cs1 [H1 P1]];
    destruct (IH Hps' s1 _ _ Eps) as [cs2 [H2 P2]];
    exists (cs1 ++ cs2)%list; split;
    [now rewrite H2, H1, app_assoc | apply Forall_app; now split].
Qed.

End Emits.

(** One step of a proof that a computation emits calls of a given kind. *)
Ltac emits_step :=
  lazymatch goal with
  | |- emits _ (bind _ _) => apply emits_bind; [| intros ?]
  | |- emits _ (ret _) => apply emits_ret
  | |- emits _ (throw _) => apply emits_throw
  | |- emits _ (of_result _) => apply emits_of_result
  | |- emits _ genFiles_reset => apply emits_genFiles_reset
  | |- emits _ genFiles_read => apply emits_genFiles_read
  | |- emits _ (fallback _ _ _) => apply emits_fallback; intros ?
  | |- emits _ (external _ _) => apply emits_external
  | |- emits _ (external_exec _ _) => apply emits_external_exec
  | |- emits _ (match ?x with _ => _ end) => destruct x
  | |- emits _ (if ?b then _ else _) => destruct b
  | |- emits _ (let _ := _ in _) => cbv zeta
  end.

Lemma spread_text_temperature (opts : TextOpts) (args : Subst ModelRef) :
  o_temperature (spread_text opts args) = o_temperature opts.
Proof.
  destruct args as [[k v] |]; cbn; [| reflexivity]. destruct (String.eqb k "model"); reflexivity.
Qed.

Lemma from_stage_text (st : Stage) (t : number) (opts : TextOpts) (args : Subst ModelRef) :
  o_temperature opts = t -> from_stage st t (CallGenerateText st (spread_text opts args)).
Proof.
  intros H. split; [reflexivity |]. intros o [= <-]. now rewrite spread_text_temperature.
Qed.

Lemma from_stage_stream (st : Stage) (t : number) (opts : TextOpts) (args : Subst ModelRef) :
  o_temperature opts = t -> from_stage st t (CallStreamText st (spread_text opts args)).
Proof.
  intros H. split; [reflexivity |]. intros o [= <-]. now rewrite spread_text_temperature.
Qed.

Lemma from_stage_plain (st : Stage) (t : number) (opts : TextOpts) :
  o_temperature opts = t -> from_stage st t (CallGenerateText st opts).
Proof. intros H. split; [reflexivity |]. now intros o [= <-]. Qed.

Lemma from_stage_object (t : number) (o : ObjectOpts) :
  from_stage Planning t (CallGenerateObject o).
Proof. split; [reflexivity | discriminate]. Qed.

Lemma from_stage_search (t : number) (a : SearchParams) :
  from_stage WebSearch t (CallWebSearch a).
Proof. split; [reflexivity | discriminate]. Qed.

Create HintDb stages.

#[local] Hint Resolve from_stage_text from_stage_stream from_stage_plain
  from_stage_object from_stage_search : stages.

Ltac emits_auto := repeat emits_step; auto with stages.

Section EmitsOmi.

Variable W : Type.
Context {collab : Collaborators W}.

Lemma emits_decidePreConfig (t : number) modelList tools prompts :
  emits (from_stage Planning t) (Omi.decidePreConfig modelList tools prompts).
Proof. unfold Omi.decidePreConfig. emits_auto. Qed.

Lemma emits_webSearchStage (t : number) web pc latestTextPrompt prompts toolUsed :
  emits (from_stage WebSearch t)
        (Omi.webSearchStage web pc latestTextPrompt prompts toolUsed).
Proof. unfold Omi.webSearchStage. emits_auto. Qed.

Lemma emits_toolStage autoTool pc system temperature topK topP allTools
      latestTextPrompt latestPromptFiles prompts toolUsed :
  emits (from_stage ToolCalling temperature)
        (Omi.toolStage autoTool pc system temperature topK topP allTools
                       latestTextPrompt latestPromptFiles prompts toolUsed).
Proof. unfold Omi.toolStage. emits_auto. Qed.

Lemma emits_reasoningStage reasoning pc system temperature topK topP prompts :
  emits (from_stage Reasoning temperature)
        (Omi.reasoningStage reasoning pc system temperature topK topP prompts).
Proof. unfold Omi.reasoningStage. emits_auto. Qed.

Lemma emits_multiLLMStage multiLLM system temperature topK topP prompts :
  emits (from_stage MultiLLM temperature)
        (Omi.multiLLMStage multiLLM system temperature topK topP prompts).
Proof.
  unfold Omi.multiLLMStage. emits_step; [| emits_auto]. emits_step; [| emits_auto].
  apply emits_allSettled, Forall_map, Forall_forall. intros m _. emits_auto.
Qed.

Lemma emits_finalStage modelConfig reasoningText stream schema system temperature
      topK topP prompts :
  emits (from_stage FinalGeneration temperature)
        (Omi.finalStage modelConfig reasoningText stream schema system temperature
                        topK topP prompts).
Proof. unfold Omi.finalStage. emits_auto. Qed.

Lemma emits_augment p pc lastPromptContent allTools prompts toolUsed :
  emits (from_augmentation (temperatureOf p))
        (Omi.augment p pc lastPromptContent allTools prompts toolUsed).
Proof.
  unfold Omi.augment, from_augmentation, temperatureOf. cbv zeta.
  apply emits_bind; [| intros [prompts1 toolUsed1]].
  { eapply emits_weaken; [| apply emits_webSearchStage]. intros c H. left. exact H. }
  apply emits_bind; [| intros [[prompts2 toolUsed2] toolText]].
  { eapply emits_weaken; [| apply emits_toolStage]. intros c H. right. left. exact H. }
  apply emits_bind; [| intros [prompts3 reasoningText]].
  { eapply emits_weaken; [| apply emits_reasoningStage]. intros c H. right. right. left. exact H. }
  apply emits_bind; [| intros prompts4; apply emits_ret].
  eapply emits_weaken; [| apply emits_multiLLMStage]. intros c H. right. right. right. exact H.
Qed.

Lemma emits_generate (p : GenerateParams W) :
  emits (fun c => from_stage Planning (temperatureOf p) c
                  \/ from_augmentation (temperatureOf p) c
                  \/ from_stage FinalGeneration (temperatureOf p) c)
        (Omi.generate p).
Proof.
  unfold Omi.generate. cbv zeta.
  apply emits_bind; [destruct (last _ _); [apply emits_ret | apply emits_throw] |].
  intros lastPromptContent.
  apply emits_bind; [apply emits_genFiles_reset | intros _].
  apply emits_bind; [| intros pc].
  { eapply emits_weaken; [| apply emits_decidePreConfig]. intros c H. left. exact H. }
  apply emits_bind; [| intros [[prompts toolUsed] reasoningText]].
  { eapply emits_weaken; [| apply emits_augment]. intros c H. right. left. exact H. }
  apply emits_bind; [| intros [llmResp |]].
  { eapply emits_weaken; [| apply emits_finalStage]. intros c H. right. right. exact H. }
  - apply emits_bind; [apply emits_genFiles_read | intros g; apply emits_ret].
  - apply emits_throw.
Qed.

End EmitsOmi.

(** ** Temperature *)

(** C9.  When the caller supplies no temperature, every completion call
    [generate] makes (in the tool-calling sub-run, the reasoning sub-run, the
    multi-model cross-check and the final generation) carries the
    temperature 0, whatever the outcome of the request. *)
Theorem default_temperature_is_zero :
  forall (W : Type) (collab : Collaborators W) (p : GenerateParams W)
         (s s' : State W) (r : Result GenerateResponse),
    p_temperature p = None ->
    Omi.generate p s = (r, s') ->
    exists cs,
      calls s' = (calls s ++ cs)%list
      /\ Forall (fun c => forall o, text_opts c = Some o -> o_temperature o = 0%Q) cs.
Proof.
  intros W collab p s s' r Hnone E.
  destruct (emits_generate W p s r s' E) as [cs [Hcs Hall]].
  exists cs. split; [exact Hcs |].
  eapply Forall_impl; [| exact Hall]. unfold temperatureOf. rewrite Hnone.
  intros c [H | [[H | [H | [H | H]]] | H]]; exact (proj2 H).
Qed.

(** ** A model the registry does not know *)

(** C2, as amended.  The Planner has returned an identifier [pc_model pc]
    for which the lookup [modelList[id]] is [undefined].  Then the
    augmentation stages still run; when one of them throws, [generate]
    throws that error, and otherwise it throws the [TypeError] of reading
    [id] of [undefined].  In both cases [generate] returns no result and
    makes no call of the final generation. *)
Theorem unknown_model_fails_before_final_generation :
  forall (W : Type) (collab : Collaborators W) (p : GenerateParams W)
         (m : GeneratePromptObj) (s s1 : State W) (pc : PreConfig),
    let prompts := promptsOf (p_prompt p) in
    let allTools := allToolsOf (p_tools p) (latestPromptFilesOf (content m)) in
    last (map Some prompts) None = Some m ->
    Omi.decidePreConfig Omi.modelList allTools prompts (snd (genFiles_reset s)) = (Ok pc, s1) ->
    get Omi.modelList (pc_model pc) = None ->
    exists r s2,
      Omi.augment p pc (content m) allTools prompts [] s1 = (r, s2)
      /\ Omi.generate p s
         = (Throw match r with
                  | Ok _ => TypeError "Cannot read properties of undefined (reading 'id')"
                  | Throw e => e
                  end, s2)
      /\ exists cs, calls s2 = (calls s ++ cs)%list
                    /\ Forall (fun c => stage_of c <> FinalGeneration) cs.
Proof.
  intros W collab p m s s1 pc prompts allTools Hlast Hplan Hget.
  destruct (Omi.augment p pc (content m) allTools prompts [] s1) as [r s2] eqn:Eaug.
  exists r, s2. split; [reflexivity |]. split.
  - unfold Omi.generate. cbv zeta. fold prompts. rewrite Hlast.
    unfold bind at 1. cbn [ret]. unfold bind at 1.
    change (genFiles_reset s) with (Ok tt, snd (genFiles_reset s)). cbv iota.
    unfold bind at 1. fold allTools. rewrite Hplan.
    unfold bind at 1. rewrite Eaug.
    destruct r as [[[prompts' toolUsed'] reasoningText'] | e]; [| reflexivity].
    rewrite Hget. unfold bind at 1. unfold Omi.finalStage, bind, of_result. cbn.
    reflexivity.
  - pose proof (emits_decidePreConfig W 0%Q Omi.modelList allTools prompts _ _ _ Hplan)
      as [cs1 [H1 P1]].
    pose proof (emits_augment W p pc (content m) allTools prompts [] _ _ _ Eaug)
      as [cs2 [H2 P2]].
    exists (cs1 ++ cs2)%list. split.
    + rewrite H2, H1. cbn. now rewrite app_assoc.
    + apply Forall_app. split.
      * eapply Forall_impl; [| exact P1]. intros c [Hst _]. rewrite Hst. discriminate.
      * eapply Forall_impl; [| exact P2].
        intros c [[Hst _] | [[Hst _] | [[Hst _] | [Hst _]]]]; rewrite Hst; discriminate.
Qed.

(** ** Concrete runs *)

Lemma fallback_first_success_else_last_error_witness :
  fallback "model" [1; 2; 3] (logged only_two) (tt, [])
  = (Ok (Some "two"), (tt, [None; Some ("model", Some 1); Some ("model", Some 2)]))
  /\ fallback "model" [1; 3] (logged never) (tt, [])
     = (Throw (Error "3"), (tt, [None; Some ("model", Some 1); Some ("model", Some 3)])).
Proof.
  split.
  - apply (proj1 (proj2 (fallback_first_success_else_last_error
                           unit nat string "model" only_two
                           [1; 2; 3] [1] [3] 2 tt tt tt (Error "unavailable") "two")));
      reflexivity.
  - apply (proj2 (proj2 (fallback_first_success_else_last_error
                           unit nat string "model" never
                           [1; 3] [] [] 0 tt tt tt (Error "3") "")));
      reflexivity.
Defined.

Lemma media_tools_resolve_references_witness :
  let files := latestPromptFilesOf (Parts receipt) in
  let url := "https://example.com/a.png" in
  (execute (ai_scraper (collab := world_ok) files) (reference 0, ["total"])
   = scrape_with (collab := world_ok) "iVBORw0KGgo=" ["total"]
   /\ execute (ocr (collab := world_ok) files) (reference 0, ["total"])
      = vocr_with (collab := world_ok) "iVBORw0KGgo=" ["total"]
   /\ execute (speech_to_text (collab := world_ok) files) (reference 0)
      = transcribe_with (collab := world_ok) "iVBORw0KGgo=")
  /\ (execute (ai_scraper (collab := world_ok) files) (url, ["total"])
      = scrape_with (collab := world_ok) url ["total"]
      /\ execute (ocr (collab := world_ok) files) (url, ["total"])
         = vocr_with (collab := world_ok) url ["total"]
      /\ execute (speech_to_text (collab := world_ok) files) url
         = transcribe_with (collab := world_ok) url).
Proof.
  pose proof (media_tools_resolve_references nat world_ok receipt 0
                {| part_type := ImagePart; part_data := "iVBORw0KGgo=";
                   part_mimeType := Some "image/png" |}
                (Parts receipt) "https://example.com/a.png" ["total"]) as [Href Hurl].
  split.
  - apply Href; [reflexivity | discriminate].
  - apply Hurl. intros f [<- | []]. discriminate.
Defined.

(** C8 as stated fails for an attachment whose [data] is the empty string:
    the service is handed the reference, not the payload. *)
Lemma empty_payload_is_not_resolved :
  let files := latestPromptFilesOf empty_image in
  map ref files = [reference 0]
  /\ map pf_data files = [""]
  /\ resolveRef files (reference 0) = reference 0
  /\ execute (ocr (collab := world_ok) files) (reference 0, ["total"]) (0, [])
     = (Ok (JStr "https://onellmref.com/0"), (1, [])).
Proof. repeat split. Qed.

Lemma default_temperature_is_zero_witness :
  let run := Omi.generate (collab := scripted (all_answer (decision "gpt-4o" true true true) "3"))
                          everything initial in
  map stage_of (calls (snd run))
  = [Planning; WebSearch; ToolCalling; Reasoning; MultiLLM; MultiLLM; MultiLLM; MultiLLM;
     FinalGeneration]
  /\ exists cs,
      calls (snd run) = (calls initial ++ cs)%list
      /\ Forall (fun c => forall o, text_opts c = Some o -> o_temperature o = 0%Q) cs.
Proof.
  intros run. split; [vm_compute; reflexivity |].
  apply (default_temperature_is_zero nat
           (scripted (all_answer (decision "gpt-4o" true true true) "3"))
           everything initial (snd run) (fst run) eq_refl).
  apply surjective_pairing.
Defined.

Lemma unknown_model_fails_before_final_generation_witness :
  let collab := scripted (all_answer (decision "gpt-5" false false false) "4") in
  fst (Omi.generate (collab := collab) two_plus_two initial)
  = Throw (TypeError "Cannot read properties of undefined (reading 'id')")
  /\ models_called FinalGeneration
       (calls (snd (Omi.generate (collab := collab) two_plus_two initial))) = [].
Proof.
  intros collab.
  destruct (unknown_model_fails_before_final_generation nat collab two_plus_two
              two_plus_two_turn initial
              (snd (Omi.decidePreConfig (collab := collab) Omi.modelList
                      (allToolsOf None []) [two_plus_two_turn] initial))
              {| pc_model := "gpt-5"; pc_reasoning := false;
                 pc_web_search := false; pc_use_tool := false |}
              eq_refl ltac:(vm_compute; reflexivity) eq_refl)
    as [r [s2 [Haug [Hgen _]]]].
  rewrite Hgen. cbn [fst snd]. split.
  - destruct r as [v | e]; [reflexivity | vm_compute in Haug; discriminate].
  - vm_compute in Haug. injection Haug as _ <-. reflexivity.
Defined.

(** C2 as stated fails for an identifier that names a member every object
    inherits: ["constructor"] is not a key of the registry, yet the lookup
    is not [undefined]; the first attempt of the final generation has no
    model, and the fallback substitutes [gpt-4o]. *)
Lemma inherited_member_is_substituted :
  let collab := scripted (needs_model (decision "constructor" false false false) "4") in
  let run := Omi.generate (collab := collab) two_plus_two initial in
  own Omi.modelList "constructor" = None
  /\ option_map resp match fst run with Ok res => Some res | Throw _ => None end
     = Some (TextResp (answer "4"))
  /\ models_called FinalGeneration (calls (snd run)) = [None; Some (openai "gpt-4o")].
Proof. repeat split. Qed.

(** ** The multi-model cross-check *)

Lemma splice_before_last {A} (init : list A) (x y : A) :
  splice_insert (init ++ [x]) (Omi.length_Z (init ++ [x]) - 1) y = (init ++ [y; x])%list.
Proof.
  unfold splice_insert, Omi.length_Z. rewrite length_app. cbn [length].
  replace (Z.of_nat (length init + 1) - 1)%Z with (Z.of_nat (length init)) by lia.
  replace (Z.of_nat (length init) <? 0)%Z with false by (symmetry; apply Z.ltb_ge; lia).
  rewrite Z.min_l by lia. rewrite Nat2Z.id.
  rewrite firstn_app, Nat.sub_diag, firstn_all. cbn [firstn].
  rewrite skipn_app, Nat.sub_diag, skipn_all. cbn [skipn app].
  now rewrite app_nil_r.
Qed.

Lemma fulfilledValues_texts (outs : list (Settled GenerateTextResult)) :
  map text (Omi.fulfilledValues outs) = fulfilled_texts outs.
Proof.
  induction outs as [| [v | e] outs IH]; cbn; [reflexivity | now rewrite IH | exact IH].
Qed.

Section CrossCheck.

Variable W : Type.
Context {collab : Collaborators W}.

Lemma allSettled_settles (optss : list TextOpts) :
  forall s : State W,
  exists outs s',
    allSettled (map (fun o => external_exec (CallGenerateText MultiLLM o)
                                           (generateText o None)) optss) s
    = (Ok outs, s')
    /\ Settles optss (world s, genFiles s) outs (world s', genFiles s')
    /\ calls s' = (calls s ++ map (CallGenerateText MultiLLM) optss)%list.
Proof.
  induction optss as [| o optss IH]; intros s.
  - exists [], s. cbn. rewrite app_nil_r. repeat split. constructor.
  - cbn [map allSettled]. unfold external_exec at 1.
    destruct (generateText o None (world s, genFiles s)) as [r [w g]] eqn:Eo.
    destruct (IH {| world := w; genFiles := g;
                    calls := (calls s ++ [CallGenerateText MultiLLM o])%list |})
      as [outs [s' [Hall [Hset Hcalls]]]].
    exists (settle r :: outs), s'. rewrite Hall. repeat split.
    + econstructor; [exact Eo | exact Hset].
    + rewrite Hcalls. cbn [calls]. now rewrite <- app_assoc.
Qed.

Lemma Omi_multiLLMStage_runs system temperature topK topP init lastTurn (s : State W) :
  crossCheckRuns Omi.modelList system temperature topK topP init lastTurn
    (Omi.multiLLMStage (Some true) system temperature topK topP (init ++ [lastTurn])) s.
Proof.
  unfold crossCheckRuns. cbv zeta.
  destruct (allSettled_settles
              (crossCheckOpts Omi.modelList system temperature topK topP
                              (messageMap (init ++ [lastTurn]) true)) s)
    as [outs [s' [Hall [Hset Hcalls]]]].
  exists outs, s'. repeat split; [exact Hset | | exact Hcalls].
  unfold Omi.multiLLMStage. cbn [Omi.multiLLMGuard flag_truthy]. unfold bind.
  unfold crossCheckOpts in Hall. rewrite map_map in Hall. cbv zeta. rewrite Hall.
  rewrite splice_before_last. unfold Omi.multiLLMTurn, crossCheckTurn, json_strings.
  now rewrite fulfilledValues_texts.
Qed.

Lemma OmiB_multiLLMStage_runs stream system temperature topK topP init lastTurn
      (s : State W) :
  flag_truthy stream = false ->
  crossCheckRuns OmiB.modelList system temperature topK topP init lastTurn
    (OmiB.multiLLMStage (Some true) stream system temperature topK topP
                        (init ++ [lastTurn])) s.
Proof.
  intros Hstream. unfold crossCheckRuns. cbv zeta.
  destruct (allSettled_settles
              (crossCheckOpts OmiB.modelList system temperature topK topP
                              (messageMap (init ++ [lastTurn]) true)) s)
    as [outs [s' [Hall [Hset Hcalls]]]].
  exists outs, s'. repeat split; [exact Hset | | exact Hcalls].
  unfold OmiB.multiLLMStage, OmiB.multiLLMGuard. rewrite Hstream.
  cbn [flag_truthy negb andb]. unfold bind.
  unfold crossCheckOpts in Hall. rewrite map_map in Hall. cbv zeta. rewrite Hall.
  rewrite splice_before_last. unfold Omi.multiLLMTurn, crossCheckTurn, json_strings.
  now rewrite fulfilledValues_texts.
Qed.

End CrossCheck.

(** C6.  The multi-model cross-check over the registered models, on a
    conversation that ends with [lastTurn].  Whatever subset of the calls
    fails, the stage does not throw; it makes exactly one call per registered
    model, in the key order of the registry, and inserts before the last
    turn a turn whose text is ["Context from multiple LLMs: "] followed by
    the JSON array of the texts of the fulfilled calls, in that order. *)
Theorem cross_check_keeps_fulfilled_texts :
  forall (W : Type) (collab : Collaborators W)
         (system : option string) (temperature : number) (topK topP : option number)
         (init : list GeneratePromptObj) (lastTurn : GeneratePromptObj) (s : State W),
    let optss := crossCheckOpts Omi.modelList system temperature topK topP
                                (messageMap (init ++ [lastTurn]) true) in
    exists outs s',
      Settles optss (world s, genFiles s) outs (world s', genFiles s')
      /\ Omi.multiLLMStage (Some true) system temperature topK topP (init ++ [lastTurn]) s
         = (Ok (init ++ [crossCheckTurn (fulfilled_texts outs); lastTurn])%list, s')
      /\ calls s' = (calls s ++ map (CallGenerateText MultiLLM) optss)%list
      /\ map o_model optss = map (fun kv => Some (modelProvider (snd kv))) Omi.modelList.
Proof.
  intros W collab system temperature topK topP init lastTurn s.
  exact (Omi_multiLLMStage_runs W system temperature topK topP init lastTurn s).
Qed.

Section EmitsOmiB.

Variable W : Type.
Context {collab : Collaborators W}.

Lemma emitsB_planner (t : number) tools prompts :
  emits (from_stage Planning t) (OmiB.planner tools prompts).
Proof. unfold OmiB.planner. emits_auto. Qed.

Lemma emitsB_webSearchStage (t : number) web pc latestTextPrompt prompts toolUsed :
  emits (from_stage WebSearch t)
        (OmiB.webSearchStage web pc latestTextPrompt prompts toolUsed).
Proof. unfold OmiB.webSearchStage. emits_auto. Qed.

Lemma emitsB_toolStage autoTool pc system temperature topK topP tools
      latestTextPrompt latestPromptFiles prompts toolUsed :
  emits (from_stage ToolCalling temperature)
        (OmiB.toolStage autoTool pc system temperature topK topP tools
                        latestTextPrompt latestPromptFiles prompts toolUsed).
Proof.
  unfold OmiB.toolStage. emits_auto.
Qed.

Lemma emitsB_reasoningStage reasoning pc system temperature topK topP prompts :
  emits (from_stage Reasoning temperature)
        (OmiB.reasoningStage reasoning pc system temperature topK topP prompts).
Proof. unfold OmiB.reasoningStage. emits_auto. Qed.

Lemma emitsB_finalStage modelConfig stream schema system temperature topK topP prompts :
  emits (from_stage FinalGeneration temperature)
        (OmiB.finalStage modelConfig stream schema system temperature topK topP prompts).
Proof. unfold OmiB.finalStage. emits_auto. Qed.

(** With the guard of line 1184 false, no call of the cross-check is made
    by [generate], whatever its outcome. *)
Lemma emitsB_generate_without_cross_check (p : GenerateParams W) :
  OmiB.multiLLMGuard (p_multiLLM p) (p_stream p) = false ->
  emits (fun c => stage_of c <> MultiLLM) (OmiB.generate p).
Proof.
  intros Hguard.
  assert (Hst : forall st t, st <> MultiLLM ->
                 forall c, from_stage st t c -> stage_of c <> MultiLLM)
    by (intros st t Hne c [Hc _]; now rewrite Hc).
  unfold OmiB.generate. cbv zeta.
  apply emits_bind; [destruct (last _ _); [apply emits_ret | apply emits_throw] |].
  intros lastPromptContent.
  apply emits_bind; [apply emits_genFiles_reset | intros _].
  apply emits_bind; [| intros pc0].
  { eapply emits_weaken; [| apply (emitsB_planner 0%Q)]. apply Hst; discriminate. }
  apply emits_bind; [destruct pc0; [apply emits_ret | apply emits_throw] | intros pc].
  apply emits_bind; [| intros [[prompts toolUsed] reasoningText]].
  { unfold OmiB.augment. cbv zeta.
    apply emits_bind; [| intros [prompts1 toolUsed1]].
    { eapply emits_weaken; [| apply (emitsB_webSearchStage 0%Q)]. apply Hst; discriminate. }
    apply emits_bind; [| intros [prompts2 toolUsed2]].
    { eapply emits_weaken; [| apply emitsB_toolStage]. apply Hst; discriminate. }
    apply emits_bind; [| intros [prompts3 reasoningText]].
    { eapply emits_weaken; [| apply emitsB_reasoningStage]. apply Hst; discriminate. }
    apply emits_bind; [| intros prompts4; apply emits_ret].
    unfold OmiB.multiLLMStage. rewrite Hguard. apply emits_ret. }
  apply emits_bind; [| intros [llmResp |]].
  { eapply emits_weaken; [| apply emitsB_finalStage]. apply Hst; discriminate. }
  - apply emits_bind; [apply emits_genFiles_read | intros g; apply emits_ret].
  - apply emits_throw.
Qed.

End EmitsOmiB.

(** C4, as amended.  With the multi-model flag enabled: in the text of
    [generate] whose guard is [multiLLM] (index.ts:544) the cross-check runs,
    whether or not streaming is enabled; in the text whose guard is
    [multiLLM && !stream] (index.ts:1184) it runs when streaming is not
    enabled, and with streaming enabled the stage leaves the conversation and
    the state as they are and [generate] makes no cross-check call. *)
Theorem cross_check_and_streaming :
  forall (W : Type) (collab : Collaborators W) (p : GenerateParams W)
         (init : list GeneratePromptObj) (lastTurn : GeneratePromptObj) (s : State W),
    p_multiLLM p = Some true ->
    crossCheckRuns Omi.modelList (p_system p) (temperatureOf p) (p_topK p) (p_topP p)
      init lastTurn
      (Omi.multiLLMStage (p_multiLLM p) (p_system p) (temperatureOf p) (p_topK p) (p_topP p)
                         (init ++ [lastTurn])) s
    /\ (flag_truthy (p_stream p) = false ->
        crossCheckRuns OmiB.modelList (p_system p) (temperatureOf p) (p_topK p) (p_topP p)
          init lastTurn
          (OmiB.multiLLMStage (p_multiLLM p) (p_stream p) (p_system p) (temperatureOf p)
                              (p_topK p) (p_topP p) (init ++ [lastTurn])) s)
    /\ (p_stream p = Some true ->
        OmiB.multiLLMStage (p_multiLLM p) (p_stream p) (p_system p) (temperatureOf p)
                           (p_topK p) (p_topP p) (init ++ [lastTurn]) s
        = (Ok (init ++ [lastTurn])%list, s)
        /\ forall r s', OmiB.generate p s = (r, s') ->
             exists cs, calls s' = (calls s ++ cs)%list
                        /\ Forall (fun c => stage_of c <> MultiLLM) cs).
Proof.
  intros W collab p init lastTurn s Hmulti. split; [| split].
  - rewrite Hmulti. apply Omi_multiLLMStage_runs.
  - intros Hstream. rewrite Hmulti. now apply OmiB_multiLLMStage_runs.
  - intros Hstream. split.
    + rewrite Hmulti, Hstream. reflexivity.
    + intros r s' E.
      refine (emitsB_generate_without_cross_check W p _ s r s' E).
      rewrite Hmulti, Hstream. reflexivity.
Qed.

Lemma cross_check_and_streaming_witness :
  crossCheckRuns (collab := world_four) OmiB.modelList None 0%Q None None
    [] two_plus_two_turn
    (OmiB.multiLLMStage (collab := world_four) (Some true) None None 0%Q None None
                        [two_plus_two_turn]) initial
  /\ OmiB.multiLLMStage (collab := world_four) (Some true) (Some true) None 0%Q None None
                        [two_plus_two_turn] initial
     = (Ok [two_plus_two_turn], initial).
Proof.
  split.
  - exact (proj1 (proj2 (cross_check_and_streaming nat world_four eager_cross_check
                           [] two_plus_two_turn initial eq_refl)) eq_refl).
  - exact (proj1 (proj2 (proj2 (cross_check_and_streaming nat world_four
                                  streaming_cross_check [] two_plus_two_turn initial
                                  eq_refl)) eq_refl)).
Defined.

(** C4 as stated fails on the text of index.ts:294: with the multi-model
    flag and streaming both enabled, the four cross-check calls are made, the
    turn is inserted, and the final call is a streaming one. *)
Lemma cross_check_runs_while_streaming :
  let run := Omi.generate (collab := world_four) streaming_cross_check initial in
  map stage_of (calls (snd run))
  = [Planning; MultiLLM; MultiLLM; MultiLLM; MultiLLM; FinalGeneration]
  /\ map is_stream_call (calls (snd run)) = [false; false; false; false; false; true]
  /\ messages_sent FinalGeneration (calls (snd run))
     = [messageMap [crossCheckTurn ["4"; "4"; "4"; "4"]; two_plus_two_turn] false].
Proof. repeat split. Qed.

(** A run of the cross-check in which two of the four models are down. *)
Lemma cross_check_with_two_models_down :
  let run := Omi.generate (collab := world_two_down) eager_cross_check initial in
  models_called MultiLLM (calls (snd run))
  = map (fun kv => Some (modelProvider (snd kv))) Omi.modelList
  /\ messages_sent FinalGeneration (calls (snd run))
     = [messageMap [crossCheckTurn ["gemini-1.5-flash"; "claude-3-5-sonnet-latest"];
                    two_plus_two_turn] false]
  /\ option_map resp match fst run with Ok res => Some res | Throw _ => None end
     = Some (TextResp (answer "gemini-1.5-flash")).
Proof. repeat split. Qed.

(** ** Caller flags *)

Section Flags.

Variable W : Type.
Context {collab : Collaborators W}.

Lemma begins_with_external_exec {A} (c : Call) (f : Exec W A) :
  begins_with c (external_exec c f).
Proof.
  intros s r s' E. unfold external_exec in E.
  destruct (f (world s, genFiles s)) as [r0 [w g]]. injection E as <- <-.
  exists []. reflexivity.
Qed.

Lemma begins_with_external {A} (c : Call) (f : M W A) :
  begins_with c (external c f).
Proof.
  intros s r s' E. unfold external in E.
  destruct (f (world s)) as [r0 w]. injection E as <- <-.
  exists []. reflexivity.
Qed.

Lemma begins_with_bind {A B} (c : Call) (m : Async W A) (k : A -> Async W B) :
  begins_with c m -> (forall a, emits (fun _ => True) (k a)) -> begins_with c (bind m k).
Proof.
  intros Hm Hk s r s' E. unfold bind in E.
  destruct (m s) as [[a | e] s1] eqn:Em.
  - destruct (Hm s _ _ Em) as [cs1 H1]. destruct (Hk a s1 _ _ E) as [cs2 [H2 _]].
    exists (cs1 ++ cs2)%list. rewrite H2, H1, <- app_assoc. reflexivity.
  - injection E as <- <-. exact (Hm s _ _ Em).
Qed.

Lemma begins_with_fallback {T G} (c : Call) (key : string) (item : list T)
      (genFunc : Subst T -> Async W G) :
  begins_with c (genFunc None) ->
  (forall a, emits (fun _ => True) (genFunc a)) ->
  begins_with c (fallback key item genFunc).
Proof.
  intros H0 Hg s r s' E. rewrite fallback_attempts in E.
  destruct item as [| c0 rest]; cbn [attempts] in E;
    destruct (genFunc None s) as [[resp | error] s1] eqn:E0;
    try (injection E as <- <-; exact (H0 s _ _ E0)).
  destruct (H0 s _ _ E0) as [cs1 H1].
  destruct (emits_attempts W (fun _ => True) key genFunc rest Hg _ s1 _ _ E) as [cs2 [H2 _]].
  exists (cs1 ++ cs2)%list. rewrite H2, H1, <- app_assoc. reflexivity.
Qed.

Lemma webSearchGuard_effective (web : option bool) (pc : PreConfig) :
  Omi.webSearchGuard web pc = effective web (pc_web_search pc).
Proof.
  unfold Omi.webSearchGuard.
  destruct web as [[|] |]; destruct (pc_web_search pc); reflexivity.
Qed.

Lemma reasoningGuard_effective (reasoning : option bool) (pc : PreConfig) :
  Omi.reasoningGuard reasoning pc = effective reasoning (pc_reasoning pc).
Proof.
  unfold Omi.reasoningGuard.
  destruct reasoning as [[|] |]; destruct (pc_reasoning pc); reflexivity.
Qed.

Lemma toolGuard_effective (autoTool : option bool) (pc : PreConfig) :
  autoTool <> Some true ->
  Omi.toolGuard (autoToolOf autoTool) pc = effective autoTool (pc_use_tool pc).
Proof.
  intros H. unfold Omi.toolGuard.
  destruct autoTool as [[|] |]; [contradiction | |]; destruct (pc_use_tool pc); reflexivity.
Qed.

End Flags.

(** The guards of the three flagged stages.  For web search and for
    reasoning the caller's flag, when set, decides and the Planner's flag
    decides otherwise: with the effective flag false the stage is skipped,
    with it true the reasoning sub-run starts, and the web search starts on
    the text [latestTextPrompt] of the latest turn when that is non-empty.
    For tool use the same holds when [autoTool] is false or not set. *)
Lemma caller_flags_override_planner :
  forall (W : Type) (collab : Collaborators W) (pc : PreConfig)
         (web reasoning autoTool : option bool)
         (system : option string) (temperature : number) (topK topP : option number)
         (allTools : Obj (CoreTool W)) (latestTextPrompt : option string)
         (latestPromptFiles : list PromptFile)
         (prompts : list GeneratePromptObj) (toolUsed : list ToolUsed),
    (if effective web (pc_web_search pc)
     then forall q, latestTextPrompt = Some q -> q <> "" ->
            begins_with (CallWebSearch {| query := q; ai_overview := false |})
              (Omi.webSearchStage web pc latestTextPrompt prompts toolUsed)
     else skips (Omi.webSearchStage web pc latestTextPrompt prompts toolUsed)
                (prompts, toolUsed))
    /\ (if effective reasoning (pc_reasoning pc)
        then begins_with
               (CallGenerateText Reasoning
                  (Omi.messagesOpts (Some (openai "o3-mini")) system
                                    (messageMap prompts true) None temperature topK topP))
               (Omi.reasoningStage reasoning pc system temperature topK topP prompts)
        else skips (Omi.reasoningStage reasoning pc system temperature topK topP prompts)
                   (prompts, None))
    /\ (autoTool <> Some true ->
        if effective autoTool (pc_use_tool pc)
        then begins_with
               (CallGenerateText ToolCalling
                  (Omi.toolOpts system temperature topK topP allTools
                                latestTextPrompt latestPromptFiles))
               (Omi.toolStage (autoToolOf autoTool) pc system temperature topK topP allTools
                              latestTextPrompt latestPromptFiles prompts toolUsed)
        else skips (Omi.toolStage (autoToolOf autoTool) pc system temperature topK topP
                                  allTools latestTextPrompt latestPromptFiles prompts toolUsed)
                   (prompts, toolUsed, None)).
Proof.
  intros W collab pc web reason autoTool system temperature topK topP allTools
         latestTextPrompt latestPromptFiles prompts used.
  split; [| split].
  - unfold Omi.webSearchStage. rewrite webSearchGuard_effective.
    destruct (effective web (pc_web_search pc)).
    + intros q -> Hq. destruct q as [| ch q]; [contradiction |]. cbn [JS.truthy andb].
      apply begins_with_bind; [apply begins_with_external |]. intros a. emits_auto.
    + intros s. destruct latestTextPrompt as [q |]; [| reflexivity].
      rewrite andb_false_r. reflexivity.
  - unfold Omi.reasoningStage. rewrite reasoningGuard_effective.
    destruct (effective reason (pc_reasoning pc)).
    + apply begins_with_bind; [| intros a; emits_auto].
      apply begins_with_fallback; [apply begins_with_external_exec | intros a; emits_auto].
    + intros s. reflexivity.
  - intros Hauto. unfold Omi.toolStage. rewrite (toolGuard_effective autoTool pc Hauto).
    destruct (effective autoTool (pc_use_tool pc)).
    + apply begins_with_bind; [| intros a; emits_auto].
      apply begins_with_fallback; [apply begins_with_external_exec | intros a; emits_auto].
    + intros s. reflexivity.
Qed.

Lemma caller_flags_override_planner_witness :
  begins_with (CallWebSearch {| query := "What is 2+2?"; ai_overview := false |})
    (Omi.webSearchStage (collab := world_four) (Some true) all_off (Some "What is 2+2?")
                        [two_plus_two_turn] [])
  /\ skips (Omi.reasoningStage (collab := world_four) (Some false) all_on None 0%Q None None
                               [two_plus_two_turn])
           ([two_plus_two_turn], None)
  /\ skips (Omi.toolStage (collab := world_four) (autoToolOf (Some false)) all_on
                          None 0%Q None None [] (Some "What is 2+2?") []
                          [two_plus_two_turn] [])
           ([two_plus_two_turn], [], None).
Proof.
  split; [| split].
  - exact (proj1 (caller_flags_override_planner nat world_four all_off
                    (Some true) None None None 0%Q None None []
                    (Some "What is 2+2?") [] [two_plus_two_turn] [])
                 "What is 2+2?" eq_refl ltac:(discriminate)).
  - exact (proj1 (proj2 (caller_flags_override_planner nat world_four all_on
                           None (Some false) None None 0%Q None None []
                           (Some "What is 2+2?") [] [two_plus_two_turn] []))).
  - exact (proj2 (proj2 (caller_flags_override_planner nat world_four all_on
                           None None (Some false) None 0%Q None None []
                           (Some "What is 2+2?") [] [two_plus_two_turn] []))
                 ltac:(discriminate)).
Defined.

(** ** The steps of [generate] *)

Lemma bind_Ok_inv {St A B} (m : M St A) (k : A -> M St B) (s s' : St) (b : B) :
  bind m k s = (Ok b, s') -> exists a s1, m s = (Ok a, s1) /\ k a s1 = (Ok b, s').
Proof.
  unfold bind. destruct (m s) as [[a | e] s1]; [| discriminate].
  intros H. now exists a, s1.
Qed.

(** ** Position of the synthetic turns *)

Section Positions.

Variable W : Type.
Context {collab : Collaborators W}.

(** In the text of index.ts:294 the tool-calling sub-run, when it completes,
    leaves its turn after the last turn of the conversation. *)
Lemma Omi_toolStage_appends autoTool pc system temperature topK topP allTools
      latestTextPrompt latestPromptFiles prompts toolUsed0 prompts' toolUsed' toolText
      (s s' : State W) :
  Omi.toolStage autoTool pc system temperature topK topP allTools
                latestTextPrompt latestPromptFiles prompts toolUsed0 s
  = (Ok (prompts', toolUsed', toolText), s') ->
  Omi.toolGuard autoTool pc = true ->
  prompts' = (prompts ++ [toolResultTurn toolText])%list.
Proof.
  unfold Omi.toolStage. intros E Hguard. rewrite Hguard in E.
  apply bind_Ok_inv in E. destruct E as [toolResult [s1 [_ E]]]. cbv zeta in E.
  apply bind_Ok_inv in E. destruct E as [allToolCalls [s2 [_ E]]].
  injection E as <- <- <- <-.
  unfold splice_insert, Omi.length_Z.
  replace (Z.of_nat (length prompts) <? 0)%Z with false by (symmetry; apply Z.ltb_ge; lia).
  rewrite Z.min_id, Nat2Z.id, firstn_all, skipn_all. reflexivity.
Qed.

(** In the text of index.ts:924 every stage that completes leaves the last
    turn of the conversation last. *)
Lemma OmiB_augment_inserts_before_last p pc lastPromptContent tools init lastTurn
      toolUsed0 prompts' toolUsed' rt (s s' : State W) :
  OmiB.augment p pc lastPromptContent tools (init ++ [lastTurn]) toolUsed0 s
  = (Ok (prompts', toolUsed', rt), s') ->
  exists added, prompts' = (init ++ added ++ [lastTurn])%list.
Proof.
  unfold OmiB.augment. cbv zeta. intros E.
  apply bind_Ok_inv in E. destruct E as [[prompts1 toolUsed1] [s1 [Hweb E]]].
  assert (H1 : exists a1, prompts1 = (init ++ a1 ++ [lastTurn])%list).
  { unfold OmiB.webSearchStage in Hweb.
    destruct (latestTextPromptOf lastPromptContent) as [q |];
      [destruct (JS.truthy q && Omi.webSearchGuard _ pc) |].
    - apply bind_Ok_inv in Hweb. destruct Hweb as [searchResult [s0 [_ Hweb]]].
      cbv zeta in Hweb. injection Hweb as <- _ _. rewrite splice_before_last.
      eexists [_]. reflexivity.
    - injection Hweb as <- _ _. now exists [].
    - injection Hweb as <- _ _. now exists []. }
  destruct H1 as [a1 ->].
  apply bind_Ok_inv in E. destruct E as [[prompts2 toolUsed2] [s2 [Htool E]]].
  assert (H2 : exists a2, prompts2 = (init ++ a2 ++ [lastTurn])%list).
  { unfold OmiB.toolStage in Htool. destruct (Omi.toolGuard _ pc).
    - apply bind_Ok_inv in Htool. destruct Htool as [toolResult [s0 [_ Htool]]].
      cbv zeta in Htool.
      apply bind_Ok_inv in Htool. destruct Htool as [allToolCalls [s0' [_ Htool]]].
      injection Htool as <- _ _. rewrite app_assoc, splice_before_last.
      eexists (a1 ++ [_])%list. now rewrite <- !app_assoc.
    - injection Htool as <- _ _. now exists a1. }
  destruct H2 as [a2 ->].
  apply bind_Ok_inv in E. destruct E as [[prompts3 rt3] [s3 [Hreason E]]].
  assert (H3 : exists a3, prompts3 = (init ++ a3 ++ [lastTurn])%list).
  { unfold OmiB.reasoningStage in Hreason. destruct (Omi.reasoningGuard _ pc).
    - apply bind_Ok_inv in Hreason. destruct Hreason as [reasoningResult [s0 [_ Hreason]]].
      cbv zeta in Hreason. injection Hreason as <- _ _.
      rewrite app_assoc, splice_before_last.
      eexists (a2 ++ [_])%list. now rewrite <- !app_assoc.
    - injection Hreason as <- _ _. now exists a2. }
  destruct H3 as [a3 ->].
  apply bind_Ok_inv in E. destruct E as [prompts4 [s4 [Hmulti E]]].
  injection E as <- _ _ _.
  unfold OmiB.multiLLMStage in Hmulti. destruct (OmiB.multiLLMGuard _ _).
  - apply bind_Ok_inv in Hmulti. destruct Hmulti as [outs [s0 [_ Hmulti]]].
    cbv zeta in Hmulti. injection Hmulti as <- _.
    rewrite app_assoc, splice_before_last.
    eexists (a3 ++ [_])%list. now rewrite <- !app_assoc.
  - injection Hmulti as <- _. now exists a3.
Qed.

End Positions.

(** C1 on the code of index.ts:294-612.  The request is the prompt
    "What is 2+2?"; the Planner asks for tools.  The conversation of the
    final completion ends with the tool-result turn, not with the turn of
    the request; when the Planner also asks for reasoning, the reasoning
    turn stands after the turn of the request as well.  On the text of
    index.ts:924-1252 the same request ends with its own turn. *)
Theorem tool_result_turn_becomes_last :
  messages_sent FinalGeneration
    (calls (snd (Omi.generate (collab := world_ok) two_plus_two initial)))
  = [[user_text "What is 2+2?"; user_text "Tool result: ok"]]
  /\ messages_sent FinalGeneration
       (calls (snd (Omi.generate (collab := world_tool_and_reasoning) two_plus_two initial)))
     = [[user_text "What is 2+2?"; user_text "Context: ok"; user_text "Tool result: ok"]]
  /\ messages_sent FinalGeneration
       (calls (snd (OmiB.generate (collab := world_ok) two_plus_two initial)))
     = [[user_part "Tool result: ok"; user_text "What is 2+2?"]].
Proof. repeat split. Qed.

(** * Further properties of the code *)

(** ** [fallback]: the invocations of the unit of work *)

Lemma attempts_logged_prefix {St T G : Type} (key : string) (genFunc : Subst T -> M St G)
      (rest : list T) :
  forall (a : Subst T) (s : St) (l : list (Subst T)),
  exists n,
    n <= length rest
    /\ snd (snd (attempts key (logged genFunc) a rest (s, l)))
       = (l ++ a :: map (substitute key) (firstn n rest))%list
    /\ match fst (attempts key (logged genFunc) a rest (s, l)) with
       | Throw _ => n = length rest
       | Ok None => False
       | Ok (Some _) => True
       end.
Proof.
  induction rest as [| c rest IH]; intros a s l; cbn [attempts];
    (assert (Hl : logged genFunc a (s, l)
                  = (fst (genFunc a s), (snd (genFunc a s), (l ++ [a])%list)))
      by (unfold logged; cbn [fst snd]; destruct (genFunc a s); reflexivity));
    rewrite Hl; clear Hl; destruct (genFunc a s) as [[resp | error] s1]; cbn [fst snd].
  - exists 0. cbn. auto.
  - exists 0. cbn. auto.
  - exists 0. cbn. split; [lia | auto].
  - destruct (IH (substitute key c) s1 (l ++ [a])%list) as [n [Hn [Hlog Hres]]].
    exists (S n). cbn [length firstn map]. split; [lia |]. split.
    + rewrite Hlog, <- app_assoc. reflexivity.
    + destruct (fst (attempts key (logged genFunc) (substitute key c) rest
                              (s1, (l ++ [a])%list))) as [[r |] | e]; auto.
Qed.

(** X1.  Whatever the unit of work does, [fallback] invokes it first with
    no substitution and then with the candidates in the order of [item],
    each at most once and none skipped; it throws only after the last
    candidate has been tried, and it never returns [undefined]. *)
Theorem fallback_invokes_a_prefix_in_order :
  forall (St T G : Type) (key : string) (item : list T) (genFunc : Subst T -> M St G)
         (s : St),
  exists n,
    n <= length item
    /\ snd (snd (fallback key item (logged genFunc) (s, [])))
       = None :: map (substitute key) (firstn n item)
    /\ match fst (fallback key item (logged genFunc) (s, [])) with
       | Throw _ => n = length item
       | Ok None => False
       | Ok (Some _) => True
       end.
Proof.
  intros St T G key item genFunc s. rewrite fallback_attempts.
  exact (attempts_logged_prefix key genFunc item None s []).
Qed.

(** ** [messageMap] *)

Lemma filter_map_swap {A B} (f : A -> B) (p : B -> bool) (l : list A) :
  filter p (map f l) = map f (filter (fun x => p (f x)) l).
Proof.
  induction l as [| x l IH]; cbn; [reflexivity |].
  destruct (p (f x)); cbn; now rewrite IH.
Qed.

Lemma filter_true {A} (l : list A) : filter (fun _ => true) l = l.
Proof. induction l as [| x l IH]; cbn; [reflexivity | now rewrite IH]. Qed.

(** X2.  [messageMap] keeps the number, the order and the roles of the
    turns and never touches a string content.  With [removeMedia] it sends
    what it would send for the conversation with the image and file parts
    taken out: every part left carries text only, and a turn made of media
    alone is still sent, with an empty array of parts. *)
Theorem messageMap_removes_only_media :
  forall (prompts : list GeneratePromptObj) (removeMedia : bool),
    map msg_role (messageMap prompts removeMedia) = map role prompts
    /\ messageMap prompts true = messageMap (stripMedia prompts) false
    /\ (forall m parts, In m (messageMap prompts true) ->
          msg_content m = MParts parts -> Forall text_only parts)
    /\ (forall r l, Forall (fun c => isMedia (part_type c) = true) l ->
          messageMap [ {| role := r; content := Parts l |} ] true
          = [ {| msg_content := MParts []; msg_role := r |} ]).
Proof.
  intros prompts removeMedia. split; [| split; [| split]].
  - unfold messageMap. rewrite map_map. reflexivity.
  - unfold messageMap, stripMedia. rewrite map_map. apply map_ext. intros m. cbn.
    destruct (content m) as [s | l]; [reflexivity |].
    rewrite filter_true, filter_map_swap. reflexivity.
  - intros m parts Hin Hcontent. unfold messageMap in Hin. apply in_map_iff in Hin.
    destruct Hin as [p [<- _]]. cbn in Hcontent.
    destruct (content p) as [s | l]; [discriminate |]. injection Hcontent as <-.
    apply Forall_forall. intros q Hq. apply filter_In in Hq. destruct Hq as [Hq Hmedia].
    apply in_map_iff in Hq. destruct Hq as [c [<- _]].
    unfold mapPart, text_only in *. cbn in *. destruct (part_type c); try discriminate.
    repeat split.
  - intros r l Hall. unfold messageMap. cbn. do 2 f_equal.
    induction Hall as [| c l Hc _ IH]; cbn; [reflexivity |].
    rewrite Hc. cbn. exact IH.
Qed.

Lemma messageMap_removes_only_media_witness :
  messageMap [ {| role := User; content := Parts [receipt_image] |} ] true
  = [ {| msg_content := MParts []; msg_role := User |} ].
Proof.
  apply (proj2 (proj2 (proj2 (messageMap_removes_only_media [] true)))).
  constructor; [reflexivity | constructor].
Defined.

(** ** The tool table *)

Lemma own_set_property {V} (o : Obj V) (k k' : string) (v : V) :
  own (set_property o k v) k' = if String.eqb k k' then Some v else own o k'.
Proof.
  induction o as [| [k0 v0] o IH]; cbn.
  - destruct (String.eqb k k'); reflexivity.
  - destruct (String.eqb_spec k0 k) as [-> | Hne]; cbn.
    + destruct (String.eqb k k'); reflexivity.
    + destruct (String.eqb_spec k0 k') as [-> | Hne'].
      * destruct (String.eqb_spec k k') as [-> | _]; [contradiction | reflexivity].
      * exact IH.
Qed.

Lemma keys_set_property {V} (o : Obj V) (k : string) (v : V) :
  exists extra, keys (set_property o k v) = (keys o ++ extra)%list.
Proof.
  unfold keys. induction o as [| [k0 v0] o [extra IH]]; cbn.
  - now exists [k].
  - destruct (String.eqb k0 k); cbn.
    + exists []. now rewrite app_nil_r.
    + exists extra. now rewrite IH.
Qed.

(** X3.  In the tool table [{ ...tools, current_datetime, ai_scraper, ocr,
    ai_image_generation, speech_to_text, text_to_speech }] a built-in tool
    replaces a caller's tool of the same name, every other caller's tool is
    kept, and the caller's names keep their places at the front of the
    table; without caller's tools the table is the six built-ins in that
    order. *)
Theorem builtin_tools_replace_callers_tools :
  forall (W : Type) (collab : Collaborators W) (tools : Obj (CoreTool W))
         (latestPromptFiles : list PromptFile) (k : string),
    own (allToolsOf (Some tools) latestPromptFiles) k
    = match own (allToolsOf None latestPromptFiles) k with
      | Some builtin => Some builtin
      | None => own tools k
      end
    /\ (exists builtins,
          keys (allToolsOf (Some tools) latestPromptFiles) = (keys tools ++ builtins)%list)
    /\ keys (allToolsOf (collab := collab) None latestPromptFiles)
       = ["current_datetime"; "ai_scraper"; "ocr"; "ai_image_generation";
          "speech_to_text"; "text_to_speech"].
Proof.
  intros W collab tools files k. split; [| split; [| reflexivity]].
  - unfold allToolsOf. cbv zeta. rewrite !own_set_property. cbn [own].
    repeat match goal with |- context [String.eqb ?a k] => destruct (String.eqb a k) end;
      reflexivity.
  - unfold allToolsOf. cbv zeta.
    repeat match goal with
           | |- context [keys (set_property ?o ?n ?v)] =>
               let e := fresh "extra" in
               let H := fresh "H" in
               destruct (keys_set_property o n v) as [e H]; rewrite H; clear H
           end.
    eexists. rewrite <- !app_assoc. reflexivity.
Qed.

(** ** File references *)

Lemma mapi_from_refs (l : list ContentPart) :
  forall i,
    map ref (mapi_from promptFile i l) = map reference (seq i (length l))
    /\ map pf_data (mapi_from promptFile i l) = map part_data l
    /\ map pf_type (mapi_from promptFile i l) = map part_type l.
Proof.
  induction l as [| c l IH]; intros i; cbn; [auto |].
  destruct (IH (S i)) as [H1 [H2 H3]]. now rewrite H1, H2, H3.
Qed.

Lemma NoDup_map_injective {A B} (f : A -> B) (l : list A) :
  (forall x y, f x = f y -> x = y) -> NoDup l -> NoDup (map f l).
Proof.
  intros Hinj Hl. induction Hl as [| x l Hx _ IH]; cbn; constructor; [| exact IH].
  intros Hin. apply in_map_iff in Hin. destruct Hin as [y [Hy Hyin]].
  apply Hinj in Hy. now subst.
Qed.

(** X4.  The attachments of the latest turn are numbered from 0 in the
    order in which they occur: the k-th non-text part gets the reference
    [https://onellmref.com/k] and keeps its data; no two attachments share a
    reference, a text part never gets one, and a string content has none. *)
Theorem references_number_the_attachments :
  forall (lastPromptContent : Content),
    let files := latestPromptFilesOf lastPromptContent in
    map ref files = map reference (seq 0 (length (attachmentsOf lastPromptContent)))
    /\ map pf_data files = map part_data (attachmentsOf lastPromptContent)
    /\ NoDup (map ref files)
    /\ Forall (fun f => pf_type f <> TextPart) files.
Proof.
  intros c files.
  assert (Hfiles : files = mapi_from promptFile 0 (attachmentsOf c))
    by (destruct c; reflexivity).
  destruct (mapi_from_refs (attachmentsOf c) 0) as [Href [Hdata Htype]].
  rewrite Hfiles. split; [exact Href |]. split; [exact Hdata |]. split.
  - rewrite Href. apply NoDup_map_injective; [| apply seq_NoDup].
    intros i j. apply reference_injective.
  - apply Forall_forall. intros f Hf.
    assert (Hin : In (pf_type f) (map part_type (attachmentsOf c)))
      by (rewrite <- Htype; now apply in_map).
    apply in_map_iff in Hin. destruct Hin as [p [Hp Hpin]]. rewrite <- Hp.
    destruct c as [s | l]; [destruct Hpin |].
    apply filter_In in Hpin. destruct Hpin as [_ Hne].
    destruct (part_type p); [discriminate | discriminate | discriminate].
Qed.

(** X5.  The [url] a media tool hands to its service is the [url] it was
    given, unless that [url] is the reference of an attachment with a
    non-empty payload, and then it is that payload: no other attachment's
    payload is ever sent, and a non-empty [url] never becomes empty. *)
Theorem resolved_url_is_the_url_or_its_payload :
  forall (latestPromptFiles : list PromptFile) (url : string),
    (resolveRef latestPromptFiles url = url
     \/ exists f, In f latestPromptFiles /\ ref f = url /\ pf_data f <> EmptyString
                  /\ resolveRef latestPromptFiles url = pf_data f)
    /\ (url <> EmptyString -> resolveRef latestPromptFiles url <> EmptyString)
    /\ (JS.includes "https://onellmref.com" url = false ->
        resolveRef latestPromptFiles url = url).
Proof.
  intros files url.
  assert (H : resolveRef files url = url
              \/ exists f, In f files /\ ref f = url /\ pf_data f <> EmptyString
                           /\ resolveRef files url = pf_data f).
  { unfold resolveRef. destruct (JS.includes _ url); [| now left].
    destruct (find _ files) as [f |] eqn:E; [| now left].
    apply find_some in E. destruct E as [Hin Heq]. apply String.eqb_eq in Heq.
    destruct (pf_data f) eqn:Ed; [now left |].
    right. exists f. rewrite Ed. repeat split; auto. discriminate. }
  split; [exact H |]. split.
  - intros Hurl. destruct H as [-> | [f [_ [_ [Hd ->]]]]]; assumption.
  - intros Hinc. unfold resolveRef. now rewrite Hinc.
Qed.

Lemma resolved_url_is_the_url_or_its_payload_witness :
  resolveRef (latestPromptFilesOf (Parts receipt)) "https://example.com/a.png"
  <> EmptyString
  /\ resolveRef (latestPromptFilesOf (Parts receipt)) "https://example.com/a.png"
     = "https://example.com/a.png".
Proof.
  pose proof (resolved_url_is_the_url_or_its_payload
                (latestPromptFilesOf (Parts receipt)) "https://example.com/a.png")
    as (_ & Hne & Hurl).
  split; [apply Hne; discriminate | apply Hurl; reflexivity].
Defined.

(** ** The tool calls of the sub-run *)

Lemma skipn_cons_nth {A} (l : list A) :
  forall i x, nth_error l i = Some x -> skipn i l = x :: skipn (S i) l.
Proof.
  induction l as [| y l IH]; intros i x H; [destruct i; discriminate |].
  destruct i as [| i]; cbn in *; [now injection H as -> | now apply IH].
Qed.

Lemma callsWithResults_from_spec (cs : list ToolCall) (rs : list ToolResult) :
  forall i,
    (length cs + i <= length rs ->
     callsWithResults_from cs rs i
     = Ok (combine cs (map result (firstn (length cs) (skipn i rs)))))
    /\ (i <= length rs -> length rs < length cs + i ->
        callsWithResults_from cs rs i
        = Throw (TypeError "Cannot read properties of undefined (reading 'result')")).
Proof.
  induction cs as [| c cs IH]; intros i; cbn [callsWithResults_from length].
  - split; [reflexivity | lia].
  - destruct (IH (S i)) as [IHok IHthrow]. split; [intros H | intros Hi H].
    + destruct (nth_error rs i) as [r |] eqn:Er;
        [| apply nth_error_None in Er; lia].
      rewrite IHok by lia.
      rewrite (skipn_cons_nth rs i r Er). reflexivity.
    + destruct (nth_error rs i) as [r |] eqn:Er; [| reflexivity].
      assert (i < length rs) by (apply nth_error_Some; congruence).
      rewrite IHthrow by lia. reflexivity.
Qed.

Lemma combine_append {A B} (a1 : list A) (b1 : list B) :
  forall a2 b2, length b1 = length a1 ->
    combine (a1 ++ a2) (b1 ++ b2) = (combine a1 b1 ++ combine a2 b2)%list.
Proof.
  revert b1. induction a1 as [| x a1 IH]; intros [| y b1] a2 b2 H; cbn in *;
    try discriminate; [reflexivity |].
  f_equal. apply IH. now injection H.
Qed.

(** X6.  The records of the tool calls of a sub-run.  When every step has
    a result for each of its calls, the calls of all steps are listed in
    order, each with the result at its own index in its step; as soon as one
    step has fewer results than calls, a [TypeError] is thrown and nothing is
    recorded. *)
Theorem tool_calls_pair_with_their_results :
  forall (steps : list Step),
    (Forall answered steps ->
     allToolCallsOf steps = Ok (combine (callsOf steps) (resultsOf steps))
     /\ length (resultsOf steps) = length (callsOf steps))
    /\ (~ Forall answered steps ->
        allToolCallsOf steps
        = Throw (TypeError "Cannot read properties of undefined (reading 'result')")).
Proof.
  intros steps. induction steps as [| s steps [IHok IHthrow]]; split.
  - intros _. split; reflexivity.
  - intros H. exfalso. apply H. constructor.
  - intros H. inversion H as [| ? ? Hs Hsteps]; subst.
    destruct (IHok Hsteps) as [IH1 IH2]. unfold answered in Hs.
    cbn [allToolCallsOf callsOf resultsOf flat_map].
    destruct (callsWithResults_from_spec (toolCalls s) (toolResults s) 0) as [Hok _].
    rewrite Hok by lia. cbn [skipn]. fold (callsOf steps) (resultsOf steps). rewrite IH1.
    assert (Hlen : length (map result (firstn (length (toolCalls s)) (toolResults s)))
                   = length (toolCalls s))
      by (rewrite length_map, length_firstn; lia).
    split.
    + f_equal. symmetry. apply combine_append. now rewrite Hlen.
    + rewrite !length_app, Hlen, IH2. reflexivity.
  - intros H. cbn [allToolCallsOf].
    destruct (le_lt_dec (length (toolCalls s)) (length (toolResults s))) as [Hle | Hlt].
    + destruct (callsWithResults_from_spec (toolCalls s) (toolResults s) 0) as [Hok _].
      rewrite Hok by lia. rewrite IHthrow; [reflexivity |].
      intros Hsteps. apply H. now constructor.
    + destruct (callsWithResults_from_spec (toolCalls s) (toolResults s) 0) as [_ Hthrow].
      rewrite Hthrow by lia. reflexivity.
Qed.

Lemma tool_calls_pair_with_their_results_witness :
  let call := {| toolName := "ocr"; call_args := JNull |} in
  allToolCallsOf [ {| toolCalls := [call]; toolResults := [ {| result := JStr "42" |} ] |} ]
  = Ok [(call, JStr "42")]
  /\ allToolCallsOf [ {| toolCalls := [call]; toolResults := [] |} ]
     = Throw (TypeError "Cannot read properties of undefined (reading 'result')").
Proof.
  intros call. split.
  - apply (proj1 (tool_calls_pair_with_their_results
                    [ {| toolCalls := [call]; toolResults := [ {| result := JStr "42" |} ] |} ])).
    repeat constructor.
  - apply (proj2 (tool_calls_pair_with_their_results
                    [ {| toolCalls := [call]; toolResults := [] |} ])).
    intros H. inversion H as [| ? ? Hs _]. unfold answered in Hs. cbn in Hs. lia.
Defined.

(** ** The generating tools *)

(** X7.  The image and the speech tool hand the model an acknowledgement,
    never the binary: when the service answers, exactly one file with the
    blob is pushed to the end of [genFiles] and the text returned is the
    fixed acknowledgement; when the service throws, the error is thrown and
    [genFiles] is left as it was. *)
Theorem generating_tools_push_one_file :
  forall (W : Type) (collab : Collaborators W) (input : string) (w : W) (g : list Files),
    execute ai_image_generation input (w, g)
    = match jigsaw_image_generation input w with
      | (Ok blob, w') =>
          (Ok (JStr "image generated and added to files"), (w', (g ++ [imageFile blob])%list))
      | (Throw e, w') => (Throw e, (w', g))
      end
    /\ execute text_to_speech input (w, g)
       = match jigsaw_audio_text_to_speech input w with
         | (Ok blob, w') => (Ok (JStr "audio generated"), (w', (g ++ [audioFile blob])%list))
         | (Throw e, w') => (Throw e, (w', g))
         end.
Proof.
  intros W collab input w g. split.
  - cbn [execute ai_image_generation]. unfold bind, service, genFiles_push, ret. cbn [fst snd].
    destruct (jigsaw_image_generation input w) as [[blob | e] w']; reflexivity.
  - cbn [execute text_to_speech]. unfold bind, service, genFiles_push, ret. cbn [fst snd].
    destruct (jigsaw_audio_text_to_speech input w) as [[blob | e] w']; reflexivity.
Qed.

(** ** The Planner call *)

Lemma attempts_two {St T G} (key : string) (genFunc : Subst T -> M St G) (c : T) (s : St) :
  attempts key genFunc None [c] s
  = match genFunc None s with
    | (Ok r, s1) => (Ok (Some r), s1)
    | (Throw _, s1) =>
        match genFunc (substitute key c) s1 with
        | (Ok r, s2) => (Ok (Some r), s2)
        | (Throw e, s2) => (Throw e, s2)
        end
    end.
Proof. reflexivity. Qed.

(** X8.  [decidePreConfig] asks the Planner at most twice, with one and the
    same prompt and temperature 0: first [llama-3.3-70b-specdec], and only
    when that call throws, [gemini-1.5-flash-8b] of the default Google
    provider.  An answer without an object is not retried: it makes
    [decidePreConfig] throw [Error("Failed to decide preConfigModel")].  When
    both calls throw, the error of the second is thrown. *)
Theorem planner_is_asked_at_most_twice :
  forall (W : Type) (collab : Collaborators W) (tools : Obj (CoreTool W))
         (prompts : list GeneratePromptObj) (s : State W),
    let first := plannerOpts (groq "llama-3.3-70b-specdec") tools prompts in
    let second := plannerOpts (google_default "gemini-1.5-flash-8b") tools prompts in
    Omi.decidePreConfig Omi.modelList tools prompts s
    = match generateObject first (world s) with
      | (Ok g, w1) => (decided g, after s w1 [CallGenerateObject first])
      | (Throw _, w1) =>
          match generateObject second w1 with
          | (Ok g, w2) =>
              (decided g, after s w2 [CallGenerateObject first; CallGenerateObject second])
          | (Throw e, w2) =>
              (Throw e, after s w2 [CallGenerateObject first; CallGenerateObject second])
          end
      end.
Proof.
  intros W collab tools prompts s first second.
  unfold Omi.decidePreConfig. cbv zeta. unfold bind at 1. rewrite fallback_attempts.
  match goal with |- context [attempts _ ?g _ _ _] => set (genFunc := g) end.
  rewrite attempts_two.
  assert (H1 : forall s0, genFunc None s0
                          = let (r, w) := generateObject first (world s0) in
                            (r, after s0 w [CallGenerateObject first]))
    by (intros s0; reflexivity).
  assert (H2 : forall s0, genFunc (substitute "model" (Some (google_default "gemini-1.5-flash-8b")))
                                  s0
                          = let (r, w) := generateObject second (world s0) in
                            (r, after s0 w [CallGenerateObject second]))
    by (intros s0; reflexivity).
  rewrite H1. destruct (generateObject first (world s)) as [[g | e1] w1].
  - unfold decided. destruct g as [[pc |]]; reflexivity.
  - rewrite H2. cbn [world after].
    destruct (generateObject second w1) as [[g | e2] w2]; unfold decided, after;
      cbn [calls genFiles]; rewrite <- app_assoc; [destruct g as [[pc |]] |]; reflexivity.
Qed.

(** ** The order and the number of the calls of a request *)

Section Adds.

Variable W : Type.
Context {collab : Collaborators W}.

Lemma stage_calls_nil (st : Stage) (n : nat) : stage_calls st n [].
Proof. split; [constructor | cbn; lia]. Qed.

Lemma stage_calls_app (st : Stage) (n1 n2 : nat) (c1 c2 : list Call) :
  stage_calls st n1 c1 -> stage_calls st n2 c2 -> stage_calls st (n1 + n2) (c1 ++ c2).
Proof.
  intros [F1 L1] [F2 L2]. split; [now apply Forall_app | rewrite length_app; lia].
Qed.

Lemma pipeline_nil (bounds : list (Stage * nat)) : pipeline bounds [].
Proof.
  induction bounds as [| [st n] rest IH]; cbn; [reflexivity |].
  exists [], []. repeat split; [constructor | cbn; lia | exact IH].
Qed.

Lemma pipeline_app (b1 b2 : list (Stage * nat)) :
  forall c1 c2, pipeline b1 c1 -> pipeline b2 c2 -> pipeline (b1 ++ b2) (c1 ++ c2).
Proof.
  induction b1 as [| [st n] b1 IH]; intros c1 c2 H1 H2; cbn in *.
  - now subst.
  - destruct H1 as [d1 [d2 [-> [Hd1 Hd2]]]].
    exists d1, (d2 ++ c2)%list. rewrite app_assoc. auto.
Qed.

Lemma pipeline_one (st : Stage) (n : nat) (cs : list Call) :
  stage_calls st n cs -> pipeline [(st, n)] cs.
Proof. intros H. exists cs, []. now rewrite app_nil_r. Qed.

Lemma pipeline_length (bounds : list (Stage * nat)) :
  forall cs, pipeline bounds cs -> length cs <= list_sum (map snd bounds).
Proof.
  unfold list_sum.
  induction bounds as [| [st n] rest IH]; intros cs H; cbn [pipeline map snd fold_right] in *.
  - subst. cbn. lia.
  - destruct H as [c1 [c2 [-> [[_ L1] H2]]]]. rewrite length_app.
    specialize (IH c2 H2). lia.
Qed.

Lemma adds_weaken {A} (R R' : list Call -> Prop) (m : Async W A) :
  (forall cs, R cs -> R' cs) -> adds R m -> adds R' m.
Proof.
  intros HR Hm s r s' E. destruct (Hm s r s' E) as [cs [Hcs Hr]]. exists cs. auto.
Qed.

Lemma adds_silent_ret {A} (a : A) : adds silent (ret a : Async W A).
Proof. intros s r s' E. injection E as <- <-. exists []. now rewrite app_nil_r. Qed.

Lemma adds_silent_throw {A} (e : exn) : adds silent (throw e : Async W A).
Proof. intros s r s' E. injection E as <- <-. exists []. now rewrite app_nil_r. Qed.

Lemma adds_silent_of_result {A} (x : Result A) : adds silent (of_result x : Async W A).
Proof. destruct x; [apply adds_silent_ret | apply adds_silent_throw]. Qed.

Lemma adds_silent_reset : adds silent (@genFiles_reset W).
Proof. intros s r s' E. injection E as <- <-. exists []. cbn. now rewrite app_nil_r. Qed.

Lemma adds_silent_read : adds silent (@genFiles_read W).
Proof. intros s r s' E. injection E as <- <-. exists []. now rewrite app_nil_r. Qed.

(** Sequencing: the calls of [m], then those of the continuation. *)
Lemma adds_bind {A B} (R1 R2 R : list Call -> Prop) (m : Async W A) (k : A -> Async W B) :
  adds R1 m -> (forall a, adds R2 (k a)) ->
  (forall c1 c2, R1 c1 -> R2 c2 -> R (c1 ++ c2)%list) ->
  (forall c1, R1 c1 -> R c1) ->
  adds R (bind m k).
Proof.
  intros Hm Hk Happ Hthrow s r s' E. unfold bind in E.
  destruct (m s) as [[a | e] s1] eqn:Em.
  - destruct (Hm s _ _ Em) as [c1 [H1 P1]]. destruct (Hk a s1 _ _ E) as [c2 [H2 P2]].
    exists (c1 ++ c2)%list. split; [now rewrite H2, H1, app_assoc | auto].
  - injection E as <- <-. destruct (Hm s _ _ Em) as [c1 [H1 P1]]. exists c1. auto.
Qed.

Lemma adds_silent_bind {A B} (R : list Call -> Prop) (m : Async W A) (k : A -> Async W B) :
  adds silent m -> (forall a, adds R (k a)) -> R [] -> adds R (bind m k).
Proof.
  intros Hm Hk Hnil. apply (adds_bind silent R R m k Hm Hk).
  - intros c1 c2 -> H. exact H.
  - intros c1 ->. exact Hnil.
Qed.

Lemma adds_bind_silent {A B} (R : list Call -> Prop) (m : Async W A) (k : A -> Async W B) :
  adds R m -> (forall a, adds silent (k a)) -> adds R (bind m k).
Proof.
  intros Hm Hk. apply (adds_bind R silent R m k Hm Hk).
  - intros c1 c2 H ->. now rewrite app_nil_r.
  - auto.
Qed.

Lemma adds_bind_pipeline {A B} (b1 b2 : list (Stage * nat)) (m : Async W A)
      (k : A -> Async W B) :
  adds (pipeline b1) m -> (forall a, adds (pipeline b2) (k a)) ->
  adds (pipeline (b1 ++ b2)) (bind m k).
Proof.
  intros Hm Hk. apply (adds_bind (pipeline b1) (pipeline b2) _ m k Hm Hk).
  - apply pipeline_app.
  - intros c1 H. rewrite <- (app_nil_r c1). apply pipeline_app; [exact H | apply pipeline_nil].
Qed.

Lemma adds_external {A} (st : Stage) (c : Call) (f : M W A) :
  stage_of c = st -> adds (stage_calls st 1) (external c f).
Proof.
  intros Hc s r s' E. unfold external in E.
  destruct (f (world s)) as [r0 w]. injection E as <- <-.
  exists [c]. split; [reflexivity |]. split; [now constructor | cbn; lia].
Qed.

Lemma adds_external_exec {A} (st : Stage) (c : Call) (f : Exec W A) :
  stage_of c = st -> adds (stage_calls st 1) (external_exec c f).
Proof.
  intros Hc s r s' E. unfold external_exec in E.
  destruct (f (world s, genFiles s)) as [r0 [w g]]. injection E as <- <-.
  exists [c]. split; [reflexivity |]. split; [now constructor | cbn; lia].
Qed.

Lemma adds_attempts {T G} (st : Stage) (key : string) (genFunc : Subst T -> Async W G)
      (rest : list T) :
  (forall a, adds (stage_calls st 1) (genFunc a)) ->
  forall a, adds (stage_calls st (S (length rest))) (attempts key genFunc a rest).
Proof.
  intros Hg. induction rest as [| c rest IH]; intros a s r s' E; cbn [attempts] in E;
    destruct (genFunc a s) as [[resp | error] s1] eqn:Ea.
  1-3: injection E as <- <-; destruct (Hg a s _ _ Ea) as [cs [Hcs [F L]]];
    exists cs; split; [exact Hcs | split; [exact F | cbn [length]; lia]].
  destruct (Hg a s _ _ Ea) as [c1 [H1 P1]]. destruct (IH _ s1 _ _ E) as [c2 [H2 P2]].
  exists (c1 ++ c2)%list. split; [now rewrite H2, H1, app_assoc |].
  exact (stage_calls_app st 1 (S (length rest)) c1 c2 P1 P2).
Qed.

Lemma adds_fallback {T G} (st : Stage) (key : string) (item : list T)
      (genFunc : Subst T -> Async W G) :
  (forall a, adds (stage_calls st 1) (genFunc a)) ->
  adds (stage_calls st (S (length item))) (fallback key item genFunc).
Proof.
  intros Hg s r s' E. rewrite fallback_attempts in E.
  exact (adds_attempts st key genFunc item Hg None s r s' E).
Qed.

Lemma adds_allSettled {A} (st : Stage) (ps : list (Async W A)) :
  Forall (adds (stage_calls st 1)) ps -> adds (stage_calls st (length ps)) (allSettled ps).
Proof.
  induction ps as [| p ps IH]; intros Hps.
  - intros s r s' E. injection E as <- <-. exists []. rewrite app_nil_r.
    split; [reflexivity | apply stage_calls_nil].
  - inversion Hps as [| ? ? Hp Hps']; subst.
    intros s r s' E. cbn [allSettled] in E.
    destruct (p s) as [r0 s1] eqn:Ep.
    destruct (allSettled ps s1) as [[rs | e] s2] eqn:Eps; injection E as <- <-.
    all: destruct (Hp s _ _ Ep) as [c1 [H1 P1]];
      destruct (IH Hps' s1 _ _ Eps) as [c2 [H2 P2]];
      exists (c1 ++ c2)%list; split; [now rewrite H2, H1, app_assoc |];
      exact (stage_calls_app st 1 (length ps) c1 c2 P1 P2).
Qed.

End Adds.

(** Proves that a computation that makes no call is silent. *)
Ltac silent_auto :=
  repeat lazymatch goal with
    | |- adds silent (ret _) => apply adds_silent_ret
    | |- adds silent (throw _) => apply adds_silent_throw
    | |- adds silent (of_result _) => apply adds_silent_of_result
    | |- adds silent genFiles_reset => apply adds_silent_reset
    | |- adds silent genFiles_read => apply adds_silent_read
    | |- adds silent (bind _ _) =>
        apply adds_bind_silent; [| intros ?]
    | |- adds silent (match ?x with _ => _ end) => destruct x
    | |- adds silent (let _ := _ in _) => cbv zeta
    end.

(** Proves that a computation makes at most the calls of one stage. *)
Ltac stage_auto :=
  repeat lazymatch goal with
    | |- adds (stage_calls _ _) (ret _) =>
        eapply adds_weaken; [| apply adds_silent_ret];
        intros ? ->; apply stage_calls_nil
    | |- adds (stage_calls _ _) (throw _) =>
        eapply adds_weaken; [| apply adds_silent_throw];
        intros ? ->; apply stage_calls_nil
    | |- adds (stage_calls _ _) (bind (of_result _) _) =>
        apply adds_silent_bind;
        [apply adds_silent_of_result | intros ? | apply stage_calls_nil]
    | |- adds (stage_calls _ _) (bind (match ?x with _ => _ end) _) =>
        apply adds_silent_bind;
        [silent_auto | intros ? | apply stage_calls_nil]
    | |- adds (stage_calls _ _) (bind _ _) =>
        apply adds_bind_silent; [| intros ?; silent_auto]
    | |- adds (stage_calls _ _) (fallback _ _ _) => apply adds_fallback; intros ?
    | |- adds (stage_calls _ _) (external _ _) => apply adds_external; reflexivity
    | |- adds (stage_calls _ _) (external_exec _ _) => apply adds_external_exec; reflexivity
    | |- adds (stage_calls _ _) (match ?x with _ => _ end) => destruct x
    | |- adds (stage_calls _ _) (if ?b then _ else _) => destruct b
    | |- adds (stage_calls _ _) (let _ := _ in _) => cbv zeta
    end.

Section AddsStages.

Variable W : Type.
Context {collab : Collaborators W}.

Lemma adds_decidePreConfig modelList tools prompts :
  adds (stage_calls Planning 2) (Omi.decidePreConfig modelList tools prompts).
Proof. unfold Omi.decidePreConfig. stage_auto. Qed.

Lemma adds_webSearchStage web pc latestTextPrompt prompts toolUsed :
  adds (stage_calls WebSearch 1)
       (Omi.webSearchStage web pc latestTextPrompt prompts toolUsed).
Proof. unfold Omi.webSearchStage. stage_auto. Qed.

Lemma adds_toolStage autoTool pc system temperature topK topP allTools
      latestTextPrompt latestPromptFiles prompts toolUsed :
  adds (stage_calls ToolCalling 2)
       (Omi.toolStage autoTool pc system temperature topK topP allTools
                      latestTextPrompt latestPromptFiles prompts toolUsed).
Proof. unfold Omi.toolStage. stage_auto. Qed.

Lemma adds_reasoningStage reasoning pc system temperature topK topP prompts :
  adds (stage_calls Reasoning 2)
       (Omi.reasoningStage reasoning pc system temperature topK topP prompts).
Proof. unfold Omi.reasoningStage. stage_auto. Qed.

Lemma adds_multiLLMStage multiLLM system temperature topK topP prompts :
  adds (stage_calls MultiLLM 4)
       (Omi.multiLLMStage multiLLM system temperature topK topP prompts).
Proof.
  unfold Omi.multiLLMStage. destruct (Omi.multiLLMGuard multiLLM); [| stage_auto].
  apply adds_bind_silent; [| intros ?; silent_auto].
  match goal with |- adds _ (allSettled ?ps) =>
    apply (adds_weaken W (stage_calls MultiLLM (length ps)));
      [intros cs H; exact H | apply adds_allSettled]
  end.
  apply Forall_map, Forall_forall. intros m _. stage_auto.
Qed.

Lemma adds_finalStage modelConfig reasoningText stream schema system temperature
      topK topP prompts :
  adds (stage_calls FinalGeneration 2)
       (Omi.finalStage modelConfig reasoningText stream schema system temperature
                       topK topP prompts).
Proof. unfold Omi.finalStage. stage_auto. Qed.

End AddsStages.

Section AddsGenerate.

Variable W : Type.
Context {collab : Collaborators W}.

Lemma adds_one {A} (st : Stage) (n : nat) (m : Async W A) :
  adds (stage_calls st n) m -> adds (pipeline [(st, n)]) m.
Proof. apply adds_weaken. apply pipeline_one. Qed.

Lemma adds_augment p pc lastPromptContent allTools prompts toolUsed :
  adds (pipeline [ (WebSearch, 1); (ToolCalling, 2); (Reasoning, 2); (MultiLLM, 4) ])
       (Omi.augment p pc lastPromptContent allTools prompts toolUsed).
Proof.
  unfold Omi.augment. cbv zeta.
  apply (adds_bind_pipeline W [(WebSearch, 1)]);
    [apply adds_one, adds_webSearchStage | intros [prompts1 toolUsed1]].
  apply (adds_bind_pipeline W [(ToolCalling, 2)]);
    [apply adds_one, adds_toolStage | intros [[prompts2 toolUsed2] toolText]].
  apply (adds_bind_pipeline W [(Reasoning, 2)]);
    [apply adds_one, adds_reasoningStage | intros [prompts3 reasoningText]].
  apply adds_bind_silent; [apply adds_one, adds_multiLLMStage | intros prompts4].
  apply adds_silent_ret.
Qed.

Lemma adds_generate (p : GenerateParams W) : adds (pipeline Omi_bounds) (Omi.generate p).
Proof.
  unfold Omi.generate. cbv zeta.
  apply adds_silent_bind; [silent_auto | intros lastPromptContent | apply pipeline_nil].
  apply adds_silent_bind; [silent_auto | intros _ | apply pipeline_nil].
  apply (adds_bind_pipeline W [(Planning, 2)]);
    [apply adds_one, adds_decidePreConfig | intros pc].
  apply (adds_bind_pipeline W
           [ (WebSearch, 1); (ToolCalling, 2); (Reasoning, 2); (MultiLLM, 4) ]
           [ (FinalGeneration, 2) ]);
    [apply adds_augment | intros [[prompts toolUsed] reasoningText]].
  apply adds_bind_silent; [apply adds_one, adds_finalStage | intros llmResp].
  silent_auto.
Qed.

Lemma addsB_planner tools prompts :
  adds (stage_calls Planning 2) (OmiB.planner tools prompts).
Proof. unfold OmiB.planner. stage_auto. Qed.

Lemma addsB_webSearchStage web pc latestTextPrompt prompts toolUsed :
  adds (stage_calls WebSearch 1)
       (OmiB.webSearchStage web pc latestTextPrompt prompts toolUsed).
Proof. unfold OmiB.webSearchStage. stage_auto. Qed.

Lemma addsB_toolStage autoTool pc system temperature topK topP tools
      latestTextPrompt latestPromptFiles prompts toolUsed :
  adds (stage_calls ToolCalling 3)
       (OmiB.toolStage autoTool pc system temperature topK topP tools
                       latestTextPrompt latestPromptFiles prompts toolUsed).
Proof. unfold OmiB.toolStage. stage_auto. Qed.

Lemma addsB_reasoningStage reasoning pc system temperature topK topP prompts :
  adds (stage_calls Reasoning 3)
       (OmiB.reasoningStage reasoning pc system temperature topK topP prompts).
Proof. unfold OmiB.reasoningStage. stage_auto. Qed.

Lemma addsB_multiLLMStage multiLLM stream system temperature topK topP prompts :
  adds (stage_calls MultiLLM 5)
       (OmiB.multiLLMStage multiLLM stream system temperature topK topP prompts).
Proof.
  unfold OmiB.multiLLMStage. destruct (OmiB.multiLLMGuard multiLLM stream); [| stage_auto].
  apply adds_bind_silent; [| intros ?; silent_auto].
  match goal with |- adds _ (allSettled ?ps) =>
    apply (adds_weaken W (stage_calls MultiLLM (length ps)));
      [intros cs H; exact H | apply adds_allSettled]
  end.
  apply Forall_map, Forall_forall. intros m _. stage_auto.
Qed.

Lemma addsB_finalStage modelConfig stream schema system temperature topK topP prompts :
  adds (stage_calls FinalGeneration 2)
       (OmiB.finalStage modelConfig stream schema system temperature topK topP prompts).
Proof. unfold OmiB.finalStage. stage_auto. Qed.

Lemma addsB_generate (p : GenerateParams W) : adds (pipeline OmiB_bounds) (OmiB.generate p).
Proof.
  unfold OmiB.generate. cbv zeta.
  apply adds_silent_bind; [silent_auto | intros lastPromptContent | apply pipeline_nil].
  apply adds_silent_bind; [silent_auto | intros _ | apply pipeline_nil].
  apply (adds_bind_pipeline W [(Planning, 2)]);
    [apply adds_one, addsB_planner | intros pc0].
  apply adds_silent_bind; [silent_auto | intros pc | apply pipeline_nil].
  apply (adds_bind_pipeline W
           [ (WebSearch, 1); (ToolCalling, 3); (Reasoning, 3); (MultiLLM, 5) ]
           [ (FinalGeneration, 2) ]);
    [| intros [[prompts toolUsed] reasoningText]].
  { unfold OmiB.augment. cbv zeta.
    apply (adds_bind_pipeline W [(WebSearch, 1)]);
      [apply adds_one, addsB_webSearchStage | intros [prompts1 toolUsed1]].
    apply (adds_bind_pipeline W [(ToolCalling, 3)]);
      [apply adds_one, addsB_toolStage | intros [prompts2 toolUsed2]].
    apply (adds_bind_pipeline W [(Reasoning, 3)]);
      [apply adds_one, addsB_reasoningStage | intros [prompts3 reasoningText]].
    apply adds_bind_silent; [apply adds_one, addsB_multiLLMStage | intros prompts4].
    apply adds_silent_ret. }
  apply adds_bind_silent; [apply adds_one, addsB_finalStage | intros llmResp].
  silent_auto.
Qed.

End AddsGenerate.

(** X9.  In every run of [generate], whatever its outcome, the calls to the
    collaborators come in the order of the pipeline and are bounded stage by
    stage.  In the text of index.ts:294: at most 2 Planner calls, then at
    most 1 web search, at most 2 calls of the tool-calling sub-run, at most
    2 of the reasoning sub-run, at most 4 of the cross-check, at most 2 of
    the final generation, that is at most 13 calls.  In the text of
    index.ts:924 the bounds are 2, 1, 3, 3, 5 and 2, at most 16 calls. *)
Theorem calls_follow_the_pipeline :
  forall (W : Type) (collab : Collaborators W) (p : GenerateParams W)
         (s s' : State W) (r : Result GenerateResponse),
    (Omi.generate p s = (r, s') ->
     exists cs, calls s' = (calls s ++ cs)%list
                /\ pipeline Omi_bounds cs /\ length cs <= 13)
    /\ (OmiB.generate p s = (r, s') ->
        exists cs, calls s' = (calls s ++ cs)%list
                   /\ pipeline OmiB_bounds cs /\ length cs <= 16).
Proof.
  intros W collab p s s' r. split; intros E.
  - destruct (adds_generate W p s r s' E) as [cs [Hcs Hp]]. exists cs.
    repeat split; [exact Hcs | exact Hp | exact (pipeline_length _ cs Hp)].
  - destruct (addsB_generate W p s r s' E) as [cs [Hcs Hp]]. exists cs.
    repeat split; [exact Hcs | exact Hp | exact (pipeline_length _ cs Hp)].
Qed.

Lemma calls_follow_the_pipeline_witness :
  let run := Omi.generate (collab := scripted (all_answer (decision "gpt-4o" true true true) "3"))
                          everything initial in
  exists cs, calls (snd run) = (calls initial ++ cs)%list
             /\ pipeline Omi_bounds cs /\ length cs <= 13.
Proof.
  intros run.
  apply (proj1 (calls_follow_the_pipeline nat
                  (scripted (all_answer (decision "gpt-4o" true true true) "3"))
                  everything initial (snd run) (fst run))).
  apply surjective_pairing.
Defined.

(** ** What the calls carry *)

Lemma spread_text_keeps (opts : TextOpts) (args : Subst ModelRef) :
  let o := spread_text opts args in
  o_prompt o = o_prompt opts /\ o_system o = o_system opts
  /\ o_messages o = o_messages opts /\ o_tools o = o_tools opts
  /\ o_toolChoice o = o_toolChoice opts /\ o_maxSteps o = o_maxSteps opts
  /\ o_experimental_output o = o_experimental_output opts
  /\ o_temperature o = o_temperature opts
  /\ o_topK o = o_topK opts /\ o_topP o = o_topP opts.
Proof.
  destruct args as [[k v] |]; cbn; [| repeat split].
  destruct (String.eqb k "model"); repeat split.
Qed.

Lemma spread_object_temperature (opts : ObjectOpts) (args : Subst ModelRef) :
  oo_temperature (spread_object opts args) = oo_temperature opts.
Proof.
  destruct args as [[k v] |]; cbn; [| reflexivity]. destruct (String.eqb k "model"); reflexivity.
Qed.

Lemma carries_settings_spread system temperature topK topP opts args :
  carries_settings system temperature topK topP opts ->
  carries_settings system temperature topK topP (spread_text opts args).
Proof.
  destruct (spread_text_keeps opts args) as (_ & H2 & _ & _ & _ & _ & _ & H8 & H9 & H10).
  unfold carries_settings. rewrite H2, H8, H9, H10. auto.
Qed.

Lemma stage_shape_spread schema st opts args :
  stage_shape schema st opts -> stage_shape schema st (spread_text opts args).
Proof.
  destruct (spread_text_keeps opts args) as (H1 & _ & H3 & H4 & H5 & H6 & H7 & _).
  unfold stage_shape. rewrite H1, H3, H4, H5, H6, H7. auto.
Qed.

(** Closes the goal that a call built by a stage is well formed. *)
Ltac well_formed_leaf :=
  lazymatch goal with
  | |- well_formed_call _ _ _ _ _ (CallGenerateObject _) =>
      cbn [well_formed_call]; rewrite ?spread_object_temperature; reflexivity
  | |- well_formed_call _ _ _ _ _ (CallWebSearch _) => reflexivity
  | |- well_formed_call _ _ _ _ _ (CallGenerateText _ (spread_text _ _)) =>
      cbn [well_formed_call]; split; [discriminate |]; split; [discriminate |];
      split; [apply carries_settings_spread; repeat split
             | apply stage_shape_spread; cbn; repeat split; discriminate]
  | |- well_formed_call _ _ _ _ _ (CallStreamText _ (spread_text _ _)) =>
      cbn [well_formed_call]; split; [reflexivity |];
      split; [apply carries_settings_spread; repeat split
             | apply stage_shape_spread; cbn; repeat split; discriminate]
  | |- well_formed_call _ _ _ _ _ (CallGenerateText _ _) =>
      cbn [well_formed_call]; split; [discriminate |]; split; [discriminate |];
      split; [repeat split | cbn; repeat split; discriminate]
  end.

Ltac well_formed_auto := repeat emits_step; try well_formed_leaf.

Section WellFormed.

Variable W : Type.
Context {collab : Collaborators W}.

Variables (system : option string) (temperature : number) (topK topP : option number)
          (schema : option ZodSchema).

Lemma wf_decidePreConfig modelList tools prompts :
  emits (well_formed_call system temperature topK topP schema) (Omi.decidePreConfig modelList tools prompts).
Proof. unfold Omi.decidePreConfig. well_formed_auto. Qed.

Lemma wf_webSearchStage web pc latestTextPrompt prompts toolUsed :
  emits (well_formed_call system temperature topK topP schema) (Omi.webSearchStage web pc latestTextPrompt prompts toolUsed).
Proof. unfold Omi.webSearchStage. well_formed_auto. Qed.

Lemma wf_toolStage autoTool pc allTools latestTextPrompt latestPromptFiles prompts toolUsed :
  emits (well_formed_call system temperature topK topP schema) (Omi.toolStage autoTool pc system temperature topK topP allTools
                          latestTextPrompt latestPromptFiles prompts toolUsed).
Proof. unfold Omi.toolStage. well_formed_auto. Qed.

Lemma wf_reasoningStage reasoning pc prompts :
  emits (well_formed_call system temperature topK topP schema) (Omi.reasoningStage reasoning pc system temperature topK topP prompts).
Proof. unfold Omi.reasoningStage. well_formed_auto. Qed.

Lemma wf_multiLLMStage multiLLM prompts :
  emits (well_formed_call system temperature topK topP schema) (Omi.multiLLMStage multiLLM system temperature topK topP prompts).
Proof.
  unfold Omi.multiLLMStage. emits_step; [| well_formed_auto]. emits_step; [| well_formed_auto].
  apply emits_allSettled, Forall_map, Forall_forall. intros m _. well_formed_auto.
Qed.

Lemma wf_finalStage modelConfig reasoningText stream prompts :
  emits (well_formed_call system temperature topK topP schema) (Omi.finalStage modelConfig reasoningText stream schema system temperature
                           topK topP prompts).
Proof. unfold Omi.finalStage. well_formed_auto. Qed.

Lemma wfB_planner tools prompts : emits (well_formed_call system temperature topK topP schema) (OmiB.planner tools prompts).
Proof. unfold OmiB.planner. well_formed_auto. Qed.

Lemma wfB_webSearchStage web pc latestTextPrompt prompts toolUsed :
  emits (well_formed_call system temperature topK topP schema) (OmiB.webSearchStage web pc latestTextPrompt prompts toolUsed).
Proof. unfold OmiB.webSearchStage. well_formed_auto. Qed.

Lemma wfB_toolStage autoTool pc tools latestTextPrompt latestPromptFiles prompts toolUsed :
  emits (well_formed_call system temperature topK topP schema) (OmiB.toolStage autoTool pc system temperature topK topP tools
                           latestTextPrompt latestPromptFiles prompts toolUsed).
Proof. unfold OmiB.toolStage. well_formed_auto. Qed.

Lemma wfB_reasoningStage reasoning pc prompts :
  emits (well_formed_call system temperature topK topP schema) (OmiB.reasoningStage reasoning pc system temperature topK topP prompts).
Proof. unfold OmiB.reasoningStage. well_formed_auto. Qed.

Lemma wfB_multiLLMStage multiLLM stream prompts :
  emits (well_formed_call system temperature topK topP schema) (OmiB.multiLLMStage multiLLM stream system temperature topK topP prompts).
Proof.
  unfold OmiB.multiLLMStage. emits_step; [| well_formed_auto]. emits_step; [| well_formed_auto].
  apply emits_allSettled, Forall_map, Forall_forall. intros m _. well_formed_auto.
Qed.

Lemma wfB_finalStage modelConfig stream prompts :
  emits (well_formed_call system temperature topK topP schema) (OmiB.finalStage modelConfig stream schema system temperature topK topP prompts).
Proof. unfold OmiB.finalStage. well_formed_auto. Qed.

End WellFormed.

Section WellFormedGenerate.

Variable W : Type.
Context {collab : Collaborators W}.

Lemma wf_generate (p : GenerateParams W) :
  emits (well_formed_call (p_system p) (temperatureOf p) (p_topK p) (p_topP p) (p_schema p))
        (Omi.generate p).
Proof.
  unfold Omi.generate. cbv zeta.
  apply emits_bind; [destruct (last _ _); [apply emits_ret | apply emits_throw] |].
  intros lastPromptContent.
  apply emits_bind; [apply emits_genFiles_reset | intros _].
  apply emits_bind; [apply wf_decidePreConfig | intros pc].
  apply emits_bind; [| intros [[prompts toolUsed] reasoningText]].
  { unfold Omi.augment. cbv zeta.
    apply emits_bind; [apply wf_webSearchStage | intros [prompts1 toolUsed1]].
    apply emits_bind; [apply wf_toolStage | intros [[prompts2 toolUsed2] toolText]].
    apply emits_bind; [apply wf_reasoningStage | intros [prompts3 reasoningText]].
    apply emits_bind; [apply wf_multiLLMStage | intros prompts4; apply emits_ret]. }
  apply emits_bind; [apply wf_finalStage | intros [llmResp |]].
  - apply emits_bind; [apply emits_genFiles_read | intros g; apply emits_ret].
  - apply emits_throw.
Qed.

Lemma wfB_generate (p : GenerateParams W) :
  emits (well_formed_call (p_system p) (temperatureOf p) (p_topK p) (p_topP p) (p_schema p))
        (OmiB.generate p).
Proof.
  unfold OmiB.generate. cbv zeta.
  apply emits_bind; [destruct (last _ _); [apply emits_ret | apply emits_throw] |].
  intros lastPromptContent.
  apply emits_bind; [apply emits_genFiles_reset | intros _].
  apply emits_bind; [apply wfB_planner | intros pc0].
  apply emits_bind; [destruct pc0; [apply emits_ret | apply emits_throw] | intros pc].
  apply emits_bind; [| intros [[prompts toolUsed] reasoningText]].
  { unfold OmiB.augment. cbv zeta.
    apply emits_bind; [apply wfB_webSearchStage | intros [prompts1 toolUsed1]].
    apply emits_bind; [apply wfB_toolStage | intros [prompts2 toolUsed2]].
    apply emits_bind; [apply wfB_reasoningStage | intros [prompts3 reasoningText]].
    apply emits_bind; [apply wfB_multiLLMStage | intros prompts4; apply emits_ret]. }
  apply emits_bind; [apply wfB_finalStage | intros [llmResp |]].
  - apply emits_bind; [apply emits_genFiles_read | intros g; apply emits_ret].
  - apply emits_throw.
Qed.

End WellFormedGenerate.

(** X10.  Whatever the outcome of a request, in both texts of [generate]:
    every completion call carries the caller's system prompt, temperature
    (0 by default), topK and topP; only the tool-calling sub-run is given
    tools, with a limit of 5 steps, tool choice ["auto"] and a prompt in
    place of a conversation; only the final generation is given the caller's
    schema, and only the final generation streams; the Planner is asked at
    temperature 0 and the web search is made without the AI overview. *)
Theorem calls_carry_the_callers_settings :
  forall (W : Type) (collab : Collaborators W) (p : GenerateParams W)
         (s s' : State W) (r : Result GenerateResponse),
    Omi.generate p s = (r, s') \/ OmiB.generate p s = (r, s') ->
    exists cs,
      calls s' = (calls s ++ cs)%list
      /\ Forall (well_formed_call (p_system p) (temperatureOf p) (p_topK p) (p_topP p)
                                  (p_schema p)) cs.
Proof.
  intros W collab p s s' r [E | E].
  - exact (wf_generate W p s r s' E).
  - exact (wfB_generate W p s r s' E).
Qed.

Lemma calls_carry_the_callers_settings_witness :
  let run := OmiB.generate (collab := scripted (all_answer (decision "gpt-4o" true true true) "3"))
                           everything initial in
  exists cs,
    calls (snd run) = (calls initial ++ cs)%list
    /\ Forall (well_formed_call (p_system everything) (temperatureOf everything)
                                (p_topK everything) (p_topP everything)
                                (p_schema everything)) cs.
Proof.
  intros run.
  apply (calls_carry_the_callers_settings nat
           (scripted (all_answer (decision "gpt-4o" true true true) "3"))
           everything initial (snd run) (fst run)).
  right. apply surjective_pairing.
Defined.

(** ** The turns the stages add *)

Lemma synthetic_nil (n : nat) : synthetic n [].
Proof. split; [constructor | cbn; lia]. Qed.

Lemma synthetic_one (m : GeneratePromptObj) : role m = User -> synthetic 1 [m].
Proof. intros H. split; [now constructor | cbn; lia]. Qed.

Lemma synthetic_app (n m : nat) (a b : list GeneratePromptObj) :
  synthetic n a -> synthetic m b -> synthetic (n + m) (a ++ b)%list.
Proof.
  intros [Ha Hn] [Hb Hm]. split; [now apply Forall_app | rewrite length_app; lia].
Qed.

Lemma synthetic_weaken (n m : nat) (a : list GeneratePromptObj) :
  n <= m -> synthetic n a -> synthetic m a.
Proof. intros Hle [Ha Hn]. split; [exact Ha | lia]. Qed.

Section Turns.

Variable W : Type.
Context {collab : Collaborators W}.

Lemma Omi_webSearchStage_inserts web pc latestTextPrompt pre x toolUsed0 prompts' toolUsed'
      (s s' : State W) :
  Omi.webSearchStage web pc latestTextPrompt (pre ++ [x]) toolUsed0 s
  = (Ok (prompts', toolUsed'), s') ->
  exists added, prompts' = (pre ++ added ++ [x])%list /\ synthetic 1 added.
Proof.
  unfold Omi.webSearchStage. intros E.
  destruct latestTextPrompt as [q |]; [destruct (JS.truthy q && Omi.webSearchGuard _ pc) |].
  - apply bind_Ok_inv in E. destruct E as [searchResult [s0 [_ E]]].
    cbv zeta in E. injection E as <- _ _. rewrite splice_before_last.
    eexists [_]. split; [reflexivity | now apply synthetic_one].
  - injection E as <- _ _. exists []. split; [reflexivity | apply synthetic_nil].
  - injection E as <- _ _. exists []. split; [reflexivity | apply synthetic_nil].
Qed.

Lemma Omi_toolStage_skips autoTool pc system temperature topK topP allTools
      latestTextPrompt latestPromptFiles prompts toolUsed0 prompts' toolUsed' toolText
      (s s' : State W) :
  Omi.toolStage autoTool pc system temperature topK topP allTools
                latestTextPrompt latestPromptFiles prompts toolUsed0 s
  = (Ok (prompts', toolUsed', toolText), s') ->
  Omi.toolGuard autoTool pc = false ->
  prompts' = prompts /\ toolUsed' = toolUsed0 /\ s' = s.
Proof.
  unfold Omi.toolStage. intros E Hguard. rewrite Hguard in E.
  injection E as <- <- _ <-. repeat split.
Qed.

Lemma Omi_reasoningStage_inserts reasoning pc system temperature topK topP pre x
      prompts' rt (s s' : State W) :
  Omi.reasoningStage reasoning pc system temperature topK topP (pre ++ [x]) s
  = (Ok (prompts', rt), s') ->
  exists added, prompts' = (pre ++ added ++ [x])%list /\ synthetic 1 added.
Proof.
  unfold Omi.reasoningStage. intros E. destruct (Omi.reasoningGuard reasoning pc).
  - apply bind_Ok_inv in E. destruct E as [reasoningResult [s0 [_ E]]].
    cbv zeta in E. injection E as <- _ _. rewrite splice_before_last.
    eexists [_]. split; [reflexivity | now apply synthetic_one].
  - injection E as <- _ _. exists []. split; [reflexivity | apply synthetic_nil].
Qed.

Lemma Omi_multiLLMStage_inserts multiLLM system temperature topK topP pre x
      prompts' (s s' : State W) :
  Omi.multiLLMStage multiLLM system temperature topK topP (pre ++ [x]) s
  = (Ok prompts', s') ->
  exists added, prompts' = (pre ++ added ++ [x])%list /\ synthetic 1 added.
Proof.
  unfold Omi.multiLLMStage. intros E. destruct (Omi.multiLLMGuard multiLLM).
  - apply bind_Ok_inv in E. destruct E as [outs [s0 [_ E]]].
    cbv zeta in E. injection E as <- _. rewrite splice_before_last.
    eexists [_]. split; [reflexivity | now apply synthetic_one].
  - injection E as <- _. exists []. split; [reflexivity | apply synthetic_nil].
Qed.

Lemma OmiB_webSearchStage_inserts web pc latestTextPrompt pre x toolUsed0 prompts' toolUsed'
      (s s' : State W) :
  OmiB.webSearchStage web pc latestTextPrompt (pre ++ [x]) toolUsed0 s
  = (Ok (prompts', toolUsed'), s') ->
  exists added, prompts' = (pre ++ added ++ [x])%list /\ synthetic 1 added.
Proof.
  unfold OmiB.webSearchStage. intros E.
  destruct latestTextPrompt as [q |]; [destruct (JS.truthy q && Omi.webSearchGuard _ pc) |].
  - apply bind_Ok_inv in E. destruct E as [searchResult [s0 [_ E]]].
    cbv zeta in E. injection E as <- _ _. rewrite splice_before_last.
    eexists [_]. split; [reflexivity | now apply synthetic_one].
  - injection E as <- _ _. exists []. split; [reflexivity | apply synthetic_nil].
  - injection E as <- _ _. exists []. split; [reflexivity | apply synthetic_nil].
Qed.

Lemma OmiB_toolStage_inserts autoTool pc system temperature topK topP tools
      latestTextPrompt latestPromptFiles pre x toolUsed0 prompts' toolUsed'
      (s s' : State W) :
  OmiB.toolStage autoTool pc system temperature topK topP tools
                 latestTextPrompt latestPromptFiles (pre ++ [x]) toolUsed0 s
  = (Ok (prompts', toolUsed'), s') ->
  exists added, prompts' = (pre ++ added ++ [x])%list /\ synthetic 1 added.
Proof.
  unfold OmiB.toolStage. intros E. destruct (Omi.toolGuard autoTool pc).
  - apply bind_Ok_inv in E. destruct E as [toolResult [s0 [_ E]]]. cbv zeta in E.
    apply bind_Ok_inv in E. destruct E as [allToolCalls [s1 [_ E]]].
    injection E as <- _ _. rewrite splice_before_last.
    eexists [_]. split; [reflexivity | now apply synthetic_one].
  - injection E as <- _ _. exists []. split; [reflexivity | apply synthetic_nil].
Qed.

Lemma OmiB_reasoningStage_inserts reasoning pc system temperature topK topP pre x
      prompts' rt (s s' : State W) :
  OmiB.reasoningStage reasoning pc system temperature topK topP (pre ++ [x]) s
  = (Ok (prompts', rt), s') ->
  exists added, prompts' = (pre ++ added ++ [x])%list /\ synthetic 1 added.
Proof.
  unfold OmiB.reasoningStage. intros E. destruct (Omi.reasoningGuard reasoning pc).
  - apply bind_Ok_inv in E. destruct E as [reasoningResult [s0 [_ E]]].
    cbv zeta in E. injection E as <- _ _. rewrite splice_before_last.
    eexists [_]. split; [reflexivity | now apply synthetic_one].
  - injection E as <- _ _. exists []. split; [reflexivity | apply synthetic_nil].
Qed.

Lemma OmiB_multiLLMStage_inserts multiLLM stream system temperature topK topP pre x
      prompts' (s s' : State W) :
  OmiB.multiLLMStage multiLLM stream system temperature topK topP (pre ++ [x]) s
  = (Ok prompts', s') ->
  exists added, prompts' = (pre ++ added ++ [x])%list /\ synthetic 1 added.
Proof.
  unfold OmiB.multiLLMStage. intros E. destruct (OmiB.multiLLMGuard multiLLM stream).
  - apply bind_Ok_inv in E. destruct E as [outs [s0 [_ E]]].
    cbv zeta in E. injection E as <- _. rewrite splice_before_last.
    eexists [_]. split; [reflexivity | now apply synthetic_one].
  - injection E as <- _. exists []. split; [reflexivity | apply synthetic_nil].
Qed.

End Turns.

(** X11.  In the text of index.ts:294-612, when the four augmentation
    stages complete on a conversation that ends with the turn [lastTurn],
    no turn of the conversation is removed, changed or reordered: at most
    four turns are added, all of role ["user"].  When the tool-calling guard
    is false they all stand before [lastTurn], which stays last; when it is
    true only the web-search turn stands before [lastTurn], and the
    conversation ends with the tool-result turn. *)
Theorem augmentation_only_adds_user_turns :
  forall (W : Type) (collab : Collaborators W) (p : GenerateParams W) (pc : PreConfig)
         (lastPromptContent : Content) (allTools : Obj (CoreTool W))
         (init : list GeneratePromptObj) (lastTurn : GeneratePromptObj)
         (toolUsed0 toolUsed' : list ToolUsed) (prompts' : list GeneratePromptObj)
         (rt : option string) (s s' : State W),
    Omi.augment p pc lastPromptContent allTools (init ++ [lastTurn]) toolUsed0 s
    = (Ok (prompts', toolUsed', rt), s') ->
    exists before after,
      prompts' = (init ++ before ++ lastTurn :: after)%list
      /\ synthetic 4 (before ++ after)
      /\ (Omi.toolGuard (autoToolOf (p_autoTool p)) pc = false -> after = [])
      /\ (Omi.toolGuard (autoToolOf (p_autoTool p)) pc = true ->
          synthetic 1 before
          /\ exists mid toolText, after = (mid ++ [toolResultTurn toolText])%list).
Proof.
  intros W collab p pc lastPromptContent allTools init lastTurn toolUsed0 toolUsed'
         prompts' rt s s'.
  unfold Omi.augment. cbv zeta. fold (autoToolOf (p_autoTool p)). intros E.
  apply bind_Ok_inv in E. destruct E as [[prompts1 toolUsed1] [s1 [Hweb E]]].
  apply Omi_webSearchStage_inserts in Hweb. destruct Hweb as [a1 [-> Ha1]].
  apply bind_Ok_inv in E. destruct E as [[[prompts2 toolUsed2] toolText] [s2 [Htool E]]].
  apply bind_Ok_inv in E. destruct E as [[prompts3 rt3] [s3 [Hreason E]]].
  apply bind_Ok_inv in E. destruct E as [prompts4 [s4 [Hmulti E]]].
  injection E as <- _ _ _.
  destruct (Omi.toolGuard (autoToolOf (p_autoTool p)) pc) eqn:Hguard.
  - apply Omi_toolStage_appends in Htool; [| exact Hguard]. subst prompts2.
    apply Omi_reasoningStage_inserts in Hreason. destruct Hreason as [a3 [-> Ha3]].
    rewrite app_assoc in Hmulti.
    apply Omi_multiLLMStage_inserts in Hmulti. destruct Hmulti as [a4 [-> Ha4]].
    exists a1, (a3 ++ a4 ++ [toolResultTurn toolText])%list.
    split; [| split; [| split]].
    + rewrite <- !app_assoc. reflexivity.
    + apply (synthetic_app 1 3 _ _ Ha1). apply (synthetic_app 1 2 _ _ Ha3).
      apply (synthetic_app 1 1 _ _ Ha4). now apply synthetic_one.
    + discriminate.
    + intros _. split; [exact Ha1 |].
      exists (a3 ++ a4)%list, toolText. now rewrite <- app_assoc.
  - apply Omi_toolStage_skips in Htool; [| exact Hguard]. destruct Htool as [-> _].
    rewrite app_assoc in Hreason.
    apply Omi_reasoningStage_inserts in Hreason. destruct Hreason as [a3 [-> Ha3]].
    rewrite app_assoc in Hmulti.
    apply Omi_multiLLMStage_inserts in Hmulti. destruct Hmulti as [a4 [-> Ha4]].
    exists (a1 ++ a3 ++ a4)%list, [].
    split; [| split; [| split]].
    + rewrite <- !app_assoc. reflexivity.
    + rewrite app_nil_r. apply (synthetic_weaken 3 4); [lia |].
      apply (synthetic_app 1 2 _ _ Ha1). apply (synthetic_app 1 1 _ _ Ha3). exact Ha4.
    + reflexivity.
    + discriminate.
Qed.

Lemma augmentation_only_adds_user_turns_witness :
  let run := Omi.augment (collab := world_four) everything all_on
                         (Text "How many r's are in strawberry?") (allToolsOf (collab := world_four) None [])
                         ([two_plus_two_turn] ++ [two_plus_two_turn]) [] initial in
  match fst run with
  | Ok (prompts', _, _) =>
      exists before after,
        prompts' = ([two_plus_two_turn] ++ before ++ two_plus_two_turn :: after)%list
        /\ synthetic 4 (before ++ after)
        /\ (Omi.toolGuard (autoToolOf (p_autoTool everything)) all_on = false -> after = [])
        /\ (Omi.toolGuard (autoToolOf (p_autoTool everything)) all_on = true ->
            synthetic 1 before
            /\ exists mid toolText, after = (mid ++ [toolResultTurn toolText])%list)
  | Throw _ => False
  end.
Proof.
  intros run.
  destruct (fst run) as [[[prompts' toolUsed'] rt] |] eqn:E; [| vm_compute in E; discriminate].
  apply (augmentation_only_adds_user_turns nat world_four everything all_on
           (Text "How many r's are in strawberry?") (allToolsOf (collab := world_four) None [])
           [two_plus_two_turn] two_plus_two_turn [] toolUsed' prompts' rt initial (snd run)).
  rewrite <- E. apply surjective_pairing.
Defined.

(** X12.  In the text of index.ts:924-1252, when the four augmentation
    stages complete on a conversation that ends with the turn [lastTurn],
    the conversation they leave is the one they were given with at most four
    turns of role ["user"] inserted just before [lastTurn]: the turn of the
    request stays last and the earlier turns stay first, in order. *)
Theorem augmentation_inserts_user_turns_before_last :
  forall (W : Type) (collab : Collaborators W) (p : GenerateParams W) (pc : PreConfig)
         (lastPromptContent : Content) (tools : Obj (CoreTool W))
         (init : list GeneratePromptObj) (lastTurn : GeneratePromptObj)
         (toolUsed0 toolUsed' : list ToolUsed) (prompts' : list GeneratePromptObj)
         (rt : option string) (s s' : State W),
    OmiB.augment p pc lastPromptContent tools (init ++ [lastTurn]) toolUsed0 s
    = (Ok (prompts', toolUsed', rt), s') ->
    exists added,
      prompts' = (init ++ added ++ [lastTurn])%list /\ synthetic 4 added.
Proof.
  intros W collab p pc lastPromptContent tools init lastTurn toolUsed0 toolUsed'
         prompts' rt s s'.
  unfold OmiB.augment. cbv zeta. intros E.
  apply bind_Ok_inv in E. destruct E as [[prompts1 toolUsed1] [s1 [Hweb E]]].
  apply OmiB_webSearchStage_inserts in Hweb. destruct Hweb as [a1 [-> Ha1]].
  apply bind_Ok_inv in E. destruct E as [[prompts2 toolUsed2] [s2 [Htool E]]].
  rewrite app_assoc in Htool.
  apply OmiB_toolStage_inserts in Htool. destruct Htool as [a2 [-> Ha2]].
  apply bind_Ok_inv in E. destruct E as [[prompts3 rt3] [s3 [Hreason E]]].
  rewrite app_assoc in Hreason.
  apply OmiB_reasoningStage_inserts in Hreason. destruct Hreason as [a3 [-> Ha3]].
  apply bind_Ok_inv in E. destruct E as [prompts4 [s4 [Hmulti E]]].
  rewrite app_assoc in Hmulti.
  apply OmiB_multiLLMStage_inserts in Hmulti. destruct Hmulti as [a4 [-> Ha4]].
  injection E as <- _ _ _.
  exists (a1 ++ a2 ++ a3 ++ a4)%list. split.
  - rewrite <- !app_assoc. reflexivity.
  - apply (synthetic_app 1 3 _ _ Ha1). apply (synthetic_app 1 2 _ _ Ha2).
    apply (synthetic_app 1 1 _ _ Ha3). exact Ha4.
Qed.

Lemma augmentation_inserts_user_turns_before_last_witness :
  let run := OmiB.augment (collab := world_four) everything all_on
                          (Text "How many r's are in strawberry?") (OmiB.toolsOf (collab := world_four) [])
                          ([two_plus_two_turn] ++ [two_plus_two_turn]) [] initial in
  match fst run with
  | Ok (prompts', _, _) =>
      exists added,
        prompts' = ([two_plus_two_turn] ++ added ++ [two_plus_two_turn])%list
        /\ synthetic 4 added
  | Throw _ => False
  end.
Proof.
  intros run.
  destruct (fst run) as [[[prompts' toolUsed'] rt] |] eqn:E; [| vm_compute in E; discriminate].
  apply (augmentation_inserts_user_turns_before_last nat world_four everything all_on
           (Text "How many r's are in strawberry?") (OmiB.toolsOf (collab := world_four) [])
           [two_plus_two_turn] two_plus_two_turn [] toolUsed' prompts' rt initial (snd run)).
  rewrite <- E. apply surjective_pairing.
Defined.

(** ** The result of a request *)

Lemma attempts_Ok_inv {St T G} (key : string) (genFunc : Subst T -> M St G)
      (rest : list T) :
  forall (a : Subst T) (s s' : St) (o : option G),
    attempts key genFunc a rest s = (Ok o, s') ->
    exists b s0 g, genFunc b s0 = (Ok g, s') /\ o = Some g.
Proof.
  induction rest as [| c rest IH]; intros a s s' o; cbn [attempts];
    destruct (genFunc a s) as [[g | e] s1] eqn:E; intros H.
  - injection H as <- <-. now exists a, s, g.
  - discriminate.
  - injection H as <- <-. now exists a, s, g.
  - exact (IH _ _ _ _ H).
Qed.

Section Results.

Variable W : Type.
Context {collab : Collaborators W}.

Lemma external_exec_calls {A} (c : Call) (f : Exec W A) (s s' : State W) (r : Result A) :
  external_exec c f s = (r, s') -> calls s' = (calls s ++ [c])%list.
Proof.
  unfold external_exec. destruct (f (world s, genFiles s)) as [r0 [w g]].
  intros H. injection H as _ <-. reflexivity.
Qed.

Lemma Omi_finalStage_Ok_inv modelConfig reasoningText stream schema system temperature
      topK topP prompts (s s' : State W) (o : option Resp) :
  Omi.finalStage modelConfig reasoningText stream schema system temperature topK topP
                 prompts s = (Ok o, s') ->
  exists llmResp c cs,
    o = Some llmResp /\ calls s' = (cs ++ [c])%list /\ final_call stream c llmResp.
Proof.
  unfold Omi.finalStage. intros E.
  apply bind_Ok_inv in E. destruct E as [candidate [s1 [_ E]]].
  rewrite fallback_attempts in E. apply attempts_Ok_inv in E.
  destruct E as [b [s0 [llmResp [E ->]]]].
  apply bind_Ok_inv in E. destruct E as [model [s2 [_ E]]]. cbv zeta in E.
  exists llmResp. unfold final_call. destruct (flag_truthy stream).
  - apply bind_Ok_inv in E. destruct E as [r [s3 [Hcall E]]]. injection E as <- <-.
    apply external_exec_calls in Hcall.
    eexists _, _. split; [reflexivity |]. split; [exact Hcall |].
    split; [reflexivity |]. split; [reflexivity | now exists r].
  - apply bind_Ok_inv in E. destruct E as [r [s3 [Hcall E]]]. injection E as <- <-.
    apply external_exec_calls in Hcall.
    eexists _, _. split; [reflexivity |]. split; [exact Hcall |].
    split; [reflexivity |]. split; [reflexivity | now exists r].
Qed.

Lemma OmiB_finalStage_Ok_inv modelConfig stream schema system temperature
      topK topP prompts (s s' : State W) (o : option Resp) :
  OmiB.finalStage modelConfig stream schema system temperature topK topP
                  prompts s = (Ok o, s') ->
  exists llmResp c cs,
    o = Some llmResp /\ calls s' = (cs ++ [c])%list /\ final_call stream c llmResp.
Proof.
  unfold OmiB.finalStage. intros E.
  apply bind_Ok_inv in E. destruct E as [candidate [s1 [_ E]]].
  rewrite fallback_attempts in E. apply attempts_Ok_inv in E.
  destruct E as [b [s0 [llmResp [E ->]]]].
  apply bind_Ok_inv in E. destruct E as [model [s2 [_ E]]]. cbv zeta in E.
  exists llmResp. unfold final_call. destruct (flag_truthy stream).
  - apply bind_Ok_inv in E. destruct E as [r [s3 [Hcall E]]]. injection E as <- <-.
    apply external_exec_calls in Hcall.
    eexists _, _. split; [reflexivity |]. split; [exact Hcall |].
    split; [reflexivity |]. split; [reflexivity | now exists r].
  - apply bind_Ok_inv in E. destruct E as [r [s3 [Hcall E]]]. injection E as <- <-.
    apply external_exec_calls in Hcall.
    eexists _, _. split; [reflexivity |]. split; [exact Hcall |].
    split; [reflexivity |]. split; [reflexivity | now exists r].
Qed.

Lemma assemble_shaped llmResp c toolUsed0 g rt schema stream :
  final_call stream c llmResp ->
  shaped stream schema (Omi.assemble llmResp toolUsed0 g rt schema stream).
Proof.
  unfold final_call, shaped, Omi.assemble. cbn [resp r_object partialObjectStream].
  intros (_ & _ & H).
  destruct (flag_truthy stream); destruct H as [r ->]; exists r;
    destruct schema; repeat split.
Qed.

End Results.

(** X13.  A request that [generate] answers, in either text, ended with its
    final-generation call: that call is the last one recorded, it is a
    streaming call exactly when [stream] is true, and the result wraps its
    answer.  With [stream] true the result is a stream result, without an
    object, and with the partial object stream attached exactly when a schema
    was given; otherwise it is a text result, without a partial object
    stream, and with the object attached exactly when a schema was given.
    The files of the result are the files generated during the request. *)
Theorem result_follows_stream_and_schema :
  forall (W : Type) (collab : Collaborators W) (p : GenerateParams W)
         (s s' : State W) (res : GenerateResponse),
    Omi.generate p s = (Ok res, s') \/ OmiB.generate p s = (Ok res, s') ->
    shaped (p_stream p) (p_schema p) res
    /\ files res = genFiles s'
    /\ exists cs c,
        calls s' = (cs ++ [c])%list
        /\ stage_of c = FinalGeneration
        /\ is_stream_call c = flag_truthy (p_stream p).
Proof.
  intros W collab p s s' res [E | E].
  - unfold Omi.generate in E. cbv zeta in E.
    apply bind_Ok_inv in E. destruct E as [lastPromptContent [s0 [_ E]]].
    apply bind_Ok_inv in E. destruct E as [[] [s0' [_ E]]].
    apply bind_Ok_inv in E. destruct E as [pc [s1 [_ E]]].
    apply bind_Ok_inv in E. destruct E as [[[prompts4 toolUsed4] rt] [s2 [_ E]]].
    apply bind_Ok_inv in E. destruct E as [o [s3 [Hfinal E]]].
    apply Omi_finalStage_Ok_inv in Hfinal.
    destruct Hfinal as (llmResp & c & cs & -> & Hcalls & Hc).
    apply bind_Ok_inv in E. destruct E as [g [s4 [Hread E]]].
    injection Hread as <- <-. injection E as <- <-.
    split; [eapply assemble_shaped; exact Hc |]. split; [reflexivity |].
    exists cs, c. destruct Hc as (H1 & H2 & _). auto.
  - unfold OmiB.generate in E. cbv zeta in E.
    apply bind_Ok_inv in E. destruct E as [lastPromptContent [s0 [_ E]]].
    apply bind_Ok_inv in E. destruct E as [[] [s0' [_ E]]].
    apply bind_Ok_inv in E. destruct E as [pc0 [s1 [_ E]]].
    apply bind_Ok_inv in E. destruct E as [pc [s1' [_ E]]].
    apply bind_Ok_inv in E. destruct E as [[[prompts4 toolUsed4] rt] [s2 [_ E]]].
    apply bind_Ok_inv in E. destruct E as [o [s3 [Hfinal E]]].
    apply OmiB_finalStage_Ok_inv in Hfinal.
    destruct Hfinal as (llmResp & c & cs & -> & Hcalls & Hc).
    apply bind_Ok_inv in E. destruct E as [g [s4 [Hread E]]].
    injection Hread as <- <-. injection E as <- <-.
    split; [eapply assemble_shaped; exact Hc |]. split; [reflexivity |].
    exists cs, c. destruct Hc as (H1 & H2 & _). auto.
Qed.

Lemma result_follows_stream_and_schema_witness :
  let run := Omi.generate (collab := world_four) streaming_cross_check initial in
  match fst run with
  | Ok res =>
      shaped (p_stream streaming_cross_check) (p_schema streaming_cross_check) res
      /\ files res = genFiles (snd run)
      /\ exists cs c,
          calls (snd run) = (cs ++ [c])%list
          /\ stage_of c = FinalGeneration
          /\ is_stream_call c = flag_truthy (p_stream streaming_cross_check)
  | Throw _ => False
  end.
Proof.
  intros run.
  destruct (fst run) as [res |] eqn:E; [| vm_compute in E; discriminate].
  apply (result_follows_stream_and_schema nat world_four streaming_cross_check
           initial (snd run) res).
  left. rewrite <- E. apply surjective_pairing.
Defined.

Lemma last_Some_nonempty {A} (l : list A) :
  l <> [] -> exists m, last (map Some l) None = Some m.
Proof.
  induction l as [| x [| y l] IH]; intros H; [congruence | now exists x |].
  apply IH. discriminate.
Qed.

(** X14.  The list of generated files belongs to one request
    (index.ts:324, 953): in both texts the outcome of a request does not
    depend on the files generated during an earlier one, and for a request
    with at least one turn neither do the calls made nor the state left. *)
Theorem earlier_files_do_not_leak :
  forall (W : Type) (collab : Collaborators W) (p : GenerateParams W)
         (s : State W) (g : list Files),
    fst (Omi.generate p (with_genFiles g s)) = fst (Omi.generate p s)
    /\ fst (OmiB.generate p (with_genFiles g s)) = fst (OmiB.generate p s)
    /\ (promptsOf (p_prompt p) <> [] ->
        Omi.generate p (with_genFiles g s) = Omi.generate p s
        /\ OmiB.generate p (with_genFiles g s) = OmiB.generate p s).
Proof.
  intros W collab p s g.
  assert (H : last (map Some (promptsOf (p_prompt p))) None = None
              \/ exists m, last (map Some (promptsOf (p_prompt p))) None = Some m).
  { destruct (last (map Some (promptsOf (p_prompt p))) None) as [m |];
      [right; now exists m | now left]. }
  assert (Hsome : forall m, last (map Some (promptsOf (p_prompt p))) None = Some m ->
                  Omi.generate p (with_genFiles g s) = Omi.generate p s
                  /\ OmiB.generate p (with_genFiles g s) = OmiB.generate p s).
  { intros m Hm. unfold Omi.generate, OmiB.generate. cbv zeta. rewrite Hm.
    split; reflexivity. }
  split; [| split].
  - destruct H as [H | [m H]]; [| now rewrite (proj1 (Hsome m H))].
    unfold Omi.generate. cbv zeta. rewrite H. reflexivity.
  - destruct H as [H | [m H]]; [| now rewrite (proj2 (Hsome m H))].
    unfold OmiB.generate. cbv zeta. rewrite H. reflexivity.
  - intros Hne. destruct (last_Some_nonempty _ Hne) as [m Hm]. exact (Hsome m Hm).
Qed.

Lemma earlier_files_do_not_leak_witness :
  Omi.generate (collab := world_ok) two_plus_two (with_genFiles [imageFile "iVBORw0KGgo="] initial)
  = Omi.generate (collab := world_ok) two_plus_two initial.
Proof.
  apply (proj2 (proj2 (earlier_files_do_not_leak nat world_ok two_plus_two initial
                         [imageFile "iVBORw0KGgo="]))).
  discriminate.
Defined.

(** ** The models of the final generation *)

Section FinalModels.

Variable W : Type.
Context {collab : Collaborators W}.

Lemma spread_text_model_none opts : o_model (spread_text opts None) = o_model opts.
Proof. reflexivity. Qed.

Lemma spread_text_model_some opts (m : ModelRef) :
  o_model (spread_text opts (substitute "model" m)) = m.
Proof. reflexivity. Qed.

Lemma Omi_finalStage_attempts k e reasoningText stream schema system temperature topK topP
      prompts (s : State W) :
  own Omi.modelList k = Some e ->
  Omi.finalStage (get Omi.modelList k) reasoningText stream schema system temperature
                 topK topP prompts s
  = attempts "model"
      (fun args =>
         finalCall stream
           (spread_text (Omi.messagesOpts (Some (primaryModel reasoningText k e)) system
                                          (messageMap prompts false) schema
                                          temperature topK topP) args))
      None [Some (secondaryModel k)] s.
Proof.
  intros H. rewrite <- fallback_attempts.
  unfold Omi.finalStage, Omi.finalModel, primaryModel, finalCall.
  unfold Omi.modelList in H. cbn [own] in H.
  repeat match type of H with
         | (if String.eqb ?a k then _ else _) = _ =>
             destruct (String.eqb_spec a k) as [<- | _];
             [injection H as <-; destruct (Omi.opt_truthy reasoningText); reflexivity |]
         end.
  discriminate.
Qed.

Lemma OmiB_finalStage_attempts k e stream schema system temperature topK topP
      prompts (s : State W) :
  own OmiB.modelList k = Some e ->
  OmiB.finalStage (get OmiB.modelList k) stream schema system temperature
                  topK topP prompts s
  = attempts "model"
      (fun args =>
         finalCall stream
           (spread_text (Omi.messagesOpts (Some (modelProvider e)) system
                                          (messageMap prompts false) schema
                                          temperature topK topP) args))
      None [Some (secondaryModelB k)] s.
Proof.
  intros H. rewrite <- fallback_attempts.
  unfold OmiB.finalStage, finalCall.
  unfold OmiB.modelList in H. cbn [own] in H.
  repeat match type of H with
         | (if String.eqb ?a k then _ else _) = _ =>
             destruct (String.eqb_spec a k) as [<- | _];
             [injection H as <-; reflexivity |]
         end.
  discriminate.
Qed.

End FinalModels.

(** X15.  For a model [k] of the registry, the final generation is the
    completion call, streaming exactly when [stream] is true, made first on
    one model and, only when that call throws, on a second one, in the state
    the first call left; the stage returns the first answer it gets and
    throws the error of the second call.  The conversation, with its media,
    the system prompt, the schema and the sampling settings are the same in
    both calls.  The first model is the provider listed under [k]; in the text
    of index.ts:294-612 it is [gemini-1.5-flash] instead when the reasoning
    text is non-empty and [k] contains ["llama-3.3"].  The second model is
    [gemini-1.5-flash] when [k] is ["gpt-4o"] and [gpt-4o] otherwise, and, in
    the text of index.ts:924-1252, [gemini-1.5-flash-8b] when [k] is
    ["llama-3.3-70b-specdec"].  Each call is recorded, whatever its
    outcome. *)
Theorem final_generation_tries_the_chosen_model_then_one_fallback :
  forall (W : Type) (collab : Collaborators W) (k : string) (e : ModelEntry)
         (reasoningText : option string) (stream : option bool) (schema : option ZodSchema)
         (system : option string) (temperature : number) (topK topP : option number)
         (prompts : list GeneratePromptObj) (s : State W),
    let optsFor := fun m => Omi.messagesOpts (Some m) system (messageMap prompts false)
                                             schema temperature topK topP in
    (own Omi.modelList k = Some e ->
     Omi.finalStage (get Omi.modelList k) reasoningText stream schema system temperature
                    topK topP prompts s
     = first_then (finalCall stream (optsFor (primaryModel reasoningText k e)))
                  (finalCall stream (optsFor (secondaryModel k))) s)
    /\ (own OmiB.modelList k = Some e ->
        OmiB.finalStage (get OmiB.modelList k) stream schema system temperature
                        topK topP prompts s
        = first_then (finalCall stream (optsFor (modelProvider e)))
                     (finalCall stream (optsFor (secondaryModelB k))) s)
    /\ (forall opts (r : Result Resp) (s' : State W),
          finalCall stream opts s = (r, s') ->
          calls s' = (calls s ++ [finalCallOf stream opts])%list).
Proof.
  intros W collab k e reasoningText stream schema system temperature topK topP prompts
         s optsFor.
  split; [| split].
  - intros Hown. rewrite (Omi_finalStage_attempts W k e) by exact Hown.
    rewrite attempts_two. reflexivity.
  - intros Hown. rewrite (OmiB_finalStage_attempts W k e) by exact Hown.
    rewrite attempts_two. reflexivity.
  - intros opts r s'. unfold finalCall, finalCallOf, bind.
    destruct (flag_truthy stream);
      destruct (external_exec _ _ s) as [[v | err] s1] eqn:E; intros H;
      apply external_exec_calls in E; injection H as _ <-; exact E.
Qed.

Lemma final_generation_tries_the_chosen_model_then_one_fallback_witness :
  let optsFor := fun m => Omi.messagesOpts (Some m) None (messageMap [two_plus_two_turn] false)
                                           None 0%Q None None in
  Omi.finalStage (collab := world_ok) (get Omi.modelList "llama-3.3-70b-specdec")
                 (Some "2 + 2 = 4") None None None 0%Q None None
                 [two_plus_two_turn] initial
  = first_then (finalCall (collab := world_ok) None (optsFor (google "gemini-1.5-flash")))
               (finalCall (collab := world_ok) None (optsFor (openai "gpt-4o"))) initial.
Proof.
  intros optsFor.
  exact (proj1 (final_generation_tries_the_chosen_model_then_one_fallback
                  nat world_ok "llama-3.3-70b-specdec" _ (Some "2 + 2 = 4") None None None
                  0%Q None None [two_plus_two_turn] initial)
               eq_refl).
Defined.

(** ** The record of tool use *)

Lemma callsWithResults_from_calls (cs : list ToolCall) (rs : list ToolResult) :
  forall i l, callsWithResults_from cs rs i = Ok l -> map fst l = cs.
Proof.
  induction cs as [| c cs IH]; intros i l; cbn [callsWithResults_from]; intros H.
  - now injection H as <-.
  - destruct (nth_error rs i) as [r |]; [| discriminate].
    destruct (callsWithResults_from cs rs (S i)) as [l' |] eqn:E; [| discriminate].
    injection H as <-. cbn [map fst]. now rewrite (IH _ _ E).
Qed.

Lemma allToolCallsOf_calls (steps : list Step) :
  forall l, allToolCallsOf steps = Ok l -> map fst l = callsOf steps.
Proof.
  induction steps as [| s steps IH]; intros l; cbn [allToolCallsOf]; intros H.
  - now injection H as <-.
  - destruct (callsWithResults_from (toolCalls s) (toolResults s) 0) as [l1 |] eqn:E1;
      [| discriminate].
    destruct (allToolCallsOf steps) as [l2 |]; [| discriminate].
    injection H as <-. rewrite map_app, (callsWithResults_from_calls _ _ _ _ E1), (IH l2 eq_refl).
    reflexivity.
Qed.

Lemma call_entries (l : list (ToolCall * json)) :
  Forall is_call_entry (map toolUsedOfCall l).
Proof. apply Forall_map, Forall_forall. intros t _. reflexivity. Qed.

Lemma call_entry_names (l : list (ToolCall * json)) :
  map tu_name (map toolUsedOfCall l) = map toolName (map fst l).
Proof. rewrite !map_map. reflexivity. Qed.

Section ToolUse.

Variable W : Type.
Context {collab : Collaborators W}.

(** The attempt of a fallback that succeeded, and the state it was made in. *)
Lemma attempts_Ok_trace {T G} (P : Call -> Prop) (key : string)
      (genFunc : Subst T -> Async W G) (rest : list T) :
  (forall a, emits P (genFunc a)) ->
  forall (a : Subst T) (s s' : State W) (o : option G),
    attempts key genFunc a rest s = (Ok o, s') ->
    exists b sa g, genFunc b sa = (Ok g, s') /\ o = Some g
                   /\ exists failed, calls sa = (calls s ++ failed)%list /\ Forall P failed.
Proof.
  intros Hg. induction rest as [| c rest IH]; intros a s s' o; cbn [attempts];
    destruct (genFunc a s) as [[g | e] s1] eqn:E; intros H.
  - injection H as <- <-. exists a, s, g. repeat split; [exact E |].
    exists []. now rewrite app_nil_r.
  - discriminate.
  - injection H as <- <-. exists a, s, g. repeat split; [exact E |].
    exists []. now rewrite app_nil_r.
  - destruct (IH _ _ _ _ H) as (b & sa & g & Hb & Ho & failed & Hcalls & Hall).
    destruct (Hg a s _ _ E) as (cs1 & Hcs1 & Hall1).
    exists b, sa, g. repeat split; [exact Hb | exact Ho |].
    exists (cs1 ++ failed)%list. split; [| now apply Forall_app].
    rewrite Hcalls, Hcs1, <- app_assoc. reflexivity.
Qed.

Lemma webSearchStage_records web pc text prompts toolUsed0 prompts' toolUsed'
      (s s' : State W) :
  Omi.webSearchStage web pc text prompts toolUsed0 s = (Ok (prompts', toolUsed'), s')
  \/ OmiB.webSearchStage web pc text prompts toolUsed0 s = (Ok (prompts', toolUsed'), s') ->
  exists searches,
    toolUsed' = (toolUsed0 ++ searches)%list
    /\ search_recorded web pc text s searches s'
    /\ Forall is_search_entry searches.
Proof.
  unfold Omi.webSearchStage, OmiB.webSearchStage, search_recorded, webSearchRuns, searchOn.
  intros E.
  destruct text as [q |]; [destruct (JS.truthy q && Omi.webSearchGuard _ pc) |].
  - destruct E as [E | E]; apply bind_Ok_inv in E; destruct E as [sr [s0 [Hcall E]]];
      cbv zeta in E; injection E as _ <- <-;
      (eexists; split; [reflexivity |]; split;
       [exists q, sr; repeat split; exact Hcall
       | constructor; [split; reflexivity | constructor]]).
  - destruct E as [E | E]; injection E as _ <- <-; exists []; rewrite app_nil_r;
      repeat split; constructor.
  - destruct E as [E | E]; injection E as _ <- <-; exists []; rewrite app_nil_r;
      repeat split; constructor.
Qed.

Lemma Omi_toolStage_records autoTool pc system temperature topK topP allTools
      latestTextPrompt latestPromptFiles prompts toolUsed0 prompts' toolUsed' toolText
      (s s' : State W) :
  Omi.toolStage autoTool pc system temperature topK topP allTools
                latestTextPrompt latestPromptFiles prompts toolUsed0 s
  = (Ok (prompts', toolUsed', toolText), s') ->
  exists entries,
    toolUsed' = (toolUsed0 ++ entries)%list
    /\ calls_recorded (Omi.toolGuard autoTool pc) allTools s entries s'
    /\ Forall is_call_entry entries.
Proof.
  unfold Omi.toolStage, calls_recorded. intros E. destruct (Omi.toolGuard autoTool pc).
  - apply bind_Ok_inv in E. destruct E as [toolResult [s0 [Hfb E]]]. cbv zeta in E.
    apply bind_Ok_inv in E. destruct E as [l [s1 [Hl E]]].
    injection E as _ <- _ <-.
    rewrite fallback_attempts in Hfb.
    apply (attempts_Ok_trace (fun c => stage_of c = ToolCalling)) in Hfb;
      [| intros a; cbv zeta; apply emits_external_exec; reflexivity].
    destruct Hfb as (b & sa & r & Hb & -> & Hretried).
    cbv zeta in Hb. cbn [of_result] in Hl.
    destruct (allToolCallsOf (steps r)) as [l0 |] eqn:Hpairs; [| discriminate].
    injection Hl as <- <-.
    eexists. split; [reflexivity |]. split; [| apply call_entries].
    eexists _, sa, r, l0. split; [exact Hretried |]. split; [exact Hb |].
    split; [exact Hpairs |]. split; [reflexivity |].
    now rewrite call_entry_names, (allToolCallsOf_calls _ _ Hpairs).
  - injection E as _ <- _ <-. exists []. rewrite app_nil_r. repeat split. constructor.
Qed.

Lemma OmiB_toolStage_records autoTool pc system temperature topK topP tools
      latestTextPrompt latestPromptFiles prompts toolUsed0 prompts' toolUsed'
      (s s' : State W) :
  OmiB.toolStage autoTool pc system temperature topK topP tools
                 latestTextPrompt latestPromptFiles prompts toolUsed0 s
  = (Ok (prompts', toolUsed'), s') ->
  exists entries,
    toolUsed' = (toolUsed0 ++ entries)%list
    /\ calls_recorded (Omi.toolGuard autoTool pc) tools s entries s'
    /\ Forall is_call_entry entries.
Proof.
  unfold OmiB.toolStage, calls_recorded. intros E. destruct (Omi.toolGuard autoTool pc).
  - apply bind_Ok_inv in E. destruct E as [toolResult [s0 [Hfb E]]]. cbv zeta in E.
    apply bind_Ok_inv in E. destruct E as [l [s1 [Hl E]]].
    injection E as _ <- <-.
    rewrite fallback_attempts in Hfb.
    apply (attempts_Ok_trace (fun c => stage_of c = ToolCalling)) in Hfb;
      [| intros a; apply emits_bind; [apply emits_of_result |];
         intros model; cbv zeta; apply emits_external_exec; reflexivity].
    destruct Hfb as (b & sa & r & Hb & -> & Hretried).
    apply bind_Ok_inv in Hb. destruct Hb as [model [sa' [Hmodel Hb]]].
    assert (sa' = sa) by (destruct (OmiB.providerOf "gpt-4o"); [now injection Hmodel | discriminate]).
    subst sa'. cbv zeta in Hb. cbn [of_result] in Hl.
    destruct (allToolCallsOf (steps r)) as [l0 |] eqn:Hpairs; [| discriminate].
    injection Hl as <- <-.
    eexists. split; [reflexivity |]. split; [| apply call_entries].
    eexists _, sa, r, l0. split; [exact Hretried |]. split; [exact Hb |].
    split; [exact Hpairs |]. split; [reflexivity |].
    now rewrite call_entry_names, (allToolCallsOf_calls _ _ Hpairs).
  - injection E as _ <- <-. exists []. rewrite app_nil_r. repeat split. constructor.
Qed.

End ToolUse.

(** X16.  When the augmentation stages complete, in either text, the
    record of tool use is the one they were given, followed by the entry of
    the web search and then by the entries of the tool-calling sub-run.  The
    search entry is present exactly when the search was made (the latest turn
    has a first text part that is non-empty and the guard of the stage
    holds); it is named ["web_search"], of type ["tool-context-use"], and
    carries the query and the whole answer of the search made in the state
    the stages were entered in.  When the tool-calling sub-run is made, its
    entries are those of the tool calls in the answer of its last completion
    call, paired with their results by [allToolCallsOf]: one entry of type
    ["tool-call"] per call, in order and under the name of the call; when it
    is skipped there is none.  The reasoning and the multi-model stages
    record nothing. *)
Theorem tool_use_lists_the_search_then_the_calls :
  forall (W : Type) (collab : Collaborators W) (p : GenerateParams W) (pc : PreConfig)
         (lastPromptContent : Content) (tools : Obj (CoreTool W))
         (prompts prompts' : list GeneratePromptObj) (toolUsed0 toolUsed' : list ToolUsed)
         (rt : option string) (s s' : State W),
    Omi.augment p pc lastPromptContent tools prompts toolUsed0 s
    = (Ok (prompts', toolUsed', rt), s')
    \/ OmiB.augment p pc lastPromptContent tools prompts toolUsed0 s
       = (Ok (prompts', toolUsed', rt), s') ->
    exists searches entries s1 s2,
      toolUsed' = (toolUsed0 ++ searches ++ entries)%list
      /\ search_recorded (webOf p) pc (latestTextPromptOf lastPromptContent) s searches s1
      /\ calls_recorded (Omi.toolGuard (autoToolOf (p_autoTool p)) pc) tools s1 entries s2
      /\ (exists later, calls s' = (calls s2 ++ later)%list
                        /\ Forall (fun c => stage_of c = Reasoning \/ stage_of c = MultiLLM)
                                  later)
      /\ Forall is_search_entry searches
      /\ Forall is_call_entry entries.
Proof.
  intros W collab p pc lastPromptContent tools prompts prompts' toolUsed0 toolUsed' rt s s'
         [E | E].
  - unfold Omi.augment in E. cbv zeta in E.
    apply bind_Ok_inv in E. destruct E as [[prompts1 toolUsed1] [s1 [Hweb E]]].
    destruct (webSearchStage_records W _ _ _ _ _ _ _ _ _ (or_introl Hweb))
      as (searches & -> & Hs & Hse).
    apply bind_Ok_inv in E. destruct E as [[[prompts2 toolUsed2] toolText] [s2 [Htool E]]].
    apply Omi_toolStage_records in Htool. destruct Htool as (entries & -> & He & Hce).
    apply bind_Ok_inv in E. destruct E as [[prompts3 rt3] [s3 [Hreason E]]].
    apply bind_Ok_inv in E. destruct E as [prompts4 [s4 [Hmulti E]]].
    injection E as _ <- _ <-.
    exists searches, entries, s1, s2. rewrite <- app_assoc.
    split; [reflexivity |]. split; [exact Hs |]. split; [exact He |].
    split; [| split; [exact Hse | exact Hce]].
    destruct (emits_reasoningStage W _ _ _ _ _ _ _ _ _ _ Hreason) as (c3 & Hc3 & Hall3).
    destruct (emits_multiLLMStage W _ _ _ _ _ _ _ _ _ Hmulti) as (c4 & Hc4 & Hall4).
    exists (c3 ++ c4)%list. split; [rewrite Hc4, Hc3, <- app_assoc; reflexivity |].
    apply Forall_app. split.
    + eapply Forall_impl; [| exact Hall3]. intros c [Hc _]. now left.
    + eapply Forall_impl; [| exact Hall4]. intros c [Hc _]. now right.
  - unfold OmiB.augment in E. cbv zeta in E.
    apply bind_Ok_inv in E. destruct E as [[prompts1 toolUsed1] [s1 [Hweb E]]].
    destruct (webSearchStage_records W _ _ _ _ _ _ _ _ _ (or_intror Hweb))
      as (searches & -> & Hs & Hse).
    apply bind_Ok_inv in E. destruct E as [[prompts2 toolUsed2] [s2 [Htool E]]].
    apply OmiB_toolStage_records in Htool. destruct Htool as (entries & -> & He & Hce).
    apply bind_Ok_inv in E. destruct E as [[prompts3 rt3] [s3 [Hreason E]]].
    apply bind_Ok_inv in E. destruct E as [prompts4 [s4 [Hmulti E]]].
    injection E as _ <- _ <-.
    exists searches, entries, s1, s2. rewrite <- app_assoc.
    split; [reflexivity |]. split; [exact Hs |]. split; [exact He |].
    split; [| split; [exact Hse | exact Hce]].
    destruct (emitsB_reasoningStage W _ _ _ _ _ _ _ _ _ _ Hreason) as (c3 & Hc3 & Hall3).
    destruct (addsB_multiLLMStage W _ _ _ _ _ _ _ _ _ _ Hmulti) as (c4 & Hc4 & Hall4 & _).
    exists (c3 ++ c4)%list. split; [rewrite Hc4, Hc3, <- app_assoc; reflexivity |].
    apply Forall_app. split.
    + eapply Forall_impl; [| exact Hall3]. intros c [Hc _]. now left.
    + eapply Forall_impl; [| exact Hall4]. intros c Hc. now right.
Qed.

Lemma tool_use_lists_the_search_then_the_calls_witness :
  let run := OmiB.augment (collab := world_four) everything all_on
                          (Text "How many r's are in strawberry?")
                          (OmiB.toolsOf (collab := world_four) [])
                          [two_plus_two_turn] [] initial in
  match fst run with
  | Ok (_, toolUsed', _) =>
      exists searches entries s1 s2,
        toolUsed' = ([] ++ searches ++ entries)%list
        /\ search_recorded (collab := world_four) (Some true) all_on
             (Some "How many r's are in strawberry?") initial searches s1
        /\ calls_recorded (collab := world_four) true (OmiB.toolsOf (collab := world_four) [])
                          s1 entries s2
        /\ (exists later, calls (snd run) = (calls s2 ++ later)%list
                          /\ Forall (fun c => stage_of c = Reasoning \/ stage_of c = MultiLLM)
                                    later)
        /\ Forall is_search_entry searches
        /\ Forall is_call_entry entries
  | Throw _ => False
  end.
Proof.
  intros run.
  destruct (fst run) as [[[prompts' toolUsed'] rt] |] eqn:E; [| vm_compute in E; discriminate].
  apply (tool_use_lists_the_search_then_the_calls nat world_four everything all_on
           (Text "How many r's are in strawberry?") (OmiB.toolsOf (collab := world_four) [])
           [two_plus_two_turn] prompts' [] toolUsed' rt initial (snd run)).
  right. rewrite <- E. apply surjective_pairing.
Defined.

(** ** A Planner that answers without an object *)

Lemma bind_step {St A B} (m : M St A) (k : A -> M St B) (s s1 : St) (a : A) :
  m s = (Ok a, s1) -> bind m k s = k a s1.
Proof. unfold bind. now intros ->. Qed.

Lemma bind_throw {St A B} (m : M St A) (k : A -> M St B) (s s1 : St) (e : exn) :
  m s = (Throw e, s1) -> bind m k s = (Throw e, s1).
Proof. unfold bind. now intros ->. Qed.

Lemma last_Some_app {A} (init : list A) (x : A) :
  last (map Some (init ++ [x])) None = Some x.
Proof. rewrite map_app. apply last_last. Qed.

Section PlannerAnswer.

Variable W : Type.
Context {collab : Collaborators W}.

Lemma Omi_decidePreConfig_first tools prompts (s : State W) g w1 :
  generateObject (plannerOpts (groq "llama-3.3-70b-specdec") tools prompts) (world s)
  = (Ok g, w1) ->
  Omi.decidePreConfig Omi.modelList tools prompts s
  = (decided g,
     after s w1 [CallGenerateObject
                   (plannerOpts (groq "llama-3.3-70b-specdec") tools prompts)]).
Proof.
  intros H. unfold Omi.decidePreConfig. cbv zeta. unfold bind at 1.
  rewrite fallback_attempts.
  match goal with |- context [attempts _ ?g _ _ _] => set (genFunc := g) end.
  rewrite attempts_two.
  assert (H1 : genFunc None s
               = (Ok g, after s w1 [CallGenerateObject
                   (plannerOpts (groq "llama-3.3-70b-specdec") tools prompts)])).
  { subst genFunc. cbv beta. unfold bind at 1. cbn [get own Omi.modelList String.eqb Ascii.eqb
      Bool.eqb ret]. unfold external. cbv zeta.
    change (spread_object _ None) with (plannerOpts (groq "llama-3.3-70b-specdec") tools prompts).
    rewrite H. reflexivity. }
  rewrite H1. unfold decided. destruct g as [[pc |]]; reflexivity.
Qed.

Lemma OmiB_planner_first tools prompts (s : State W) g w1 :
  generateObject (plannerOptsB (groq "llama-3.3-70b-specdec") tools prompts) (world s)
  = (Ok g, w1) ->
  OmiB.planner tools prompts s
  = (Ok (object g),
     after s w1 [CallGenerateObject
                   (plannerOptsB (groq "llama-3.3-70b-specdec") tools prompts)]).
Proof.
  intros H. unfold OmiB.planner. cbv zeta.
  rewrite (bind_step _ _ s s (Some (google_with_settings "gemini-1.5-flash-8b")))
    by reflexivity.
  unfold bind at 1. rewrite fallback_attempts.
  match goal with |- context [attempts _ ?g _ _ _] => set (genFunc := g) end.
  rewrite attempts_two.
  assert (H1 : genFunc None s
               = (Ok g, after s w1 [CallGenerateObject
                   (plannerOptsB (groq "llama-3.3-70b-specdec") tools prompts)])).
  { subst genFunc. cbv beta.
    rewrite (bind_step _ _ s s (Some (groq "llama-3.3-70b-specdec"))) by reflexivity.
    unfold external. cbv zeta.
    change (spread_object _ None) with (plannerOptsB (groq "llama-3.3-70b-specdec") tools prompts).
    rewrite H. reflexivity. }
  rewrite H1. reflexivity.
Qed.

End PlannerAnswer.

(** X17.  A request with at least one turn asks the Planner before anything
    else.  When the first Planner call is answered without an object the
    request ends there, with that single call made and no generated file: in
    the text of index.ts:294-612 with
    [Error("Failed to decide preConfigModel")], in the text of
    index.ts:924-1252, where the absent object is read for its [model], with
    a [TypeError].  The Planner's prompt lists the names of the tools in the
    reverse of the order of the tool table in the first text and in its
    order in the second. *)
Theorem planner_answer_without_object_ends_the_request :
  forall (W : Type) (collab : Collaborators W) (p : GenerateParams W) (s : State W)
         (init : list GeneratePromptObj) (lastTurn : GeneratePromptObj)
         (g : GenerateObjectResult) (w1 : W),
    promptsOf (p_prompt p) = (init ++ [lastTurn])%list ->
    object g = None ->
    let files := latestPromptFilesOf (content lastTurn) in
    let first := plannerOpts (groq "llama-3.3-70b-specdec")
                             (allToolsOf (p_tools p) files) (init ++ [lastTurn]) in
    let firstB := plannerOptsB (groq "llama-3.3-70b-specdec")
                               (OmiB.toolsOf files) (init ++ [lastTurn]) in
    (generateObject first (world s) = (Ok g, w1) ->
     Omi.generate p s
     = (Throw (Error "Failed to decide preConfigModel"),
        after_reset s w1 (CallGenerateObject first)))
    /\ (generateObject firstB (world s) = (Ok g, w1) ->
        OmiB.generate p s
        = (Throw (TypeError "Cannot read properties of undefined (reading 'model')"),
           after_reset s w1 (CallGenerateObject firstB))).
Proof.
  intros W collab p s init lastTurn g w1 Hprompts Hobject files first firstB.
  split; intros H.
  - unfold Omi.generate. cbv zeta. rewrite Hprompts, last_Some_app.
    rewrite (bind_step _ _ s s (content lastTurn)) by reflexivity.
    rewrite (bind_step _ _ s (with_genFiles [] s) tt) by reflexivity.
    apply bind_throw.
    rewrite (Omi_decidePreConfig_first W _ _ (with_genFiles [] s) g w1) by exact H.
    unfold decided. rewrite Hobject. reflexivity.
  - unfold OmiB.generate. cbv zeta. rewrite Hprompts, last_Some_app.
    rewrite (bind_step _ _ s s (content lastTurn)) by reflexivity.
    rewrite (bind_step _ _ s (with_genFiles [] s) tt) by reflexivity.
    rewrite (bind_step _ _ (with_genFiles [] s)
                       (after (with_genFiles [] s) w1 [CallGenerateObject firstB]) None).
    + reflexivity.
    + rewrite (OmiB_planner_first W _ _ (with_genFiles [] s) g w1) by exact H.
      now rewrite Hobject.
Qed.

Lemma planner_answer_without_object_ends_the_request_witness :
  fst (Omi.generate (collab := world_no_object) two_plus_two initial)
  = Throw (Error "Failed to decide preConfigModel")
  /\ fst (OmiB.generate (collab := world_no_object) two_plus_two initial)
     = Throw (TypeError "Cannot read properties of undefined (reading 'model')").
Proof.
  pose proof (planner_answer_without_object_ends_the_request nat world_no_object
                two_plus_two initial [] two_plus_two_turn {| object := None |} 1
                eq_refl eq_refl) as [H1 H2].
  split.
  - rewrite H1; reflexivity.
  - rewrite H2; reflexivity.
Defined.

(** ** The models the sub-runs ask *)

Section Asked.

Variable W : Type.
Context {collab : Collaborators W}.

Lemma adds_ret_bind {A B} (R : list Call -> Prop) (a : A) (k : A -> Async W B) :
  adds R (k a) -> adds R (bind (ret a) k).
Proof. intros H s r s' E. exact (H s r s' E). Qed.

Lemma adds_one_call {A} (st : Stage) (opts : TextOpts) (f : Exec W A) :
  adds (one_call st (o_model opts)) (external_exec (CallGenerateText st opts) f).
Proof.
  intros s r s' E. apply external_exec_calls in E.
  eexists. split; [exact E |]. eexists. repeat split.
Qed.

Lemma adds_attempts_asked {G} (st : Stage) (genFunc : Subst ModelRef -> Async W G)
      (model_of : Subst ModelRef -> ModelRef) :
  (forall a, adds (one_call st (model_of a)) (genFunc a)) ->
  forall rest a,
    adds (asked st (model_of a
                      :: map (fun c => model_of (substitute "model" c)) rest))
         (attempts "model" genFunc a rest).
Proof.
  intros Hg. induction rest as [| c rest IH]; intros a s r s' E; cbn [attempts] in E;
    destruct (genFunc a s) as [[resp | error] s1] eqn:Ea;
    destruct (Hg a s _ s1 Ea) as (cs1 & Hcs1 & c1 & -> & Hst & Hm).
  - injection E as <- <-. exists [c1]. split; [exact Hcs1 |].
    split; [now constructor |]. exists 1. cbn. rewrite Hm. split; [lia | reflexivity].
  - injection E as <- <-. exists [c1]. split; [exact Hcs1 |].
    split; [now constructor |]. exists 1. cbn. rewrite Hm. split; [lia | reflexivity].
  - injection E as <- <-. exists [c1]. split; [exact Hcs1 |].
    split; [now constructor |]. exists 1. cbn [length map firstn text_model].
    rewrite Hm. split; [lia | reflexivity].
  - destruct (IH _ _ _ _ E) as (cs2 & Hcs2 & Hall & n & Hn & Hmodels).
    exists (c1 :: cs2). split; [rewrite Hcs2, Hcs1, <- app_assoc; reflexivity |].
    split; [now constructor |]. exists (S n). cbn [length map firstn] in *.
    rewrite Hm, Hmodels. split; [lia | reflexivity].
Qed.

Lemma adds_fallback_asked {G} (st : Stage) (base : TextOpts) (cands : list ModelRef)
      (genFunc : Subst ModelRef -> Async W G) :
  (forall a, adds (one_call st (o_model (spread_text base a))) (genFunc a)) ->
  adds (asked st (o_model base :: cands)) (fallback "model" cands genFunc).
Proof.
  intros Hg s r s' E. rewrite fallback_attempts in E.
  pose proof (adds_attempts_asked st genFunc (fun a => o_model (spread_text base a))
                Hg cands None s r s' E) as H.
  cbn beta in H. rewrite spread_text_model_none in H.
  rewrite (map_ext _ (fun c => c)) in H by (intros c; apply spread_text_model_some).
  now rewrite map_id in H.
Qed.

End Asked.

(** X18.  The tool-calling and the reasoning sub-runs make no call when
    their guard is false.  When it holds they make at least one call and
    ask the first models of a fixed list, in order and one call each: in the
    text of index.ts:294-612, [gpt-4o-mini] and then
    [llama-3.3-70b-versatile] for the tools, [o3-mini] and then
    [DeepSeek-R1] for the reasoning; in the text of index.ts:924-1252,
    [gpt-4o], [llama-3.3-70b-versatile] and [gpt-4o-mini] for the tools,
    [deepseek-r1-distill-llama-70b], [DeepSeek-R1] and [deepseek-reasoner]
    for the reasoning. *)
Theorem sub_runs_ask_their_models_in_order :
  forall (W : Type) (collab : Collaborators W) (autoTool : bool) (reasoning : option bool)
         (pc : PreConfig) (system : option string) (temperature : number)
         (topK topP : option number) (tools : Obj (CoreTool W))
         (latestTextPrompt : option string) (latestPromptFiles : list PromptFile)
         (prompts : list GeneratePromptObj) (toolUsed0 : list ToolUsed),
    adds (asks (Omi.toolGuard autoTool pc) ToolCalling
               [openai "gpt-4o-mini"; groq "llama-3.3-70b-versatile"])
         (Omi.toolStage autoTool pc system temperature topK topP tools
                        latestTextPrompt latestPromptFiles prompts toolUsed0)
    /\ adds (asks (Omi.reasoningGuard reasoning pc) Reasoning
                  [openai "o3-mini"; deepinfra "deepseek-ai/DeepSeek-R1"])
            (Omi.reasoningStage reasoning pc system temperature topK topP prompts)
    /\ adds (asks (Omi.toolGuard autoTool pc) ToolCalling
                  [openai "gpt-4o"; groq "llama-3.3-70b-versatile"; openai "gpt-4o-mini"])
            (OmiB.toolStage autoTool pc system temperature topK topP tools
                            latestTextPrompt latestPromptFiles prompts toolUsed0)
    /\ adds (asks (Omi.reasoningGuard reasoning pc) Reasoning
                  [groq "deepseek-r1-distill-llama-70b"; deepinfra "deepseek-ai/DeepSeek-R1";
                   deepseek "deepseek-reasoner"])
            (OmiB.reasoningStage reasoning pc system temperature topK topP prompts).
Proof.
  intros W collab autoTool reasoning pc system temperature topK topP tools
         latestTextPrompt latestPromptFiles prompts toolUsed0.
  split; [| split; [| split]].
  - unfold Omi.toolStage, asks. destruct (Omi.toolGuard autoTool pc); [| apply adds_silent_ret].
    apply adds_bind_silent; [| intros ?; silent_auto].
    apply (adds_fallback_asked W ToolCalling
             (Omi.toolOpts system temperature topK topP tools latestTextPrompt
                           latestPromptFiles)).
    intros a. cbv zeta. apply adds_one_call.
  - unfold Omi.reasoningStage, asks.
    destruct (Omi.reasoningGuard reasoning pc); [| apply adds_silent_ret].
    apply adds_bind_silent; [| intros ?; silent_auto].
    apply (adds_fallback_asked W Reasoning
             (Omi.messagesOpts (Some (openai "o3-mini")) system (messageMap prompts true)
                               None temperature topK topP)).
    intros a. cbv zeta. apply adds_one_call.
  - unfold OmiB.toolStage, asks. destruct (Omi.toolGuard autoTool pc); [| apply adds_silent_ret].
    apply adds_bind_silent; [| intros ?; silent_auto].
    apply (adds_fallback_asked W ToolCalling
             {| o_model := Some (openai "gpt-4o");
                o_prompt := toolPromptOf latestTextPrompt latestPromptFiles;
                o_system := system;
                o_messages := None;
                o_tools := Some (keys tools);
                o_toolChoice := Some "auto";
                o_maxSteps := Some 5%Z;
                o_experimental_output := None;
                o_temperature := temperature;
                o_topK := topK;
                o_topP := topP |}).
    intros a. change (OmiB.providerOf "gpt-4o") with (@Ok ModelRef (Some (openai "gpt-4o"))).
    apply adds_ret_bind. cbv zeta. apply adds_one_call.
  - unfold OmiB.reasoningStage, asks.
    destruct (Omi.reasoningGuard reasoning pc); [| apply adds_silent_ret].
    apply adds_bind_silent; [| intros ?; silent_auto].
    apply (adds_fallback_asked W Reasoning
             (Omi.messagesOpts (Some (groq "deepseek-r1-distill-llama-70b")) system
                               (messageMap prompts true) None temperature topK topP)).
    intros a. cbv zeta. apply adds_one_call.
Qed.

(** * The caller's flags and the reasoning text *)

(** ** Forcing tool use *)

Section ForcedTools.

Variable W : Type.
Context {collab : Collaborators W}.

Lemma from_stage_no_tool_call (st : Stage) (t : number) :
  st <> ToolCalling -> forall c, from_stage st t c -> stage_of c <> ToolCalling.
Proof. intros Hne c [Hc _]. now rewrite Hc. Qed.

(** What [generate] does once the Planner has decided, in the text of
    index.ts:294-612: with [autoTool] true and a decision without tool use,
    no call of the tool-calling sub-run is made. *)
Lemma Omi_no_tool_call_after_planner (p : GenerateParams W) (pc : PreConfig)
      (lastPromptContent : Content) (allTools : Obj (CoreTool W))
      (prompts : list GeneratePromptObj) (toolUsed0 : list ToolUsed)
      {B} (k : list GeneratePromptObj * list ToolUsed * option string -> Async W B) :
  p_autoTool p = Some true -> pc_use_tool pc = false ->
  (forall a, emits (fun c => stage_of c <> ToolCalling) (k a)) ->
  emits (fun c => stage_of c <> ToolCalling)
        (bind (Omi.augment p pc lastPromptContent allTools prompts toolUsed0) k).
Proof.
  intros Hauto Huse Hk. apply emits_bind; [| exact Hk].
  unfold Omi.augment. cbv zeta. rewrite Hauto.
  apply emits_bind; [| intros [prompts1 toolUsed1]].
  { eapply emits_weaken; [| apply (emits_webSearchStage W 0%Q)].
    apply from_stage_no_tool_call; discriminate. }
  apply emits_bind; [| intros [[prompts2 toolUsed2] toolText]].
  { unfold Omi.toolStage, Omi.toolGuard. rewrite Huse. apply emits_ret. }
  apply emits_bind; [| intros [prompts3 reasoningText]].
  { eapply emits_weaken; [| apply emits_reasoningStage].
    apply from_stage_no_tool_call; discriminate. }
  apply emits_bind; [| intros prompts4; apply emits_ret].
  eapply emits_weaken; [| apply emits_multiLLMStage].
  apply from_stage_no_tool_call; discriminate.
Qed.

Lemma OmiB_no_tool_call_after_planner (p : GenerateParams W) (pc : PreConfig)
      (lastPromptContent : Content) (tools : Obj (CoreTool W))
      (prompts : list GeneratePromptObj) (toolUsed0 : list ToolUsed)
      {B} (k : list GeneratePromptObj * list ToolUsed * option string -> Async W B) :
  p_autoTool p = Some true -> pc_use_tool pc = false ->
  (forall a, emits (fun c => stage_of c <> ToolCalling) (k a)) ->
  emits (fun c => stage_of c <> ToolCalling)
        (bind (OmiB.augment p pc lastPromptContent tools prompts toolUsed0) k).
Proof.
  intros Hauto Huse Hk. apply emits_bind; [| exact Hk].
  unfold OmiB.augment. cbv zeta. rewrite Hauto.
  apply emits_bind; [| intros [prompts1 toolUsed1]].
  { eapply emits_weaken; [| apply (emitsB_webSearchStage W 0%Q)].
    apply from_stage_no_tool_call; discriminate. }
  apply emits_bind; [| intros [prompts2 toolUsed2]].
  { unfold OmiB.toolStage, Omi.toolGuard. rewrite Huse. apply emits_ret. }
  apply emits_bind; [| intros [prompts3 reasoningText]].
  { eapply emits_weaken; [| apply emitsB_reasoningStage].
    apply from_stage_no_tool_call; discriminate. }
  apply emits_bind; [| intros prompts4].
  - unfold OmiB.multiLLMStage. destruct (OmiB.multiLLMGuard _ _); [| apply emits_ret].
    apply emits_bind; [| intros ?; apply emits_ret].
    apply emits_allSettled, Forall_map, Forall_forall. intros m _.
    apply emits_external_exec. discriminate.
  - apply emits_ret.
Qed.

End ForcedTools.

(** C5.  The caller sets [autoTool] to true and the Planner, asked first,
    decides against tool use.  Then no call of the tool-calling sub-run is
    made in the request, in either text of [generate]: under the guard
    [preConfigModel.use_tool && autoTool] (index.ts:465, 1102) an explicit
    true does not force the stage, it defers to the Planner as an unset flag
    does.  The guards of web search and of reasoning (index.ts:431, 513) do
    let an explicit true force the stage against the Planner: with
    [contextTool.web] true the search is made whenever [latestTextPrompt]
    (the content of the latest turn when it is a string, the data of its
    first text part otherwise) is a non-empty string, and with [reasoning]
    true the reasoning sub-run is made, whatever the Planner decided. *)
Theorem forcing_tool_use_defers_to_the_planner :
  forall (W : Type) (collab : Collaborators W) (p : GenerateParams W) (s : State W)
         (init : list GeneratePromptObj) (lastTurn : GeneratePromptObj)
         (g : GenerateObjectResult) (pc : PreConfig) (w1 : W),
    p_autoTool p = Some true ->
    promptsOf (p_prompt p) = (init ++ [lastTurn])%list ->
    object g = Some pc ->
    pc_use_tool pc = false ->
    let files := latestPromptFilesOf (content lastTurn) in
    let first := plannerOpts (groq "llama-3.3-70b-specdec")
                             (allToolsOf (p_tools p) files) (init ++ [lastTurn]) in
    let firstB := plannerOptsB (groq "llama-3.3-70b-specdec")
                               (OmiB.toolsOf files) (init ++ [lastTurn]) in
    (generateObject first (world s) = (Ok g, w1) ->
     exists cs, calls (snd (Omi.generate p s))
                = (calls s ++ CallGenerateObject first :: cs)%list
                /\ no_tool_call cs)
    /\ (generateObject firstB (world s) = (Ok g, w1) ->
        exists cs, calls (snd (OmiB.generate p s))
                   = (calls s ++ CallGenerateObject firstB :: cs)%list
                   /\ no_tool_call cs)
    /\ (forall q prompts toolUsed0, q <> "" ->
          begins_with (CallWebSearch {| query := q; ai_overview := false |})
            (Omi.webSearchStage (Some true) pc (Some q) prompts toolUsed0))
    /\ (forall system temperature topK topP prompts,
          begins_with
            (CallGenerateText Reasoning
               (Omi.messagesOpts (Some (openai "o3-mini")) system
                                 (messageMap prompts true) None temperature topK topP))
            (Omi.reasoningStage (Some true) pc system temperature topK topP prompts)).
Proof.
  intros W collab p s init lastTurn g pc w1 Hauto Hprompts Hobject Huse files first firstB.
  split; [| split; [| split]].
  - intros H. unfold Omi.generate. cbv zeta. rewrite Hprompts, last_Some_app.
    rewrite (bind_step _ _ s s (content lastTurn)) by reflexivity.
    rewrite (bind_step _ _ s (with_genFiles [] s) tt) by reflexivity.
    rewrite (bind_step _ _ (with_genFiles [] s)
                       (after (with_genFiles [] s) w1 [CallGenerateObject first]) pc)
      by (rewrite (Omi_decidePreConfig_first W _ _ (with_genFiles [] s) g w1) by exact H;
          unfold decided; now rewrite Hobject).
    match goal with |- context [snd (?m ?s1)] => destruct (m s1) as [r s'] eqn:E end.
    apply Omi_no_tool_call_after_planner in E; [| exact Hauto | exact Huse |].
    + destruct E as [cs [Hcs Hall]]. exists cs. cbn [snd]. rewrite Hcs.
      cbn [calls after with_genFiles]. rewrite <- app_assoc. split; [reflexivity | exact Hall].
    + intros [[prompts4 toolUsed4] rt].
      apply emits_bind; [| intros [llmResp |]].
      * eapply emits_weaken; [| apply emits_finalStage].
        apply from_stage_no_tool_call; discriminate.
      * apply emits_bind; [apply emits_genFiles_read | intros ?; apply emits_ret].
      * apply emits_throw.
  - intros H. unfold OmiB.generate. cbv zeta. rewrite Hprompts, last_Some_app.
    rewrite (bind_step _ _ s s (content lastTurn)) by reflexivity.
    rewrite (bind_step _ _ s (with_genFiles [] s) tt) by reflexivity.
    rewrite (bind_step _ _ (with_genFiles [] s)
                       (after (with_genFiles [] s) w1 [CallGenerateObject firstB]) (Some pc))
      by (rewrite (OmiB_planner_first W _ _ (with_genFiles [] s) g w1) by exact H;
          now rewrite Hobject).
    rewrite (bind_step _ _ _ (after (with_genFiles [] s) w1 [CallGenerateObject firstB]) pc)
      by reflexivity.
    match goal with |- context [snd (?m ?s1)] => destruct (m s1) as [r s'] eqn:E end.
    apply OmiB_no_tool_call_after_planner in E; [| exact Hauto | exact Huse |].
    + destruct E as [cs [Hcs Hall]]. exists cs. cbn [snd]. rewrite Hcs.
      cbn [calls after with_genFiles]. rewrite <- app_assoc. split; [reflexivity | exact Hall].
    + intros [[prompts4 toolUsed4] rt].
      apply emits_bind; [| intros [llmResp |]].
      * eapply emits_weaken; [| apply emitsB_finalStage].
        apply from_stage_no_tool_call; discriminate.
      * apply emits_bind; [apply emits_genFiles_read | intros ?; apply emits_ret].
      * apply emits_throw.
  - intros q prompts toolUsed0 Hq.
    exact (proj1 (caller_flags_override_planner W collab pc (Some true) None None
                    None 0%Q None None [] (Some q) [] prompts toolUsed0) q eq_refl Hq).
  - intros system temperature topK topP prompts.
    exact (proj1 (proj2 (caller_flags_override_planner W collab pc None (Some true) None
                           system temperature topK topP [] None [] prompts []))).
Qed.

Lemma forcing_tool_use_defers_to_the_planner_witness :
  let run := Omi.generate (collab := world_four) with_autoTool initial in
  map stage_of (calls (snd run)) = [Planning; FinalGeneration]
  /\ exists cs,
      calls (snd run)
      = (calls initial
           ++ CallGenerateObject
                (plannerOpts (groq "llama-3.3-70b-specdec")
                             (allToolsOf (collab := world_four) None []) [two_plus_two_turn])
           :: cs)%list
      /\ no_tool_call cs.
Proof.
  intros run. split; [reflexivity |].
  exact (proj1 (forcing_tool_use_defers_to_the_planner nat world_four with_autoTool initial
                  [] two_plus_two_turn (decision "gpt-4o" false false false) all_off 1
                  eq_refl eq_refl eq_refl eq_refl)
               eq_refl).
Defined.

(** ** The reasoning text in the result *)

Lemma last_Some_inv {A} (l : list A) (x : A) :
  last (map Some l) None = Some x -> exists init, l = (init ++ [x])%list.
Proof.
  induction l as [| y [| z l] IH]; cbn [map last]; intros H.
  - discriminate.
  - injection H as ->. now exists [].
  - destruct (IH H) as [init ->]. now exists (y :: init).
Qed.

Section ReasoningText.

Variable W : Type.
Context {collab : Collaborators W}.

(** The reasoning stage, taken apart: skipped when its guard is false;
    otherwise answered by one of its two models, with the extracted text
    returned and the turn made of it inserted before the last turn. *)
Lemma Omi_reasoningStage_Ok_inv (p : GenerateParams W) pc init lastTurn prompts3 rt
      (s3 s4 : State W) :
  Omi.reasoningStage (p_reasoning p) pc (p_system p) (temperatureOf p) (p_topK p) (p_topP p)
                     (init ++ [lastTurn]) s3
  = (Ok (prompts3, rt), s4) ->
  if Omi.reasoningGuard (p_reasoning p) pc
  then (exists r, reasoning_answered p (init ++ [lastTurn]) s3 r s4
                  /\ rt = reasoningTextOf (Some r))
       /\ prompts3 = (init ++ [contextTurn rt; lastTurn])%list
  else rt = None /\ prompts3 = (init ++ [lastTurn])%list /\ s4 = s3.
Proof.
  unfold Omi.reasoningStage. destruct (Omi.reasoningGuard (p_reasoning p) pc).
  - intros E. apply bind_Ok_inv in E. destruct E as [reasoningResult [s0 [Hfb E]]].
    cbv zeta in E. injection E as <- <- <-.
    rewrite splice_before_last. split; [| reflexivity].
    rewrite fallback_attempts, attempts_two in Hfb. cbv beta zeta in Hfb.
    unfold reasoning_answered, reasonCall. cbv zeta.
    match type of Hfb with
    | context [external_exec ?c ?f s3] =>
        destruct (external_exec c f s3) as [[r | e] sa] eqn:E1
    end.
    + injection Hfb as <- <-. exists r. split; [now left | reflexivity].
    + match type of Hfb with
      | context [external_exec ?c ?f sa] =>
          destruct (external_exec c f sa) as [[r | e2] sb] eqn:E2
      end; [| discriminate].
      injection Hfb as <- <-. exists r. split; [| reflexivity].
      right. exists e, sa. split; [exact E1 | exact E2].
  - intros E. injection E as <- <- <-. repeat split.
Qed.

Lemma Omi_finalStage_messages modelConfig reasoningText stream schema system temperature
      topK topP prompts (s s' : State W) (o : option Resp) :
  Omi.finalStage modelConfig reasoningText stream schema system temperature topK topP
                 prompts s = (Ok o, s') ->
  exists cs c, calls s' = (cs ++ [c])%list
               /\ messages_sent FinalGeneration [c] = [messageMap prompts false].
Proof.
  unfold Omi.finalStage. intros E.
  apply bind_Ok_inv in E. destruct E as [candidate [s1 [_ E]]].
  rewrite fallback_attempts in E. apply attempts_Ok_inv in E.
  destruct E as [b [s0 [llmResp [E _]]]].
  apply bind_Ok_inv in E. destruct E as [model [s2 [_ E]]]. cbv zeta in E.
  destruct (spread_text_keeps
              (Omi.messagesOpts model system (messageMap prompts false) schema
                                temperature topK topP) b)
    as (_ & _ & Hm & _).
  destruct (flag_truthy stream);
    apply bind_Ok_inv in E; destruct E as [r [s3 [Hcall E]]]; injection E as _ <-;
    apply external_exec_calls in Hcall; eexists _, _; (split; [exact Hcall |]);
    cbn [messages_sent text_opts stage_of Stage_eqb]; rewrite Hm; reflexivity.
Qed.

End ReasoningText.

(** C10.  Every request that [generate] answers passed the Planner, the web
    search and the tool-calling sub-run, and entered the reasoning stage with
    a conversation that ends with some turn [lastTurn].  When the guard of
    the stage is false the stage leaves everything as it is and there is no
    reasoning text.  When it holds, the sub-run was answered by one of its two
    models, the reasoning text [rt] is what [reasoningTextOf] extracts from
    that answer, and the turn ["Context: " ++ rt] was inserted before
    [lastTurn], whatever [rt] is; that turn is part of the conversation the
    final generation is sent.  The result carries [reasoningText] only when
    [rt] is a non-empty string, and then it is [rt]: when the extracted text
    is the empty string, the turn ["Context: "] was inserted and the result
    carries no [reasoningText]. *)
Theorem empty_reasoning_text_is_not_attached :
  forall (W : Type) (collab : Collaborators W) (p : GenerateParams W)
         (s s' : State W) (res : GenerateResponse),
    Omi.generate p s = (Ok res, s') ->
    exists pc init lastTurn s3 prompts3 rt s4 prompts4 s5,
      reaches_reasoning p s pc (init ++ [lastTurn]) s3
      /\ Omi.reasoningStage (p_reasoning p) pc (p_system p) (temperatureOf p)
                            (p_topK p) (p_topP p) (init ++ [lastTurn]) s3
         = (Ok (prompts3, rt), s4)
      /\ (if Omi.reasoningGuard (p_reasoning p) pc
          then (exists r, reasoning_answered p (init ++ [lastTurn]) s3 r s4
                          /\ rt = reasoningTextOf (Some r))
               /\ prompts3 = (init ++ [contextTurn rt; lastTurn])%list
               /\ In (contextTurn rt) prompts4
          else rt = None /\ prompts3 = (init ++ [lastTurn])%list /\ s4 = s3)
      /\ Omi.multiLLMStage (p_multiLLM p) (p_system p) (temperatureOf p)
                           (p_topK p) (p_topP p) prompts3 s4
         = (Ok prompts4, s5)
      /\ (exists llmResp,
            Omi.finalStage (get Omi.modelList (pc_model pc)) rt (p_stream p) (p_schema p)
                           (p_system p) (temperatureOf p) (p_topK p) (p_topP p) prompts4 s5
            = (Ok (Some llmResp), s'))
      /\ (exists cs c, calls s' = (cs ++ [c])%list
                       /\ messages_sent FinalGeneration [c] = [messageMap prompts4 false])
      /\ reasoningText res = attached rt
      /\ (rt = Some EmptyString ->
          reasoningText res = None
          /\ contextTurn rt = {| role := User; content := Text "Context: " |}).
Proof.
  intros W collab p s s' res E.
  unfold Omi.generate in E. cbv zeta in E.
  apply bind_Ok_inv in E. destruct E as [lastPromptContent [s0 [Hlast E]]].
  destruct (last (map Some (promptsOf (p_prompt p))) None) as [m |] eqn:Hm;
    [| discriminate].
  injection Hlast as <- <-.
  destruct (last_Some_inv _ _ Hm) as [init0 Hprompts].
  apply bind_Ok_inv in E. destruct E as [[] [s0' [Hreset E]]].
  injection Hreset as <-.
  apply bind_Ok_inv in E. destruct E as [pc [s1 [Hpc E]]].
  apply bind_Ok_inv in E. destruct E as [[[prompts4 toolUsed4] rt] [s5 [Haug E]]].
  apply bind_Ok_inv in E. destruct E as [[llmResp |] [s6 [Hfinal E]]]; [| discriminate].
  apply bind_Ok_inv in E. destruct E as [g [s7 [Hread E]]].
  injection Hread as <- <-. injection E as <- <-.
  unfold Omi.augment in Haug. cbv zeta in Haug.
  apply bind_Ok_inv in Haug. destruct Haug as [[prompts1 toolUsed1] [s2 [Hweb Haug]]].
  apply bind_Ok_inv in Haug.
  destruct Haug as [[[prompts2 toolUsed2] toolText] [s3 [Htool Haug]]].
  apply bind_Ok_inv in Haug. destruct Haug as [[prompts3 rt3] [s4 [Hreason Haug]]].
  apply bind_Ok_inv in Haug. destruct Haug as [prompts4' [s5' [Hmulti Haug]]].
  injection Haug as <- <- <- <-.
  rewrite Hprompts in Hpc, Hweb.
  assert (Hshape : exists init lastTurn, prompts2 = (init ++ [lastTurn])%list).
  { destruct (Omi_webSearchStage_inserts W _ _ _ _ _ _ _ _ _ _ Hweb) as [a1 [-> _]].
    destruct (Omi.toolGuard (autoToolOf (p_autoTool p)) pc) eqn:Hguard.
    - apply Omi_toolStage_appends in Htool; [| exact Hguard]. eexists _, _. exact Htool.
    - apply Omi_toolStage_skips in Htool; [| exact Hguard]. destruct Htool as [-> _].
      exists (init0 ++ a1)%list, m. now rewrite <- app_assoc. }
  destruct Hshape as (init & lastTurn & ->).
  pose proof (Omi_reasoningStage_Ok_inv W p pc init lastTurn prompts3 rt3 s3 s4 Hreason)
    as Hinv.
  exists pc, init, lastTurn, s3, prompts3, rt3, s4, prompts4', s5'.
  split; [| split; [exact Hreason | split; [| split; [exact Hmulti | split; [| split; [| split]]]]]].
  - exists init0, m, s1, prompts1, toolUsed1, s2, toolUsed2, toolText. cbv zeta.
    split; [exact Hprompts |]. split; [exact Hpc |]. split; [exact Hweb | exact Htool].
  - destruct (Omi.reasoningGuard (p_reasoning p) pc).
    + destruct Hinv as [Hr ->]. split; [exact Hr |]. split; [reflexivity |].
      change (init ++ [contextTurn rt3; lastTurn])%list
        with (init ++ [contextTurn rt3] ++ [lastTurn])%list in Hmulti.
      rewrite app_assoc in Hmulti.
      destruct (Omi_multiLLMStage_inserts W _ _ _ _ _ _ _ _ _ _ Hmulti) as [a4 [-> _]].
      apply in_or_app. left. apply in_or_app. right. now left.
    + exact Hinv.
  - now exists llmResp.
  - exact (Omi_finalStage_messages W _ _ _ _ _ _ _ _ _ _ _ _ Hfinal).
  - cbn [reasoningText Omi.assemble]. destruct rt3 as [[| c t] |]; reflexivity.
  - intros ->. split; reflexivity.
Qed.

Lemma empty_reasoning_text_is_not_attached_witness :
  let run := Omi.generate (collab := world_empty_think) with_reasoning initial in
  (match fst run with
   | Ok res => reasoningText res = None
   | Throw _ => False
   end)
  /\ messages_sent FinalGeneration (calls (snd run))
     = [[user_text "Context: "; user_text "What is 2+2?"]].
Proof.
  intros run. split; [| reflexivity].
  destruct (fst run) as [res |] eqn:Eres; [| vm_compute in Eres; discriminate].
  destruct (empty_reasoning_text_is_not_attached nat world_empty_think with_reasoning
              initial (snd run) res)
    as (pc & init & lastTurn & s3 & prompts3 & rt & s4 & prompts4 & s5
        & _ & _ & Hstage & _ & _ & _ & _ & Hempty).
  - rewrite <- Eres. apply surjective_pairing.
  - apply Hempty.
    change (Omi.reasoningGuard (p_reasoning with_reasoning) pc) with true in Hstage.
    destruct Hstage as [[r [Hans ->]] _].
    destruct Hans as [H1 | (e & sa & H1 & _)];
      unfold reasonCall, external_exec in H1; cbn in H1;
      [injection H1 as <- _; reflexivity | discriminate].
Defined.
